(** * Drowsiness-controlled car: debouncer, decision step and actuator link

    A shallow embedding of the control logic of the Python programs
    [eye_controlled_car.py], [eye_controlled_car_with_voice.py],
    [simple_sleepiness_detection.py] and [sleepiness_detection.py], and the
    properties of the debounced state machine and of the serial command
    protocol proved about it.

    Python integers are [Z]; Python floats are IEEE binary64 numbers and are
    reached through the interface [Arith], instantiated by the primitive
    floats (what the interpreter computes).  Mutable instance fields are
    threaded through a state-and-exception monad. *)

From Stdlib Require Import ZArith List Bool String Ascii Lia.
From Stdlib Require Import Floats Uint63.
Import ListNotations.

Set Implicit Arguments.
Set Warnings "-inexact-float".
Local Open Scope string_scope.
Local Open Scope list_scope.
Local Open Scope Z_scope.

(* ================================================================== *)
(** ** Numbers *)

(** The float operations the programs use.  [flit_0_21] is the literal
    [0.21]; [fltb x y] is Python's [x < y]. *)
Class Arith (F : Type) : Type := {
  fadd : F -> F -> F;
  fsub : F -> F -> F;
  fmul : F -> F -> F;
  fdiv : F -> F -> F;
  fsqrt : F -> F;
  of_int : Z -> F;
  fltb : F -> F -> bool;
  flit_0_21 : F
}.

(** Conversion of a Python int to binary64 (exact below 2^53). *)
Definition float_of_Z (z : Z) : float :=
  if z <? 0 then PrimFloat.opp (PrimFloat.of_uint63 (Uint63.of_Z (- z)))
  else PrimFloat.of_uint63 (Uint63.of_Z z).

#[export] Instance float_arith : Arith float := {|
  fadd := PrimFloat.add;
  fsub := PrimFloat.sub;
  fmul := PrimFloat.mul;
  fdiv := PrimFloat.div;
  fsqrt := PrimFloat.sqrt;
  of_int := float_of_Z;
  fltb := PrimFloat.ltb;
  flit_0_21 := 0.21%float
|}.

(* ================================================================== *)
(** ** Exceptions, state and the monad *)

(** The exceptions the embedded code can meet. *)
Inductive Exn : Type :=
| SerialException      (* raised by pyserial: open, write or flush failed *)
| PortNotOpenError     (* raised by pyserial: operation on a closed port *)
| IndexError.          (* indexing past the end of a sequence *)

(** A computation over a mutable state [S] that returns an [A] or raises;
    the state survives an exception, as the fields of a Python object do. *)
Definition M (S A : Type) : Type := S -> (Exn + A) * S.

Definition ret {S A} (a : A) : M S A := fun s => (inr a, s).

Definition bind {S A B} (c : M S A) (k : A -> M S B) : M S B :=
  fun s => match c s with
           | (inr a, s1) => k a s1
           | (inl e, s1) => (inl e, s1)
           end.

Definition raise {S A} (e : Exn) : M S A := fun s => (inl e, s).

(** [try: c  except Exception as e: h e] *)
Definition try_except {S A} (c : M S A) (h : Exn -> M S A) : M S A :=
  fun s => match c s with
           | (inr a, s1) => (inr a, s1)
           | (inl e, s1) => h e s1
           end.

(** [try: c  finally: k] *)
Definition try_finally {S A} (c : M S A) (k : M S unit) : M S A :=
  fun s => match c s with
           | (r, s1) => match k s1 with
                        | (inr _, s2) => (r, s2)
                        | (inl e, s2) => (inl e, s2)
                        end
           end.

Definition gets {S A} (f : S -> A) : M S A := fun s => (inr (f s), s).
Definition modify {S} (f : S -> S) : M S unit := fun s => (inr tt, f s).

Notation "x <- c ;; k" := (bind c (fun x => k))
  (at level 61, c at next level, right associativity).
Notation "c ;; k" := (bind c (fun _ => k))
  (at level 61, right associativity).

(** [if b: c] with no [else]. *)
Definition when {S} (b : bool) (c : M S unit) : M S unit :=
  if b then c else ret tt.

(** [for x in xs: body x] *)
Fixpoint for_each {S A} (xs : list A) (body : A -> M S unit) : M S unit :=
  match xs with
  | [] => ret tt
  | x :: rest => body x ;; for_each rest body
  end.

(** [for x in xs: ys.append(body x)], the list of the results. *)
Fixpoint for_collect {S A B} (xs : list A) (body : A -> M S B) : M S (list B) :=
  match xs with
  | [] => ret []
  | x :: rest => y <- body x ;; ys <- for_collect rest body ;; ret (y :: ys)
  end.

(* ================================================================== *)
(** ** The serial port (pyserial) *)

(** A [serial.Serial] object as the programs see it.  [wire] is what the
    peer has received so far; [faults] is the device's future: each write or
    flush consumes one entry, and [true] makes that operation raise. *)
Record Serial : Type := mkSerial {
  is_open : bool;
  wire : list ascii;
  faults : list bool
}.

Definition next_fault (p : Serial) : bool * Serial :=
  match faults p with
  | [] => (false, p)
  | b :: fs => (b, mkSerial (is_open p) (wire p) fs)
  end.

(** [port.write(data)] *)
Definition Serial_write (data : list ascii) : M Serial unit :=
  fun p =>
    if negb (is_open p) then (inl PortNotOpenError, p)
    else let (bad, p1) := next_fault p in
         if bad then (inl SerialException, p1)
         else (inr tt, mkSerial (is_open p1) (wire p1 ++ data) (faults p1)).

(** [port.flush()] *)
Definition Serial_flush : M Serial unit :=
  fun p =>
    if negb (is_open p) then (inl PortNotOpenError, p)
    else let (bad, p1) := next_fault p in
         if bad then (inl SerialException, p1) else (inr tt, p1).

(** [port.close()] *)
Definition Serial_close : M Serial unit :=
  fun p => (inr tt, mkSerial false (wire p) (faults p)).

(** [signal.encode()] *)
Definition encode (signal : string) : list ascii := list_ascii_of_string signal.

(* ================================================================== *)
(** ** What a run leaves behind *)

Inductive Msg : Type :=
| MsgConnected         (* "Arduino connected on ..." *)
| MsgConnectWarning    (* "Warning: Could not connect to Arduino on ..." *)
| MsgSendError         (* "Error sending to Arduino: ..." *)
| MsgCarStarted        (* "CAR STARTED - Eyes are open!" *)
| MsgCarStopped        (* "CAR STOPPED - Eyes are closed!" *)
| MsgCleaningUp        (* "Cleaning up..." *)
| MsgShutDown.         (* "System shut down ..." *)

Inductive Event : Type :=
| EvSend (signal : string)   (* [send_to_arduino(signal)] was called *)
| EvPrint (m : Msg)          (* a line on the console *)
| EvSay (text : string)      (* [say_voice(text)] was called *)
| EvSleep.                   (* [time.sleep(...)] *)

(** An object of one of the detector classes: the fields [D] that are the
    class's own, the [arduino] attribute every class has ([None] when there
    is no link) and the events so far, oldest first. *)
Record Machine (D : Type) : Type := mkMachine {
  self : D;
  arduino : option Serial;
  trace : list Event
}.

Arguments mkMachine {D} _ _ _.

Definition set_self {D} (f : D -> D) (m : Machine D) : Machine D :=
  mkMachine (f (self m)) (arduino m) (trace m).
Definition set_arduino {D} (a : option Serial) (m : Machine D) : Machine D :=
  mkMachine (self m) a (trace m).
Definition emit {D} (e : Event) : M (Machine D) unit :=
  modify (fun m => mkMachine (self m) (arduino m) (trace m ++ [e])).

(** Run a port operation on the object behind [self.arduino]. *)
Definition on_port {D A} (p : Serial) (op : M Serial A) : M (Machine D) A :=
  fun m => match op p with
           | (r, p1) => (r, set_arduino (Some p1) m)
           end.

(** The port behind [self.arduino], re-read at each use. *)
Definition the_port {D A} (k : Serial -> M (Machine D) A) (dflt : M (Machine D) A)
  : M (Machine D) A :=
  fun m => match arduino m with
           | Some p => k p m
           | None => dflt m
           end.

(** [send_to_arduino], the same text in the four classes:
<<
    if self.arduino and self.arduino.is_open:
        try:
            self.arduino.write(signal.encode())
            self.arduino.flush()
        except Exception as e:
            print(f"Error sending to Arduino: {e}")
>> *)
Definition send_to_arduino {D} (signal : string) : M (Machine D) unit :=
  emit (EvSend signal) ;;
  the_port
    (fun p =>
       when (is_open p)
         (try_except
            (on_port p (Serial_write (encode signal)) ;;
             the_port (fun p1 => on_port p1 Serial_flush) (ret tt))
            (fun _ => emit (EvPrint MsgSendError))))
    (ret tt).

(** [setup_arduino]; [opened] is what [serial.Serial(port, baud_rate,
    timeout=1)] does, and [first] the byte the class sends once connected
    (['0'] in the car classes, ['1'] in the sleepiness detectors).
<<
    try:
        self.arduino = serial.Serial(port, baud_rate, timeout=1)
        time.sleep(2)
        print(f"Arduino connected on {port}")
        self.send_to_arduino(first)
    except Exception as e:
        print(f"Warning: Could not connect to Arduino on {port}")
        self.arduino = None
>> *)
Definition setup_arduino {D} (first : string) (opened : Exn + Serial)
  : M (Machine D) unit :=
  try_except
    (match opened with
     | inl e => raise e
     | inr p =>
         modify (set_arduino (Some p)) ;;
         emit EvSleep ;;
         emit (EvPrint MsgConnected) ;;
         send_to_arduino first
     end)
    (fun _ =>
       emit (EvPrint MsgConnectWarning) ;;
       modify (set_arduino None)).

(** The sends among some events, in order. *)
Fixpoint sends (evs : list Event) : list string :=
  match evs with
  | [] => []
  | EvSend s :: rest => s :: sends rest
  | _ :: rest => sends rest
  end.

(** What [say_voice] was called with among some events, in order. *)
Fixpoint says (evs : list Event) : list string :=
  match evs with
  | [] => []
  | EvSay s :: rest => s :: says rest
  | _ :: rest => says rest
  end.

(* ================================================================== *)
(** ** Frames and detection outcomes *)

(** A rectangle [(x, y, w, h)] as the cascade classifiers return it. *)
Definition Rect : Type := (Z * Z * Z * Z)%type.

(** What the two cascade classifiers find in a camera frame: the faces, and
    the eyes inside the largest face. *)
Record Frame : Type := mkFrame {
  faces : list Rect;
  eyes : list Rect
}.

(** [len(xs)] as a Python int. *)
Definition len {A} (xs : list A) : Z := Z.of_nat (List.length xs).

(** The four outcomes of one look at the driver. *)
Inductive DetectionState : Type :=
| EYES_OPEN
| EYES_CLOSED
| UNCERTAIN
| NO_FACE.

(** The status line the discrete detectors return with their verdict. *)
Inductive Status : Type :=
| StNoDriver                 (* "No driver detected - Car STOPPED" / "No face detected" *)
| StSearching (n : Z)        (* "Searching for face... (n)" *)
| StClosed (n : Z)           (* "Eyes CLOSED - Car STOPPED (n)" / "DROWSINESS ALERT! (n)" *)
| StChecking (n : Z)         (* "Checking... (n)" / "Eyes possibly closed... (n)" *)
| StOpen (n : Z).            (* "Eyes OPEN - Car RUNNING (n eyes)" / "Eyes open (n eyes detected)" *)

(** Which outcome a returned status line stands for. *)
Definition outcome_of_status (st : Status) : DetectionState :=
  match st with
  | StNoDriver | StSearching _ => NO_FACE
  | StClosed _ => EYES_CLOSED
  | StChecking _ => UNCERTAIN
  | StOpen _ => EYES_OPEN
  end.

(** A frame with a face in which fewer than two eyes are found. *)
Definition closed_frame (f : Frame) : Prop :=
  len (faces f) <> 0 /\ len (eyes f) < 2.

(** A frame with a face in which two or more eyes are found. *)
Definition open_frame (f : Frame) : Prop :=
  len (faces f) <> 0 /\ 2 <= len (eyes f).

(** A frame without a face. *)
Definition no_face_frame (f : Frame) : Prop := len (faces f) = 0.

(* ================================================================== *)
(** ** [eye_controlled_car.py]: class [EyeControlledCar] *)

Module EyeControlledCar.

Record Fields : Type := mkFields {
  EYE_CLOSED_THRESHOLD : Z;
  eye_closed_counter : Z;
  no_face_counter : Z;
  frame_count : Z;
  car_running : bool
}.

Definition Car : Type := Machine Fields.

Definition set_eye_closed_counter (v : Z) (d : Fields) : Fields :=
  mkFields (EYE_CLOSED_THRESHOLD d) v (no_face_counter d) (frame_count d) (car_running d).
Definition set_no_face_counter (v : Z) (d : Fields) : Fields :=
  mkFields (EYE_CLOSED_THRESHOLD d) (eye_closed_counter d) v (frame_count d) (car_running d).
Definition set_frame_count (v : Z) (d : Fields) : Fields :=
  mkFields (EYE_CLOSED_THRESHOLD d) (eye_closed_counter d) (no_face_counter d) v (car_running d).
Definition set_car_running (v : bool) (d : Fields) : Fields :=
  mkFields (EYE_CLOSED_THRESHOLD d) (eye_closed_counter d) (no_face_counter d) (frame_count d) v.

(** What [detect_eye_state] returns: [(eyes_open, status, eye_count)],
    with [eyes_open] one of [True], [False], [None]. *)
Definition Verdict : Type := (option bool * Status * Z)%type.

Definition eyes_open (v : Verdict) : option bool := fst (fst v).
Definition status (v : Verdict) : Status := snd (fst v).
Definition outcome (v : Verdict) : DetectionState := outcome_of_status (status v).

(** [detect_eye_state(frame)] without the drawing. *)
Definition detect_eye_state (frame : Frame) : M Car Verdict :=
  if len (faces frame) =? 0 then
    modify (set_self (fun d => set_no_face_counter (no_face_counter d + 1) d)) ;;
    modify (set_self (set_eye_closed_counter 0)) ;;
    ret (Some false, StNoDriver, 0)
  else
    modify (set_self (set_no_face_counter 0)) ;;
    if len (eyes frame) <? 2 then
      modify (set_self (fun d => set_eye_closed_counter (eye_closed_counter d + 1) d)) ;;
      c <- gets (fun m => eye_closed_counter (self m)) ;;
      t <- gets (fun m => EYE_CLOSED_THRESHOLD (self m)) ;;
      if c >? t then ret (Some false, StClosed c, len (eyes frame))
      else ret (None, StChecking c, len (eyes frame))
    else
      modify (set_self (set_eye_closed_counter 0)) ;;
      ret (Some true, StOpen (len (eyes frame)), len (eyes frame)).

(** The [if eyes_open is True: ... elif eyes_open is False: ...] block of
    [run], without the drawing. *)
Definition control_car (eyes_open : option bool) : M Car unit :=
  match eyes_open with
  | Some true =>
      running <- gets (fun m => car_running (self m)) ;;
      when (negb running)
        (send_to_arduino "1" ;;
         modify (set_self (set_car_running true)) ;;
         emit (EvPrint MsgCarStarted))
  | Some false =>
      running <- gets (fun m => car_running (self m)) ;;
      when running
        (send_to_arduino "0" ;;
         modify (set_self (set_car_running false)) ;;
         emit (EvPrint MsgCarStopped))
  | None => ret tt
  end.

(** One turn of the [while True] loop of [run] on a frame the camera
    delivered. *)
Definition step (frame : Frame) : M Car unit :=
  modify (set_self (fun d => set_frame_count (frame_count d + 1) d)) ;;
  v <- detect_eye_state frame ;;
  control_car (eyes_open v).

(** [cleanup]: stop the car, then close the port. *)
Definition cleanup : M Car unit :=
  emit (EvPrint MsgCleaningUp) ;;
  the_port
    (fun _ =>
       send_to_arduino "0" ;;
       emit EvSleep ;;
       the_port (fun p => on_port p Serial_close) (ret tt))
    (ret tt) ;;
  emit (EvPrint MsgShutDown).

(** [run] on the frames the camera delivers before the loop ends (camera
    failure, the quit key or a keyboard interrupt):
    [try: while ...  finally: self.cleanup()]. *)
Definition run (frames : list Frame) : M Car unit :=
  try_finally (for_each frames step) cleanup.

(** The object as the first lines of [__init__] make it. *)
Definition fresh : Car :=
  mkMachine (mkFields 15 0 0 0 false) None [].

(** [__init__], given what opening the serial port does; the camera is
    taken to open. *)
Definition init (opened : Exn + Serial) : (Exn + unit) * Car :=
  setup_arduino "0" opened fresh.

(** The verdicts of feeding frames to [detect_eye_state] one after the
    other. *)
Definition observe_all (frames : list Frame) : M Car (list Verdict) :=
  for_collect frames detect_eye_state.

End EyeControlledCar.

(* ================================================================== *)
(** ** [simple_sleepiness_detection.py]: class [SimpleSleepinessDetector] *)

Module SimpleSleepinessDetector.

Record Fields : Type := mkFields {
  FACE_ABSENT_THRESHOLD : Z;
  EYE_CLOSED_THRESHOLD : Z;
  face_absent_counter : Z;
  eye_closed_counter : Z;
  no_face_counter : Z
}.

Definition Detector : Type := Machine Fields.

Definition set_eye_closed_counter (v : Z) (d : Fields) : Fields :=
  mkFields (FACE_ABSENT_THRESHOLD d) (EYE_CLOSED_THRESHOLD d)
           (face_absent_counter d) v (no_face_counter d).
Definition set_no_face_counter (v : Z) (d : Fields) : Fields :=
  mkFields (FACE_ABSENT_THRESHOLD d) (EYE_CLOSED_THRESHOLD d)
           (face_absent_counter d) (eye_closed_counter d) v.

(** What [detect_sleepiness] returns: [(is_sleepy, status)]. *)
Definition Verdict : Type := (bool * Status)%type.

Definition is_sleepy (v : Verdict) : bool := fst v.
Definition outcome (v : Verdict) : DetectionState := outcome_of_status (snd v).

(** [detect_sleepiness(frame)] without the drawing. *)
Definition detect_sleepiness (frame : Frame) : M Detector Verdict :=
  if len (faces frame) =? 0 then
    modify (set_self (fun d => set_no_face_counter (no_face_counter d + 1) d)) ;;
    modify (set_self (set_eye_closed_counter 0)) ;;
    n <- gets (fun m => no_face_counter (self m)) ;;
    t <- gets (fun m => FACE_ABSENT_THRESHOLD (self m)) ;;
    if n >? t then ret (false, StNoDriver)
    else ret (false, StSearching n)
  else
    modify (set_self (set_no_face_counter 0)) ;;
    if len (eyes frame) <? 2 then
      modify (set_self (fun d => set_eye_closed_counter (eye_closed_counter d + 1) d)) ;;
      c <- gets (fun m => eye_closed_counter (self m)) ;;
      t <- gets (fun m => EYE_CLOSED_THRESHOLD (self m)) ;;
      if c >? t then ret (true, StClosed c)
      else ret (false, StChecking c)
    else
      modify (set_self (set_eye_closed_counter 0)) ;;
      ret (false, StOpen (len (eyes frame))).

(** The [if is_sleepy: ... else: ...] of [run]. *)
Definition signal_alert (sleepy : bool) : M Detector unit :=
  if sleepy then send_to_arduino "0" else send_to_arduino "1".

(** One turn of the loop of [run]. *)
Definition step (frame : Frame) : M Detector unit :=
  v <- detect_sleepiness frame ;;
  signal_alert (is_sleepy v).

Definition cleanup : M Detector unit :=
  the_port
    (fun _ =>
       send_to_arduino "1" ;;
       emit EvSleep ;;
       the_port (fun p => on_port p Serial_close) (ret tt))
    (ret tt) ;;
  emit (EvPrint MsgShutDown).

Definition run (frames : list Frame) : M Detector unit :=
  try_finally (for_each frames step) cleanup.

Definition fresh : Detector :=
  mkMachine (mkFields 30 20 0 0 0) None [].

Definition init (opened : Exn + Serial) : (Exn + unit) * Detector :=
  setup_arduino "1" opened fresh.

End SimpleSleepinessDetector.

(* ================================================================== *)
(** ** [sleepiness_detection.py]: class [SleepinessDetector] *)

(** A landmark [(x, y)] in pixels. *)
Definition Point : Type := (Z * Z)%type.

(** A face the dlib detector found: [shape.part(i)] for the 68 landmarks the
    predictor puts on it. *)
Record Face : Type := mkFace {
  part : nat -> Point
}.

Module SleepinessDetector.
Section WithArith.

Context {F : Type} {arith : Arith F}.

Record Fields : Type := mkFields {
  EAR_THRESHOLD : F;
  CONSECUTIVE_FRAMES : Z;
  frame_counter : Z;
  sleepy_counter : Z
}.

Definition Detector : Type := Machine Fields.

Definition set_frame_counter (v : Z) (d : Fields) : Fields :=
  mkFields (EAR_THRESHOLD d) (CONSECUTIVE_FRAMES d) v (sleepy_counter d).
Definition set_sleepy_counter (v : Z) (d : Fields) : Fields :=
  mkFields (EAR_THRESHOLD d) (CONSECUTIVE_FRAMES d) (frame_counter d) v.

(** [list(range(42, 48))] and [list(range(36, 42))]. *)
Definition LEFT_EYE_POINTS : list nat := seq 42 6.
Definition RIGHT_EYE_POINTS : list nat := seq 36 6.

(** [scipy.spatial.distance.euclidean(u, v)] on two landmarks. *)
Definition euclidean (u v : Point) : F :=
  let dx := of_int (fst u - fst v) in
  let dy := of_int (snd u - snd v) in
  fsqrt (fadd (fmul dx dx) (fmul dy dy)).

(** [eye_points[i]] *)
Definition index (eye_points : list Point) (i : nat) : Exn + Point :=
  match nth_error eye_points i with
  | Some p => inr p
  | None => inl IndexError
  end.

(** [calculate_ear(eye_points)]:
<<
    A = distance.euclidean(eye_points[1], eye_points[5])
    B = distance.euclidean(eye_points[2], eye_points[4])
    C = distance.euclidean(eye_points[0], eye_points[3])
    ear = (A + B) / (2.0 * C)
>> *)
Definition calculate_ear (eye_points : list Point) : Exn + F :=
  match index eye_points 1, index eye_points 5 with
  | inr q1, inr q5 =>
      let A := euclidean q1 q5 in
      match index eye_points 2, index eye_points 4 with
      | inr q2, inr q4 =>
          let B := euclidean q2 q4 in
          match index eye_points 0, index eye_points 3 with
          | inr q0, inr q3 =>
              let C := euclidean q0 q3 in
              inr (fdiv (fadd A B) (fmul (of_int 2) C))
          | inl e, _ | _, inl e => inl e
          end
      | inl e, _ | _, inl e => inl e
      end
  | inl e, _ | _, inl e => inl e
  end.

(** [extract_eye_points(shape, eye_indices)] *)
Definition extract_eye_points (shape : Face) (eye_indices : list nat) : list Point :=
  map (part shape) eye_indices.

(** [avg_ear = (left_ear + right_ear) / 2.0] *)
Definition average (left_ear right_ear : F) : F :=
  fdiv (fadd left_ear right_ear) (of_int 2).

(** The averaged ratio [process_frame] computes for a face. *)
Definition avg_ear (face : Face) : Exn + F :=
  match calculate_ear (extract_eye_points face LEFT_EYE_POINTS) with
  | inl e => inl e
  | inr left_ear =>
      match calculate_ear (extract_eye_points face RIGHT_EYE_POINTS) with
      | inl e => inl e
      | inr right_ear => inr (average left_ear right_ear)
      end
  end.

Definition lift {S A} (r : Exn + A) : M S A :=
  match r with
  | inl e => raise e
  | inr a => ret a
  end.

(** The eye check of [process_frame] on an averaged ratio.  The method
    itself returns only the annotated image; here the result says which
    branch ran. *)
Definition check_eyes (ear : F) : M Detector DetectionState :=
  thr <- gets (fun m => EAR_THRESHOLD (self m)) ;;
  if fltb ear thr then
    modify (set_self (fun d => set_frame_counter (frame_counter d + 1) d)) ;;
    c <- gets (fun m => frame_counter (self m)) ;;
    n <- gets (fun m => CONSECUTIVE_FRAMES (self m)) ;;
    if c >=? n then
      modify (set_self (fun d => set_sleepy_counter (sleepy_counter d + 1) d)) ;;
      send_to_arduino "0" ;;
      ret EYES_CLOSED
    else ret UNCERTAIN
  else
    modify (set_self (set_frame_counter 0)) ;;
    send_to_arduino "1" ;;
    ret EYES_OPEN.

(** The body of [for face in faces:] in [process_frame]. *)
Definition process_face (face : Face) : M Detector DetectionState :=
  ear <- lift (avg_ear face) ;;
  check_eyes ear.

(** [process_frame(frame)], on the faces the dlib detector finds in the
    frame, without the drawing. *)
Definition process_frame (faces : list Face) : M Detector (list DetectionState) :=
  for_collect faces process_face.

Definition cleanup : M Detector unit :=
  emit (EvPrint MsgCleaningUp) ;;
  the_port
    (fun _ =>
       send_to_arduino "1" ;;
       emit EvSleep ;;
       the_port (fun p => on_port p Serial_close) (ret tt))
    (ret tt) ;;
  emit (EvPrint MsgShutDown).

Definition run (frames : list (list Face)) : M Detector unit :=
  try_finally (for_each frames (fun fr => process_frame fr ;; ret tt)) cleanup.

Definition fresh : Detector :=
  mkMachine (mkFields flit_0_21 20 0 0) None [].

Definition init (opened : Exn + Serial) : (Exn + unit) * Detector :=
  setup_arduino "1" opened fresh.

(** What successive calls of [process_frame] do, frame after frame. *)
Definition observe_all (frames : list (list Face))
  : M Detector (list (list DetectionState)) :=
  for_collect frames process_frame.

End WithArith.
End SleepinessDetector.

(* ================================================================== *)
(** ** [eye_controlled_car_with_voice.py]: class [EyeControlledCarWithVoice] *)

Module EyeControlledCarWithVoice.
Section WithArith.

Context {F : Type} {arith : Arith F}.

Record Fields : Type := mkFields {
  EYE_CLOSED_THRESHOLD : Z;
  eye_closed_counter : Z;
  no_face_counter : Z;
  frame_count : Z;
  car_running : bool;
  voice_active : bool
}.

Definition Car : Type := Machine Fields.

Definition set_eye_closed_counter (v : Z) (d : Fields) : Fields :=
  mkFields (EYE_CLOSED_THRESHOLD d) v (no_face_counter d) (frame_count d)
           (car_running d) (voice_active d).
Definition set_no_face_counter (v : Z) (d : Fields) : Fields :=
  mkFields (EYE_CLOSED_THRESHOLD d) (eye_closed_counter d) v (frame_count d)
           (car_running d) (voice_active d).
Definition set_frame_count (v : Z) (d : Fields) : Fields :=
  mkFields (EYE_CLOSED_THRESHOLD d) (eye_closed_counter d) (no_face_counter d) v
           (car_running d) (voice_active d).
Definition set_car_running (v : bool) (d : Fields) : Fields :=
  mkFields (EYE_CLOSED_THRESHOLD d) (eye_closed_counter d) (no_face_counter d)
           (frame_count d) v (voice_active d).
Definition set_voice_active (v : bool) (d : Fields) : Fields :=
  mkFields (EYE_CLOSED_THRESHOLD d) (eye_closed_counter d) (no_face_counter d)
           (frame_count d) (car_running d) v.

Definition Verdict : Type := (option bool * Status * Z)%type.

Definition eyes_open (v : Verdict) : option bool := fst (fst v).
Definition outcome (v : Verdict) : DetectionState := outcome_of_status (snd (fst v)).

(** [say_voice(text)].  Whether a speech engine exists, and whether it
    fails (which is caught inside and only printed), changes what is heard,
    not that the method was called. *)
Definition say_voice (text : string) : M Car unit := emit (EvSay text).

(** [detect_eye_state(frame)], the same text as in [EyeControlledCar]. *)
Definition detect_eye_state (frame : Frame) : M Car Verdict :=
  if len (faces frame) =? 0 then
    modify (set_self (fun d => set_no_face_counter (no_face_counter d + 1) d)) ;;
    modify (set_self (set_eye_closed_counter 0)) ;;
    ret (Some false, StNoDriver, 0)
  else
    modify (set_self (set_no_face_counter 0)) ;;
    if len (eyes frame) <? 2 then
      modify (set_self (fun d => set_eye_closed_counter (eye_closed_counter d + 1) d)) ;;
      c <- gets (fun m => eye_closed_counter (self m)) ;;
      t <- gets (fun m => EYE_CLOSED_THRESHOLD (self m)) ;;
      if c >? t then ret (Some false, StClosed c, len (eyes frame))
      else ret (None, StChecking c, len (eyes frame))
    else
      modify (set_self (set_eye_closed_counter 0)) ;;
      ret (Some true, StOpen (len (eyes frame)), len (eyes frame)).

Definition wake_messages : list string :=
  [ "Hey! Wake up!";
    "Open your eyes! Stay alert!";
    "Wake up driver! Safety first!";
    "Eyes open! Keep driving safely!";
    "Alert! Stay awake!";
    "Driver! Wake up now!" ].

(** What one turn of the loop reads from outside: the camera frame, the
    clock [time.time()] and the draw of [random.choice]. *)
Record Tick : Type := mkTick {
  frame : Frame;
  current_time : F;
  choice : nat
}.

(** The [if eyes_open is True: ... elif eyes_open is False: ...] block of
    [run]; [last_voice_time] is the local variable of [run], which the
    block may assign. *)
Definition control_car (eyes_open : option bool) (tk : Tick) (last_voice_time : F)
  : M Car F :=
  match eyes_open with
  | Some true =>
      running <- gets (fun m => car_running (self m)) ;;
      when (negb running)
        (send_to_arduino "1" ;;
         modify (set_self (set_car_running true)) ;;
         modify (set_self (set_voice_active false)) ;;
         emit (EvPrint MsgCarStarted) ;;
         say_voice "Good! Car running!") ;;
      ret last_voice_time
  | Some false =>
      running <- gets (fun m => car_running (self m)) ;;
      when running
        (send_to_arduino "0" ;;
         modify (set_self (set_car_running false)) ;;
         emit (EvPrint MsgCarStopped)) ;;
      active <- gets (fun m => voice_active (self m)) ;;
      if negb active || fltb (of_int 3) (fsub (current_time tk) last_voice_time) then
        modify (set_self (set_voice_active true)) ;;
        say_voice (nth (choice tk) wake_messages "Hey! Wake up!") ;;
        ret (current_time tk)
      else ret last_voice_time
  | None => ret last_voice_time
  end.

(** One turn of the [while True] loop of [run]. *)
Definition step (tk : Tick) (last_voice_time : F) : M Car F :=
  modify (set_self (fun d => set_frame_count (frame_count d + 1) d)) ;;
  v <- detect_eye_state (frame tk) ;;
  control_car (eyes_open v) tk last_voice_time.

(** The loop of [run] on the turns taken before it ends. *)
Fixpoint loop (ticks : list Tick) (last_voice_time : F) : M Car F :=
  match ticks with
  | [] => ret last_voice_time
  | tk :: rest => t <- step tk last_voice_time ;; loop rest t
  end.

Definition cleanup : M Car unit :=
  emit (EvPrint MsgCleaningUp) ;;
  the_port
    (fun _ =>
       send_to_arduino "0" ;;
       emit EvSleep ;;
       the_port (fun p => on_port p Serial_close) (ret tt))
    (ret tt) ;;
  say_voice "System shutdown. Drive safely!" ;;
  emit EvSleep ;;
  emit (EvPrint MsgShutDown).

(** [run]: [last_voice_time = 0], the loop, and [cleanup] at the end. *)
Definition run (ticks : list Tick) : M Car unit :=
  try_finally (loop ticks (of_int 0) ;; ret tt) cleanup.

(** The object as the first lines of [__init__] make it. *)
Definition fresh : Car :=
  mkMachine (mkFields 15 0 0 0 false false) None [].

Definition init (opened : Exn + Serial) : (Exn + unit) * Car :=
  (setup_arduino "0" opened ;;
   say_voice "System ready! Eye controlled car activated!") fresh.

End WithArith.
End EyeControlledCarWithVoice.

(* ================================================================== *)
(** ** Notions the statements use *)

(** Whether there is a link and whether its port is open. *)
Definition link_status (a : option Serial) : option bool :=
  match a with
  | None => None
  | Some p => Some (is_open p)
  end.

(** What a port has received is only ever extended. *)
Definition wire_of (a : option Serial) : list ascii :=
  match a with
  | None => []
  | Some p => wire p
  end.

(** Where a verdict sends the car: [True] to running, [False] to stopped,
    [None] nowhere. *)
Definition target (eyes_open : option bool) (running : bool) : bool :=
  match eyes_open with
  | Some b => b
  | None => running
  end.

(** The command that goes with the move, if the car does move. *)
Definition command (eyes_open : option bool) (running : bool) : list string :=
  match eyes_open with
  | Some true => if running then [] else ["1"]
  | Some false => if running then ["0"] else []
  | None => []
  end.

(** The verdict [detect_eye_state] gives on a frame, as a function of the
    counter and the threshold it finds. *)
Definition car_verdict (f : Frame) (d : EyeControlledCar.Fields)
  : EyeControlledCar.Verdict :=
  if len (faces f) =? 0 then (Some false, StNoDriver, 0)
  else if len (eyes f) <? 2 then
    if EyeControlledCar.eye_closed_counter d + 1 >? EyeControlledCar.EYE_CLOSED_THRESHOLD d
    then (Some false, StClosed (EyeControlledCar.eye_closed_counter d + 1), len (eyes f))
    else (None, StChecking (EyeControlledCar.eye_closed_counter d + 1), len (eyes f))
  else (Some true, StOpen (len (eyes f)), len (eyes f)).

(** The counters after [detect_eye_state] on a frame. *)
Definition car_count (f : Frame) (d : EyeControlledCar.Fields)
  : EyeControlledCar.Fields :=
  if len (faces f) =? 0 then
    EyeControlledCar.set_eye_closed_counter 0
      (EyeControlledCar.set_no_face_counter (EyeControlledCar.no_face_counter d + 1) d)
  else if len (eyes f) <? 2 then
    EyeControlledCar.set_eye_closed_counter (EyeControlledCar.eye_closed_counter d + 1)
      (EyeControlledCar.set_no_face_counter 0 d)
  else
    EyeControlledCar.set_eye_closed_counter 0 (EyeControlledCar.set_no_face_counter 0 d).

(** The fields one turn of the loop leaves. *)
Definition car_after (f : Frame) (d : EyeControlledCar.Fields)
  : EyeControlledCar.Fields :=
  let d1 := EyeControlledCar.set_frame_count (EyeControlledCar.frame_count d + 1) d in
  EyeControlledCar.set_car_running
    (target (EyeControlledCar.eyes_open (car_verdict f d1))
            (EyeControlledCar.car_running d))
    (car_count f d1).

(** The fields a run of the loop over some frames leaves. *)
Definition car_after_all (frames : list Frame) (d : EyeControlledCar.Fields)
  : EyeControlledCar.Fields :=
  fold_left (fun d f => car_after f d) frames d.

(** Both counters are nonnegative and at least one of them is 0. *)
Definition counters_ok (eye_closed no_face : Z) : Prop :=
  0 <= eye_closed /\ 0 <= no_face /\ (eye_closed = 0 \/ no_face = 0).

Definition car_counters_ok (c : EyeControlledCar.Car) : Prop :=
  counters_ok (EyeControlledCar.eye_closed_counter (self c))
              (EyeControlledCar.no_face_counter (self c)).

Definition simple_counters_ok (d : SimpleSleepinessDetector.Detector) : Prop :=
  counters_ok (SimpleSleepinessDetector.eye_closed_counter (self d))
              (SimpleSleepinessDetector.no_face_counter (self d)).

(** The outcome of the [k]-th look of a run of closed-eye looks when the
    [first_closed]-th is the first to be answered [EYES_CLOSED]. *)
Definition nth_call_outcome (first_closed : Z) (k : nat) : DetectionState :=
  if first_closed <=? Z.of_nat k then EYES_CLOSED else UNCERTAIN.

(** The outcomes of calls 1 to [n] of such a run. *)
Definition debounced (first_closed : Z) (n : nat) : list DetectionState :=
  map (nth_call_outcome first_closed) (seq 1 n).

Section EarNotions.

Context {F : Type} {arith : Arith F}.

(** A frame that shows one face whose averaged ratio is below [thr]. *)
Definition below_threshold (thr : F) (faces : list Face) : Prop :=
  exists face ear,
    faces = [face]
    /\ SleepinessDetector.avg_ear face = inr ear
    /\ fltb ear thr = true.

(** A frame that shows one face whose averaged ratio is not below [thr]. *)
Definition not_below_threshold (thr : F) (faces : list Face) : Prop :=
  exists face ear,
    faces = [face]
    /\ SleepinessDetector.avg_ear face = inr ear
    /\ fltb ear thr = false.

(** Which branch the eye check of [process_frame] takes. *)
Definition ear_outcome (ear : F) (d : @SleepinessDetector.Fields F) : DetectionState :=
  if fltb ear (SleepinessDetector.EAR_THRESHOLD d) then
    if SleepinessDetector.frame_counter d + 1 >=? SleepinessDetector.CONSECUTIVE_FRAMES d
    then EYES_CLOSED else UNCERTAIN
  else EYES_OPEN.

(** The fields it leaves. *)
Definition ear_count (ear : F) (d : @SleepinessDetector.Fields F)
  : @SleepinessDetector.Fields F :=
  if fltb ear (SleepinessDetector.EAR_THRESHOLD d) then
    let d1 := SleepinessDetector.set_frame_counter
                (SleepinessDetector.frame_counter d + 1) d in
    if SleepinessDetector.frame_counter d + 1 >=? SleepinessDetector.CONSECUTIVE_FRAMES d
    then SleepinessDetector.set_sleepy_counter (SleepinessDetector.sleepy_counter d + 1) d1
    else d1
  else SleepinessDetector.set_frame_counter 0 d.

(** The command it sends. *)
Definition ear_command (ear : F) (d : @SleepinessDetector.Fields F) : list string :=
  match ear_outcome ear d with
  | EYES_CLOSED => ["0"]
  | EYES_OPEN => ["1"]
  | _ => []
  end.

End EarNotions.

(* ================================================================== *)
(** ** Sample inputs *)

(** Six landmarks around an eye 30 pixels wide whose lids are [2 * h]
    pixels apart, in the order the predictor gives them. *)
Definition eye_shape (h : Z) (j : nat) : Point :=
  match j with
  | 0%nat => (0, 0)
  | 1%nat => (10, - h)
  | 2%nat => (20, - h)
  | 3%nat => (30, 0)
  | 4%nat => (20, h)
  | _ => (10, h)
  end.

(** A face with two such eyes. *)
Definition sample_face (h : Z) : Face :=
  mkFace (fun i => eye_shape h (i mod 6)).

(** A frame with one face and no eye found in it. *)
Definition shut_frame : Frame := mkFrame [(100, 80, 200, 200)] [].

(** A frame with one face and both eyes found in it. *)
Definition alert_frame : Frame :=
  mkFrame [(100, 80, 200, 200)] [(30, 50, 40, 20); (120, 50, 40, 20)].

(** A frame in which no face is found. *)
Definition empty_frame : Frame := mkFrame [] [].

(** A port that has just been opened, with a device that never fails. *)
Definition good_port : Serial := mkSerial true [] [].

(** What a [cleanup] that bids farewell with [bye] makes of an object whose
    link is the port [p]: it returns normally, touches no field of the
    class, calls [send_to_arduino(bye)] once, and leaves the port closed;
    the port has received [bye] at most once more, and exactly once more if
    it was open and the device does not fail. *)
Definition farewell {D} (cleanup : M (Machine D) unit) (bye : string)
    (m : Machine D) (p : Serial) : Prop :=
  exists p' evs,
    cleanup m = (inr tt, mkMachine (self m) (Some p') (trace m ++ evs))
    /\ sends evs = [bye]
    /\ is_open p' = false
    /\ (wire p' = wire p \/ wire p' = wire p ++ encode bye)
    /\ (is_open p = true -> faults p = [] -> wire p' = wire p ++ encode bye).

Section VoiceNotions.

Context {F : Type} {arith : Arith F}.




End VoiceNotions.

(** Six landmarks on a square of side [2 * a]: the lids as far apart as the
    corners of the eye. *)
Definition square_eye (a : Z) : list Point :=
  [(0, a); (0, 2 * a); (2 * a, 2 * a); (2 * a, a); (2 * a, 0); (0, 0)].

(** Six landmarks of an eye of width [w] with the lids together. *)
Definition flat_eye (w : Z) : list Point :=
  [(0, 0); (1, 0); (w - 1, 0); (w, 0); (w - 1, 0); (1, 0)].

(* ================================================================== *)
(** ** The ratio in binary64 *)

(** The squared distance of two landmarks, in pixels. *)
Definition sqdist (u v : Point) : Z :=
  (fst u - fst v) * (fst u - fst v) + (snd u - snd v) * (snd u - snd v).

(** Two landmarks at most [n] pixels apart along each axis. *)
Definition within (n : Z) (u v : Point) : Prop :=
  Z.abs (fst u - fst v) <= n /\ Z.abs (snd u - snd v) <= n.

(** The largest coordinate difference the table below covers: landmarks of
    one picture of up to 4096 by 4096 pixels. *)
Definition PICTURE : Z := 4095.

(** The number of differences from 0 to [PICTURE]. *)
Definition SIDE : nat := 4096.

(** What is checked of the binary64 operations on a pair [(i, j)] of
    nonnegative coordinate differences: the sum of the two squares is
    computed without rounding, and with [a] the root of that sum (rounded),
    [(a + a) / (2.0 * a)] is [1.0] and [0.0 / (2.0 * a)] is [0.0] unless both
    differences are 0. *)
Definition ear_cell (i j : Uint63.int) : bool :=
  let fi := PrimFloat.of_uint63 i in
  let fj := PrimFloat.of_uint63 j in
  let q := PrimFloat.of_uint63 (Uint63.add (Uint63.mul i i) (Uint63.mul j j)) in
  let a := PrimFloat.sqrt q in
  PrimFloat.Leibniz.eqb (PrimFloat.add (PrimFloat.mul fi fi) (PrimFloat.mul fj fj)) q
  && ((Uint63.eqb i 0%uint63 && Uint63.eqb j 0%uint63)
      || (PrimFloat.Leibniz.eqb
            (PrimFloat.div (PrimFloat.add a a) (PrimFloat.mul 2%float a)) 1%float
          && PrimFloat.Leibniz.eqb
               (PrimFloat.div 0%float (PrimFloat.mul 2%float a)) 0%float)).

(** A difference and its opposite have the same square. *)
Definition ear_sign (i : Uint63.int) : bool :=
  let fi := PrimFloat.of_uint63 i in
  PrimFloat.Leibniz.eqb (PrimFloat.mul (PrimFloat.opp fi) (PrimFloat.opp fi))
                        (PrimFloat.mul fi fi).

(** The checks on [(i, j) .. (i, j + n - 1)]. *)
Fixpoint ear_row (n : nat) (i j : Uint63.int) : bool :=
  match n with
  | O => true
  | S n' => ear_cell i j && ear_row n' i (Uint63.add j 1%uint63)
  end.

(** The checks on the [n] rows from [i] on, [m] pairs a row. *)
Fixpoint ear_rows (n m : nat) (i : Uint63.int) : bool :=
  match n with
  | O => true
  | S n' => ear_sign i && ear_row m i 0%uint63 && ear_rows n' m (Uint63.add i 1%uint63)
  end.

(** Six landmarks of an eye seen a little from the side. *)
Definition slanted_eye : list Point :=
  [(0, 1); (1, 0); (2, 0); (6, 1); (4, 2); (3, 2)].

(* ================================================================== *)
(** ** Further notions: commands and what reaches the port *)

(** A sequence of commands that starts from a car running or not and
    changes its state every time: ['0'] to a running car, ['1'] to a
    stopped one, in turn. *)
Fixpoint toggles (running : bool) (cmds : list string) : Prop :=
  match cmds with
  | [] => True
  | c :: rest => c = (if running then "0" else "1") /\ toggles (negb running) rest
  end.

(** The state the last of some commands asks for. *)
Definition state_after (running : bool) (cmds : list string) : bool :=
  fold_left (fun _ c => String.eqb c "1") cmds running.

(** The bytes of some commands of which each has either reached the port
    whole or not at all, in order. *)
Inductive delivered : list string -> list ascii -> Prop :=
| delivered_nil : delivered [] []
| delivered_sent (c : string) (cs : list string) (w : list ascii) :
    delivered cs w -> delivered (c :: cs) (encode c ++ w)
| delivered_lost (c : string) (cs : list string) (w : list ascii) :
    delivered cs w -> delivered (c :: cs) w.

(** What calling [send_to_arduino] with each of [cmds] in turn makes of the
    [arduino] attribute: the link stays as present and as open as it was,
    the port receives the bytes of some of the commands, and of all of them
    when it is open and the device never fails. *)
Definition transmits (a : option Serial) (cmds : list string) (a' : option Serial)
  : Prop :=
  link_status a' = link_status a
  /\ (exists w, wire_of a' = wire_of a ++ w /\ delivered cmds w)
  /\ (forall w0, a = Some (mkSerial true w0 []) ->
                 a' = Some (mkSerial true (w0 ++ List.concat (map encode cmds)) [])).

(* ================================================================== *)
(** ** The largest face *)

(** What numpy keeps of the result of an operation on [int32] scalars: its
    low 32 bits, read as a signed number. *)
Definition wrap_int32 (z : Z) : Z :=
  (z + 2147483648) mod 4294967296 - 2147483648.

(** [x[2] * x[3]], the key of [max(faces, key=...)]: [x] is a row of the
    [int32] array [detectMultiScale] returns, and the product of two of its
    entries is an [int32] again. *)
Definition area (r : Rect) : Z :=
  let '(_, _, w, h) := r in wrap_int32 (w * h).

(** Width times height, as a number. *)
Definition true_area (r : Rect) : Z :=
  let '(_, _, w, h) := r in w * h.

(** A rectangle whose width times height is an [int32]. *)
Definition fits_int32 (r : Rect) : Prop :=
  - 2147483648 <= true_area r < 2147483648.

(** The scan of [max(xs, key=key)] once a first element is in hand: a later
    element replaces the best one only if its key is strictly larger. *)
Fixpoint max_by {A} (key : A -> Z) (best : A) (xs : list A) : A :=
  match xs with
  | [] => best
  | x :: rest => if key x >? key best then max_by key x rest
                 else max_by key best rest
  end.

(** [largest_face = max(faces, key=lambda x: x[2] * x[3])], as in
    [detect_eye_state], [detect_sleepiness] and [analyze_eyes]; [None]
    stands for the [ValueError] of [max] on an empty sequence. *)
Definition largest_face (faces : list Rect) : option Rect :=
  match faces with
  | [] => None
  | f :: rest => Some (max_by area f rest)
  end.

(* ================================================================== *)
(** ** Further notions: [SimpleSleepinessDetector] frame by frame *)

(** The verdict [detect_sleepiness] gives on a frame, as a function of the
    fields it finds. *)
Definition simple_verdict (f : Frame) (d : SimpleSleepinessDetector.Fields)
  : SimpleSleepinessDetector.Verdict :=
  if len (faces f) =? 0 then
    (false,
     if SimpleSleepinessDetector.no_face_counter d + 1
        >? SimpleSleepinessDetector.FACE_ABSENT_THRESHOLD d
     then StNoDriver
     else StSearching (SimpleSleepinessDetector.no_face_counter d + 1))
  else if len (eyes f) <? 2 then
    if SimpleSleepinessDetector.eye_closed_counter d + 1
       >? SimpleSleepinessDetector.EYE_CLOSED_THRESHOLD d
    then (true, StClosed (SimpleSleepinessDetector.eye_closed_counter d + 1))
    else (false, StChecking (SimpleSleepinessDetector.eye_closed_counter d + 1))
  else (false, StOpen (len (eyes f))).

(** The fields it leaves. *)
Definition simple_count (f : Frame) (d : SimpleSleepinessDetector.Fields)
  : SimpleSleepinessDetector.Fields :=
  if len (faces f) =? 0 then
    SimpleSleepinessDetector.set_eye_closed_counter 0
      (SimpleSleepinessDetector.set_no_face_counter
         (SimpleSleepinessDetector.no_face_counter d + 1) d)
  else if len (eyes f) <? 2 then
    SimpleSleepinessDetector.set_eye_closed_counter
      (SimpleSleepinessDetector.eye_closed_counter d + 1)
      (SimpleSleepinessDetector.set_no_face_counter 0 d)
  else
    SimpleSleepinessDetector.set_eye_closed_counter 0
      (SimpleSleepinessDetector.set_no_face_counter 0 d).

(** The verdicts on successive frames. *)
Fixpoint simple_verdicts (frames : list Frame) (d : SimpleSleepinessDetector.Fields)
  : list SimpleSleepinessDetector.Verdict :=
  match frames with
  | [] => []
  | f :: rest => simple_verdict f d :: simple_verdicts rest (simple_count f d)
  end.

(** The command the loop of [SimpleSleepinessDetector.run] sends on a
    verdict. *)
Definition simple_command (v : SimpleSleepinessDetector.Verdict) : string :=
  if SimpleSleepinessDetector.is_sleepy v then "0" else "1".

(* ================================================================== *)
(** ** Further notions: landmarks moved and scaled *)

(** A landmark moved by [(dx, dy)] pixels. *)
Definition shift (t : Point) (p : Point) : Point :=
  (fst p + fst t, snd p + snd t).

(** A landmark of the same picture enlarged [k] times. *)
Definition scale (k : Z) (p : Point) : Point :=
  (k * fst p, k * snd p).

(** A frame of [sleepiness_detection.py] in which no face is found, or one
    face with the averaged ratio below the threshold. *)
Definition faceless_or_below {F : Type} {arith : Arith F} (thr : F)
    (faces : list Face) : Prop :=
  faces = [] \/ below_threshold thr faces.

(** The number of frames that show a face. *)
Definition with_face (frames : list (list Face)) : nat :=
  List.length (filter (fun fr => negb (Nat.eqb (List.length fr) 0)) frames).

(* ================================================================== *)
(** ** Further notions: the two car classes side by side *)

(** What one call of [send_to_arduino] makes of the [arduino] attribute. *)
Definition port_after_send (signal : string) (a : option Serial) : option Serial :=
  arduino (snd (send_to_arduino signal (mkMachine tt a []))).

(** The events one call of [send_to_arduino] leaves. *)
Definition send_events (signal : string) (a : option Serial) : list Event :=
  trace (snd (send_to_arduino signal (mkMachine tt a []))).

(** An [EyeControlledCarWithVoice] and an [EyeControlledCar] with the same
    threshold, counters and car state. *)
Definition same_car (v : EyeControlledCarWithVoice.Fields)
    (c : EyeControlledCar.Fields) : Prop :=
  EyeControlledCarWithVoice.EYE_CLOSED_THRESHOLD v = EyeControlledCar.EYE_CLOSED_THRESHOLD c
  /\ EyeControlledCarWithVoice.eye_closed_counter v = EyeControlledCar.eye_closed_counter c
  /\ EyeControlledCarWithVoice.no_face_counter v = EyeControlledCar.no_face_counter c
  /\ EyeControlledCarWithVoice.frame_count v = EyeControlledCar.frame_count c
  /\ EyeControlledCarWithVoice.car_running v = EyeControlledCar.car_running c.

(* ================================================================== *)
(** ** Further notions: streaks *)

(** [len(faces) == 0] *)
Definition is_no_face (f : Frame) : bool := len (faces f) =? 0.

(** A face, and [len(eyes) < 2]. *)
Definition is_closed (f : Frame) : bool :=
  negb (len (faces f) =? 0) && (len (eyes f) <? 2).

(** The number of frames at the end of [frames] that all satisfy [p]. *)
Definition streak (p : Frame -> bool) (frames : list Frame) : nat :=
  fold_left (fun n f => if p f then S n else 0%nat) frames 0%nat.

(** A counter that is put to 0 by every frame outside [p] and raised by 1 by
    every frame inside: its value after [frames], from [start]. *)
Definition streak_counter (p : Frame -> bool) (frames : list Frame) (start : Z) : Z :=
  if forallb p frames then start + Z.of_nat (List.length frames)
  else Z.of_nat (streak p frames).

(* ================================================================== *)
(** ** [test_sleepiness_no_arduino.py]: class [SleepinessTestDetector] *)

Module SleepinessTestDetector.

Record Fields : Type := mkFields {
  EYE_CLOSED_THRESHOLD : Z;
  eye_closed_counter : Z;
  no_face_counter : Z;
  total_frames : Z;
  alert_count : Z
}.

Definition set_eye_closed_counter (v : Z) (d : Fields) : Fields :=
  mkFields (EYE_CLOSED_THRESHOLD d) v (no_face_counter d) (total_frames d) (alert_count d).
Definition set_no_face_counter (v : Z) (d : Fields) : Fields :=
  mkFields (EYE_CLOSED_THRESHOLD d) (eye_closed_counter d) v (total_frames d) (alert_count d).
Definition set_total_frames (v : Z) (d : Fields) : Fields :=
  mkFields (EYE_CLOSED_THRESHOLD d) (eye_closed_counter d) (no_face_counter d) v (alert_count d).
Definition set_alert_count (v : Z) (d : Fields) : Fields :=
  mkFields (EYE_CLOSED_THRESHOLD d) (eye_closed_counter d) (no_face_counter d) (total_frames d) v.

(** What [detect_sleepiness] returns: [(is_sleepy, status, eye_count)]. *)
Definition Verdict : Type := (bool * Status * Z)%type.

Definition is_sleepy (v : Verdict) : bool := fst (fst v).

(** [detect_sleepiness(frame)] without the drawing. *)
Definition detect_sleepiness (frame : Frame) : M Fields Verdict :=
  if len (faces frame) =? 0 then
    modify (fun d => set_no_face_counter (no_face_counter d + 1) d) ;;
    modify (set_eye_closed_counter 0) ;;
    ret (false, StNoDriver, 0)
  else
    modify (set_no_face_counter 0) ;;
    if len (eyes frame) <? 2 then
      modify (fun d => set_eye_closed_counter (eye_closed_counter d + 1) d) ;;
      c <- gets eye_closed_counter ;;
      t <- gets EYE_CLOSED_THRESHOLD ;;
      if c >? t then
        modify (fun d => set_alert_count (alert_count d + 1) d) ;;
        ret (true, StClosed c, len (eyes frame))
      else ret (false, StChecking c, len (eyes frame))
    else
      modify (set_eye_closed_counter 0) ;;
      ret (false, StOpen (len (eyes frame)), len (eyes frame)).

(** [ord('q')] and [ord('r')]. *)
Definition ord_q : Z := 113.
Definition ord_r : Z := 114.

(** One turn of the loop reads a frame and then a key,
    [cv2.waitKey(1) & 0xFF]. *)
Definition Tick : Type := (Frame * Z)%type.

(** The [while True] loop of [run] on the turns the camera allows: a turn
    counts the frame, looks at it, and then handles the key, ['q'] leaving
    the loop and ['r'] putting three of the counters back to 0. *)
Fixpoint loop (ticks : list Tick) : M Fields unit :=
  match ticks with
  | [] => ret tt
  | (frame, key) :: rest =>
      modify (fun d => set_total_frames (total_frames d + 1) d) ;;
      _ <- detect_sleepiness frame ;;
      if key =? ord_q then ret tt
      else
        (if key =? ord_r then
           modify (set_eye_closed_counter 0) ;;
           modify (set_alert_count 0) ;;
           modify (set_total_frames 0)
         else ret tt) ;;
        loop rest
  end.

(** [cleanup] releases the camera and prints the counters. *)
Definition cleanup : M Fields unit := ret tt.

Definition run (ticks : list Tick) : M Fields unit :=
  try_finally (loop ticks) cleanup.

(** The object [__init__] builds. *)
Definition fresh : Fields := mkFields 20 0 0 0 0.

End SleepinessTestDetector.

(** A turn of [SleepinessTestDetector] that shows closed eyes and presses
    neither ['q'] nor ['r']. *)
Definition closed_tick (tk : SleepinessTestDetector.Tick) : Prop :=
  closed_frame (fst tk)
  /\ snd tk <> SleepinessTestDetector.ord_q
  /\ snd tk <> SleepinessTestDetector.ord_r.

(* ================================================================== *)
(** ** [test_eye_detection.py]: class [EyeDetectionAnalyzer] *)

Module EyeDetectionAnalyzer.

(** What the cascade classifiers find in a frame: the faces, and the eyes
    in the largest face at the three sensitivities tried. *)
Record Frame : Type := mkFrame {
  faces : list Rect;
  eyes_normal : list Rect;
  eyes_sensitive : list Rect;
  eyes_less_sensitive : list Rect
}.

Record Fields : Type := mkFields {
  EYE_THRESHOLD : Z;
  eye_history : list Z;
  frame_count : Z
}.

Definition set_eye_history (v : list Z) (d : Fields) : Fields :=
  mkFields (EYE_THRESHOLD d) v (frame_count d).
Definition set_frame_count (v : Z) (d : Fields) : Fields :=
  mkFields (EYE_THRESHOLD d) (eye_history d) v.

Inductive EyeStatus : Type :=
| NoFaceDetected     (* "No face detected" *)
| EyesOpen           (* "EYES OPEN" *)
| OneEye             (* "ONE EYE" *)
| EyesClosed.        (* "EYES CLOSED" *)

(** [analyze_eyes(frame)] without the drawing: [(eye_count, status,
    eyes_sensitive, eyes_less_sensitive)]. *)
Definition analyze_eyes (frame : Frame)
  : Z * EyeStatus * option (list Rect) * option (list Rect) :=
  if len (faces frame) =? 0 then (0, NoFaceDetected, None, None)
  else
    let eye_count := len (eyes_normal frame) in
    let status :=
      if eye_count >=? 2 then EyesOpen
      else if eye_count =? 1 then OneEye
      else EyesClosed in
    (eye_count, status, Some (eyes_sensitive frame), Some (eyes_less_sensitive frame)).

(** [xs[i]] with Python's indices: a negative [i] counts from the end, and
    an index outside [-len(xs) .. len(xs) - 1] raises [IndexError]. *)
Definition py_index {A} (xs : list A) (i : Z) : Exn + A :=
  let n := len xs in
  let j := if i <? 0 then i + n else i in
  if (j <? 0) || (n <=? j) then inl IndexError
  else match nth_error xs (Z.to_nat j) with
       | Some x => inr x
       | None => inl IndexError
       end.

(** [xs[-30:]] *)
Definition last_30 {A} (xs : list A) : list A :=
  skipn (List.length xs - 30) xs.

Definition lift {S A} (r : Exn + A) : M S A :=
  match r with
  | inl e => raise e
  | inr a => ret a
  end.

(** [draw_eye_graph(frame)], as far as it reads the object: one point for
    each of the last 30 counts, and between each point and the next a line
    that is green ([true]) or red according to
    [self.eye_history[-(30-i)] >= 2].  The result lists the colours of the
    lines drawn. *)
Definition draw_eye_graph : M Fields (list bool) :=
  h <- gets eye_history ;;
  if len h >? 1 then
    let points := last_30 h in
    for_collect (seq 0 (List.length points - 1))
      (fun i =>
         count <- lift (py_index h (- (30 - Z.of_nat i))) ;;
         ret (count >=? 2))
  else ret [].

(** [ord('q')] and [ord('c')]. *)
Definition ord_q : Z := 113.
Definition ord_c : Z := 99.

Definition Tick : Type := (Frame * Z)%type.

(** The [while True] loop of [run]: count the frame, analyze it, append the
    count to the history and drop the oldest entry beyond 30, draw the
    graph when the history has more than one entry, then handle the key. *)
Fixpoint loop (ticks : list Tick) : M Fields unit :=
  match ticks with
  | [] => ret tt
  | (frame, key) :: rest =>
      modify (fun d => set_frame_count (frame_count d + 1) d) ;;
      let '(eye_count, _, _, _) := analyze_eyes frame in
      modify (fun d => set_eye_history (eye_history d ++ [eye_count]) d) ;;
      h <- gets eye_history ;;
      when (len h >? 30) (modify (fun d => set_eye_history (tl (eye_history d)) d)) ;;
      h <- gets eye_history ;;
      (if len h >? 1 then draw_eye_graph ;; ret tt else ret tt) ;;
      if key =? ord_q then ret tt
      else
        (if key =? ord_c then
           modify (set_eye_history []) ;;
           modify (set_frame_count 0)
         else ret tt) ;;
        loop rest
  end.

(** [cleanup] releases the camera and prints statistics of the history. *)
Definition cleanup : M Fields unit := ret tt.

(** [try: ... except KeyboardInterrupt: ... finally: self.cleanup()] *)
Definition run (ticks : list Tick) : M Fields unit :=
  try_finally (loop ticks) cleanup.

Definition fresh : Fields := mkFields 2 [] 0.

End EyeDetectionAnalyzer.

(** The eye count [analyze_eyes] returns for a frame. *)
Definition eye_count_of (f : EyeDetectionAnalyzer.Frame) : Z :=
  fst (fst (fst (EyeDetectionAnalyzer.analyze_eyes f))).

(* ================================================================== *)
(** * Properties *)

(** ** The actuator link *)

(** Unfolding of the monad's plumbing. *)
Ltac run_monad :=
  unfold emit, when, the_port, on_port, try_except, try_finally,
         bind, ret, raise, gets, modify, set_self, set_arduino in *;
  cbn [fst snd self arduino trace is_open wire faults negb] in *.

Lemma sends_app (xs ys : list Event) : sends (xs ++ ys) = sends xs ++ sends ys.
Proof.
  induction xs as [|e xs IH]; [reflexivity|].
  destruct e; cbn; rewrite IH; reflexivity.
Qed.

Lemma says_app (xs ys : list Event) : says (xs ++ ys) = says xs ++ says ys.
Proof.
  induction xs as [|e xs IH]; [reflexivity|].
  destruct e; cbn; rewrite IH; reflexivity.
Qed.

(** [send_to_arduino] never raises, touches no field of the object but
    [arduino], records the call, prints at most an error line, and leaves
    the link as present and as open as it found it. *)
Lemma send_to_arduino_spec {D} (signal : string) (m : Machine D) :
  exists a evs,
    send_to_arduino signal m
      = (inr tt, mkMachine (self m) a (trace m ++ EvSend signal :: evs))
    /\ sends evs = [] /\ says evs = []
    /\ link_status a = link_status (arduino m).
Proof.
  destruct m as [d [[o w fs]|] tr];
    unfold send_to_arduino, Serial_write, Serial_flush, next_fault; run_monad;
    [destruct o; [destruct fs as [|[] [|[] fs]]|] |]; run_monad;
    rewrite <- ?app_assoc; cbn [app];
    first [ solve [eexists; exists []; repeat split; reflexivity]
          | solve [eexists; exists [EvPrint MsgSendError]; repeat split; reflexivity] ].
Qed.

(** ** The discrete debouncer *)

Module CarFacts.
Import EyeControlledCar.

Lemma car_detect_no_face (f : Frame) (m : Car) :
  no_face_frame f ->
  detect_eye_state f m
  = (inr (Some false, StNoDriver, 0),
     set_self (fun d => set_eye_closed_counter 0
                          (set_no_face_counter (no_face_counter d + 1) d)) m).
Proof.
  unfold no_face_frame, detect_eye_state. intros ->. reflexivity.
Qed.

Lemma car_detect_closed (f : Frame) (m : Car) :
  closed_frame f ->
  detect_eye_state f m
  = (inr (if eye_closed_counter (self m) + 1 >? EYE_CLOSED_THRESHOLD (self m)
          then (Some false, StClosed (eye_closed_counter (self m) + 1), len (eyes f))
          else (None, StChecking (eye_closed_counter (self m) + 1), len (eyes f))),
     set_self (fun d => set_eye_closed_counter (eye_closed_counter d + 1)
                          (set_no_face_counter 0 d)) m).
Proof.
  unfold closed_frame, detect_eye_state. intros [Hf He].
  apply Z.eqb_neq in Hf. apply Z.ltb_lt in He. rewrite Hf, He.
  run_monad. cbn.
  destruct (eye_closed_counter (self m) + 1 >? EYE_CLOSED_THRESHOLD (self m));
    reflexivity.
Qed.

Lemma car_detect_open (f : Frame) (m : Car) :
  open_frame f ->
  detect_eye_state f m
  = (inr (Some true, StOpen (len (eyes f)), len (eyes f)),
     set_self (fun d => set_eye_closed_counter 0 (set_no_face_counter 0 d)) m).
Proof.
  unfold open_frame, detect_eye_state. intros [Hf He].
  apply Z.eqb_neq in Hf. apply Z.ltb_ge in He. rewrite Hf, He. reflexivity.
Qed.

(** Every frame is of exactly one of the three kinds. *)
Lemma frame_kind (f : Frame) : no_face_frame f \/ closed_frame f \/ open_frame f.
Proof. unfold no_face_frame, closed_frame, open_frame. lia. Qed.

End CarFacts.

Module SimpleFacts.
Import SimpleSleepinessDetector.

Lemma simple_detect_no_face (f : Frame) (m : Detector) :
  no_face_frame f ->
  detect_sleepiness f m
  = (inr (false, if no_face_counter (self m) + 1 >? FACE_ABSENT_THRESHOLD (self m)
                 then StNoDriver
                 else StSearching (no_face_counter (self m) + 1)),
     set_self (fun d => set_eye_closed_counter 0
                          (set_no_face_counter (no_face_counter d + 1) d)) m).
Proof.
  unfold no_face_frame, detect_sleepiness. intros ->. run_monad. cbn.
  destruct (no_face_counter (self m) + 1 >? FACE_ABSENT_THRESHOLD (self m));
    reflexivity.
Qed.

Lemma simple_detect_closed (f : Frame) (m : Detector) :
  closed_frame f ->
  detect_sleepiness f m
  = (inr (if eye_closed_counter (self m) + 1 >? EYE_CLOSED_THRESHOLD (self m)
          then (true, StClosed (eye_closed_counter (self m) + 1))
          else (false, StChecking (eye_closed_counter (self m) + 1))),
     set_self (fun d => set_eye_closed_counter (eye_closed_counter d + 1)
                          (set_no_face_counter 0 d)) m).
Proof.
  unfold closed_frame, detect_sleepiness. intros [Hf He].
  apply Z.eqb_neq in Hf. apply Z.ltb_lt in He. rewrite Hf, He.
  run_monad. cbn.
  destruct (eye_closed_counter (self m) + 1 >? EYE_CLOSED_THRESHOLD (self m));
    reflexivity.
Qed.

Lemma simple_detect_open (f : Frame) (m : Detector) :
  open_frame f ->
  detect_sleepiness f m
  = (inr (false, StOpen (len (eyes f))),
     set_self (fun d => set_eye_closed_counter 0 (set_no_face_counter 0 d)) m).
Proof.
  unfold open_frame, detect_sleepiness. intros [Hf He].
  apply Z.eqb_neq in Hf. apply Z.ltb_ge in He. rewrite Hf, He. reflexivity.
Qed.

End SimpleFacts.

(** C4.  A frame without a face: whatever the counters were,
    [detect_eye_state] (class [EyeControlledCar]) and [detect_sleepiness]
    (class [SimpleSleepinessDetector]) return normally with the outcome
    [NO_FACE], leave [no_face_counter] one higher than it was and
    [eye_closed_counter] at 0. *)
Theorem no_face_observation
    (f : Frame) (c : EyeControlledCar.Car) (d : SimpleSleepinessDetector.Detector) :
  no_face_frame f ->
  (exists v c',
      EyeControlledCar.detect_eye_state f c = (inr v, c')
      /\ EyeControlledCar.outcome v = NO_FACE
      /\ EyeControlledCar.no_face_counter (self c')
         = EyeControlledCar.no_face_counter (self c) + 1
      /\ EyeControlledCar.eye_closed_counter (self c') = 0)
  /\
  (exists v d',
      SimpleSleepinessDetector.detect_sleepiness f d = (inr v, d')
      /\ SimpleSleepinessDetector.outcome v = NO_FACE
      /\ SimpleSleepinessDetector.no_face_counter (self d')
         = SimpleSleepinessDetector.no_face_counter (self d) + 1
      /\ SimpleSleepinessDetector.eye_closed_counter (self d') = 0).
Proof.
  intros Hf. split.
  - rewrite (CarFacts.car_detect_no_face c Hf). do 2 eexists. split; [reflexivity|].
    repeat split.
  - rewrite (SimpleFacts.simple_detect_no_face d Hf). do 2 eexists. split; [reflexivity|].
    split; [|split; reflexivity].
    unfold SimpleSleepinessDetector.outcome. cbn [snd].
    destruct (_ >? _); reflexivity.
Qed.

(** A frame without a face met with both counters already positive. *)
Lemma no_face_observation_witness :
  let f := mkFrame [] [(3, 4, 10, 10)] in
  let c := mkMachine (EyeControlledCar.mkFields 15 7 3 10 true) None [] in
  let d := mkMachine (SimpleSleepinessDetector.mkFields 30 20 0 7 3) None [] in
  no_face_frame f
  /\ (exists v c',
      EyeControlledCar.detect_eye_state f c = (inr v, c')
      /\ EyeControlledCar.outcome v = NO_FACE
      /\ EyeControlledCar.no_face_counter (self c')
         = EyeControlledCar.no_face_counter (self c) + 1
      /\ EyeControlledCar.eye_closed_counter (self c') = 0)
  /\ (exists v d',
      SimpleSleepinessDetector.detect_sleepiness f d = (inr v, d')
      /\ SimpleSleepinessDetector.outcome v = NO_FACE
      /\ SimpleSleepinessDetector.no_face_counter (self d')
         = SimpleSleepinessDetector.no_face_counter (self d) + 1
      /\ SimpleSleepinessDetector.eye_closed_counter (self d') = 0).
Proof.
  intros f c d.
  assert (Hf : no_face_frame f) by reflexivity.
  split; [exact Hf|].
  exact (no_face_observation c d Hf).
Defined.

(** ** The decision step of [EyeControlledCar] *)

Lemma car_control_car_spec (eo : option bool) (m : EyeControlledCar.Car) :
  exists a evs,
    EyeControlledCar.control_car eo m
    = (inr tt,
       mkMachine
         (EyeControlledCar.set_car_running
            (target eo (EyeControlledCar.car_running (self m))) (self m))
         a (trace m ++ evs))
    /\ sends evs = command eo (EyeControlledCar.car_running (self m))
    /\ says evs = []
    /\ link_status a = link_status (arduino m).
Proof.
  unfold EyeControlledCar.control_car.
  destruct eo as [[|]|]; run_monad;
    destruct (EyeControlledCar.car_running (self m)) eqn:R; run_monad;
    try (exists (arduino m), []; rewrite app_nil_r;
         destruct m as [[t e n fc r] a tr]; cbn in *; subst; repeat split; reflexivity).
  - destruct (send_to_arduino_spec "1" m) as (a & evs & E & Hs & Hv & Hl).
    rewrite E. run_monad.
    exists a, (EvSend "1" :: evs ++ [EvPrint MsgCarStarted]).
    rewrite <- app_assoc. cbn. rewrite sends_app, says_app, Hs, Hv.
    repeat split; assumption.
  - destruct (send_to_arduino_spec "0" m) as (a & evs & E & Hs & Hv & Hl).
    rewrite E. run_monad.
    exists a, (EvSend "0" :: evs ++ [EvPrint MsgCarStopped]).
    rewrite <- app_assoc. cbn. rewrite sends_app, says_app, Hs, Hv.
    repeat split; assumption.
Qed.

(** [detect_eye_state] never raises and touches nothing but the two
    counters. *)
Lemma car_detect_spec (f : Frame) (m : EyeControlledCar.Car) :
  EyeControlledCar.detect_eye_state f m
  = (inr (car_verdict f (self m)), set_self (car_count f) m).
Proof.
  unfold car_verdict, car_count.
  destruct (CarFacts.frame_kind f) as [H|[H|H]].
  - rewrite (CarFacts.car_detect_no_face m H). unfold no_face_frame in H.
    rewrite H. reflexivity.
  - rewrite (CarFacts.car_detect_closed m H). destruct H as [Hf He].
    apply Z.eqb_neq in Hf. apply Z.ltb_lt in He. rewrite Hf, He.
    destruct (_ >? _); reflexivity.
  - rewrite (CarFacts.car_detect_open m H). destruct H as [Hf He].
    apply Z.eqb_neq in Hf. apply Z.ltb_ge in He. rewrite Hf, He. reflexivity.
Qed.

Lemma car_step_spec (f : Frame) (m : EyeControlledCar.Car) :
  exists a evs,
    EyeControlledCar.step f m
    = (inr tt, mkMachine (car_after f (self m)) a (trace m ++ evs))
    /\ sends evs
       = command (EyeControlledCar.eyes_open
                    (car_verdict f (EyeControlledCar.set_frame_count
                                      (EyeControlledCar.frame_count (self m) + 1) (self m))))
                 (EyeControlledCar.car_running (self m))
    /\ says evs = []
    /\ link_status a = link_status (arduino m).
Proof.
  unfold EyeControlledCar.step. unfold bind at 1, modify at 1.
  unfold bind at 1. rewrite car_detect_spec.
  match goal with |- context [EyeControlledCar.control_car ?eo ?m1] =>
    destruct (car_control_car_spec eo m1) as (a & evs & E & Hs & Hv & Hl);
    rewrite E end.
  exists a, evs. split; [|split; [|split]].
  - f_equal. f_equal.
    unfold car_after, car_count, set_self. cbn [self].
    destruct (len (faces f) =? 0), (len (eyes f) <? 2); reflexivity.
  - rewrite Hs. f_equal.
    unfold car_count, set_self. cbn [self].
    destruct (len (faces f) =? 0), (len (eyes f) <? 2); reflexivity.
  - exact Hv.
  - rewrite Hl. reflexivity.
Qed.

Lemma car_loop_spec (frames : list Frame) (m : EyeControlledCar.Car) :
  exists a evs,
    for_each frames EyeControlledCar.step m
    = (inr tt, mkMachine (car_after_all frames (self m)) a (trace m ++ evs))
    /\ says evs = []
    /\ link_status a = link_status (arduino m).
Proof.
  revert m. induction frames as [|f frames IH]; intros m.
  - exists (arduino m), []. rewrite app_nil_r. destruct m; repeat split.
  - cbn [for_each]. unfold bind.
    destruct (car_step_spec f m) as (a1 & evs1 & E1 & _ & Hv1 & Hl1). rewrite E1.
    destruct (IH (mkMachine (car_after f (self m)) a1 (trace m ++ evs1)))
      as (a2 & evs2 & E2 & Hv2 & Hl2).
    rewrite E2. cbn [self trace arduino] in *.
    exists a2, (evs1 ++ evs2). rewrite app_assoc, says_app, Hv1, Hv2.
    repeat split. congruence.
Qed.

(** ** The counters *)

Lemma car_count_ok (f : Frame) (d : EyeControlledCar.Fields) :
  counters_ok (EyeControlledCar.eye_closed_counter d)
              (EyeControlledCar.no_face_counter d) ->
  counters_ok (EyeControlledCar.eye_closed_counter (car_count f d))
              (EyeControlledCar.no_face_counter (car_count f d)).
Proof.
  unfold counters_ok, car_count.
  destruct (len (faces f) =? 0), (len (eyes f) <? 2); cbn; lia.
Qed.

Lemma car_after_ok (f : Frame) (d : EyeControlledCar.Fields) :
  counters_ok (EyeControlledCar.eye_closed_counter d)
              (EyeControlledCar.no_face_counter d) ->
  counters_ok (EyeControlledCar.eye_closed_counter (car_after f d))
              (EyeControlledCar.no_face_counter (car_after f d)).
Proof.
  intros H. unfold car_after. cbn.
  apply (car_count_ok f
           (EyeControlledCar.set_frame_count (EyeControlledCar.frame_count d + 1) d)).
  exact H.
Qed.

Lemma car_after_all_ok (frames : list Frame) (d : EyeControlledCar.Fields) :
  counters_ok (EyeControlledCar.eye_closed_counter d)
              (EyeControlledCar.no_face_counter d) ->
  counters_ok (EyeControlledCar.eye_closed_counter (car_after_all frames d))
              (EyeControlledCar.no_face_counter (car_after_all frames d)).
Proof.
  revert d. induction frames as [|f frames IH]; intros d H; [exact H|].
  cbn. apply IH, car_after_ok, H.
Qed.

Lemma simple_detect_ok (f : Frame) (d : SimpleSleepinessDetector.Detector) :
  simple_counters_ok d ->
  simple_counters_ok (snd (SimpleSleepinessDetector.detect_sleepiness f d)).
Proof.
  unfold simple_counters_ok, counters_ok. intros H.
  destruct (CarFacts.frame_kind f) as [K|[K|K]].
  - rewrite (SimpleFacts.simple_detect_no_face d K). cbn. lia.
  - rewrite (SimpleFacts.simple_detect_closed d K). cbn. lia.
  - rewrite (SimpleFacts.simple_detect_open d K). cbn. lia.
Qed.

(** The object [setup_arduino] leaves has the fields it found. *)
Lemma setup_arduino_spec {D} (first : string) (opened : Exn + Serial) (m : Machine D) :
  exists a evs,
    setup_arduino first opened m = (inr tt, mkMachine (self m) a (trace m ++ evs))
    /\ says evs = []
    /\ link_status a
       = match opened with inl _ => None | inr p => Some (is_open p) end.
Proof.
  unfold setup_arduino. destruct opened as [e|p]; run_monad.
  - exists None, [EvPrint MsgConnectWarning]. repeat split.
  - match goal with |- context [send_to_arduino first ?m1] =>
      destruct (send_to_arduino_spec first m1) as (a & evs & E & Hs & Hv & Hl);
      rewrite E end.
    cbn [self trace arduino] in *.
    exists a, ([EvSleep; EvPrint MsgConnected] ++ EvSend first :: evs).
    rewrite !app_assoc, says_app. cbn. rewrite Hv.
    repeat split.
    + rewrite <- !app_assoc. reflexivity.
    + exact Hl.
Qed.

(** C10.  Both counters are nonnegative and at least one of them is 0: this
    holds of the object [__init__] builds, every call of [detect_eye_state]
    (class [EyeControlledCar]) and of [detect_sleepiness] (class
    [SimpleSleepinessDetector]) that starts from counters like that leaves
    counters like that, and so does any number of turns of the loop of
    [run]. *)
Theorem counters_invariant
    (f : Frame) (frames : list Frame)
    (c : EyeControlledCar.Car) (d : SimpleSleepinessDetector.Detector) :
  car_counters_ok c ->
  simple_counters_ok d ->
  car_counters_ok (snd (EyeControlledCar.detect_eye_state f c))
  /\ simple_counters_ok (snd (SimpleSleepinessDetector.detect_sleepiness f d))
  /\ car_counters_ok (snd (for_each frames EyeControlledCar.step c))
  /\ (forall opened, car_counters_ok (snd (EyeControlledCar.init opened)))
  /\ (forall opened, simple_counters_ok (snd (SimpleSleepinessDetector.init opened))).
Proof.
  intros Hc Hd. split; [|split; [|split; [|split]]].
  - rewrite car_detect_spec. apply car_count_ok, Hc.
  - apply simple_detect_ok, Hd.
  - destruct (car_loop_spec frames c) as (a & evs & E & _). rewrite E.
    apply car_after_all_ok, Hc.
  - intros opened. unfold EyeControlledCar.init.
    destruct (setup_arduino_spec "0" opened EyeControlledCar.fresh) as (a & evs & E & _).
    rewrite E. unfold car_counters_ok, counters_ok. cbn. lia.
  - intros opened. unfold SimpleSleepinessDetector.init.
    destruct (setup_arduino_spec "1" opened SimpleSleepinessDetector.fresh)
      as (a & evs & E & _).
    rewrite E. unfold simple_counters_ok, counters_ok. cbn. lia.
Qed.

(** The invariant at work: twelve closed-eye frames seen, then a frame
    without a face, then more frames of every kind. *)
Lemma counters_invariant_witness :
  let f := empty_frame in
  let frames := [shut_frame; empty_frame; alert_frame] in
  let c := mkMachine (EyeControlledCar.mkFields 15 12 0 40 true) None [] in
  let d := mkMachine (SimpleSleepinessDetector.mkFields 30 20 0 12 0) None [] in
  car_counters_ok c /\ simple_counters_ok d
  /\ car_counters_ok (snd (EyeControlledCar.detect_eye_state f c))
  /\ simple_counters_ok (snd (SimpleSleepinessDetector.detect_sleepiness f d))
  /\ car_counters_ok (snd (for_each frames EyeControlledCar.step c)).
Proof.
  intros f frames c d.
  assert (Hc : car_counters_ok c)
    by (unfold car_counters_ok, counters_ok; cbn; lia).
  assert (Hd : simple_counters_ok d)
    by (unfold simple_counters_ok, counters_ok; cbn; lia).
  destruct (counters_invariant f frames Hc Hd) as (H1 & H2 & H3 & _).
  split; [exact Hc|]. split; [exact Hd|]. split; [exact H1|].
  split; [exact H2|exact H3].
Defined.

(** ** How long closed eyes take to count *)

Lemma debounced_cons (t : Z) (n : nat) :
  debounced t (S n)
  = nth_call_outcome t 1 :: map (nth_call_outcome t) (map S (seq 1 n)).
Proof.
  unfold debounced. cbn [seq map]. rewrite seq_shift. reflexivity.
Qed.

(** Discrete mode, from any count [c] already reached. *)
Lemma car_observe_closed (frames : list Frame) :
  forall m : EyeControlledCar.Car,
    Forall closed_frame frames ->
    exists vs m',
      EyeControlledCar.observe_all frames m = (inr vs, m')
      /\ map EyeControlledCar.outcome vs
         = debounced (EyeControlledCar.EYE_CLOSED_THRESHOLD (self m) + 1
                      - EyeControlledCar.eye_closed_counter (self m))
                     (List.length frames).
Proof.
  unfold EyeControlledCar.observe_all.
  induction frames as [|f frames IH]; intros m Hall.
  - exists [], m. split; reflexivity.
  - inversion Hall as [|? ? Hf Hrest]; subst.
    cbn [for_collect]. unfold bind at 1.
    rewrite (CarFacts.car_detect_closed m Hf). cbv beta iota.
    unfold bind at 1.
    match goal with |- context [for_collect frames _ ?m1] =>
      destruct (IH m1 Hrest) as (vs & m' & E & Hvs) end.
    rewrite E. unfold ret.
    eexists; exists m'. split; [reflexivity|].
    cbn [map List.length]. rewrite Hvs, debounced_cons. cbn [self set_self].
    set (c := EyeControlledCar.eye_closed_counter (self m)).
    set (t := EyeControlledCar.EYE_CLOSED_THRESHOLD (self m)).
    f_equal.
    + unfold nth_call_outcome, EyeControlledCar.outcome, EyeControlledCar.status.
      destruct (Z.gtb_spec (c + 1) t), (Z.leb_spec (t + 1 - c) (Z.of_nat 1));
        cbn; try reflexivity; lia.
    + unfold debounced. rewrite map_map. apply map_ext. intros k.
      unfold nth_call_outcome. cbn [EyeControlledCar.eye_closed_counter
        EyeControlledCar.EYE_CLOSED_THRESHOLD EyeControlledCar.set_eye_closed_counter
        EyeControlledCar.set_no_face_counter].
      fold c t.
      destruct (Z.leb_spec (t + 1 - (c + 1)) (Z.of_nat k)),
               (Z.leb_spec (t + 1 - c) (Z.of_nat (S k))); try reflexivity; lia.
Qed.

Section EarFacts.

Context {F : Type} {arith : Arith F}.

Lemma ear_check_eyes_spec (ear : F) (m : @SleepinessDetector.Detector F) :
  exists a evs,
    SleepinessDetector.check_eyes ear m
    = (inr (ear_outcome ear (self m)),
       mkMachine (ear_count ear (self m)) a (trace m ++ evs))
    /\ sends evs = ear_command ear (self m)
    /\ says evs = []
    /\ link_status a = link_status (arduino m).
Proof.
  unfold SleepinessDetector.check_eyes, ear_command, ear_outcome, ear_count.
  run_monad.
  destruct (fltb ear (SleepinessDetector.EAR_THRESHOLD (self m))); run_monad.
  - cbn [SleepinessDetector.frame_counter SleepinessDetector.set_frame_counter
         SleepinessDetector.CONSECUTIVE_FRAMES].
    destruct (_ >=? _); run_monad.
    + match goal with |- context [send_to_arduino "0" ?m1] =>
        destruct (send_to_arduino_spec "0" m1) as (a & evs & E & Hs & Hv & Hl);
        rewrite E end.
      cbn [self trace arduino] in *.
      exists a, (EvSend "0" :: evs). cbn. rewrite Hs, Hv. repeat split. exact Hl.
    + exists (arduino m), []. rewrite app_nil_r. repeat split.
  - match goal with |- context [send_to_arduino "1" ?m1] =>
      destruct (send_to_arduino_spec "1" m1) as (a & evs & E & Hs & Hv & Hl);
      rewrite E end.
    cbn [self trace arduino] in *.
    exists a, (EvSend "1" :: evs). cbn. rewrite Hs, Hv. repeat split. exact Hl.
Qed.

Lemma ear_process_frame_one (face : Face) (ear : F) (m : @SleepinessDetector.Detector F) :
  SleepinessDetector.avg_ear face = inr ear ->
  exists a evs,
    SleepinessDetector.process_frame [face] m
    = (inr [ear_outcome ear (self m)],
       mkMachine (ear_count ear (self m)) a (trace m ++ evs))
    /\ sends evs = ear_command ear (self m)
    /\ says evs = []
    /\ link_status a = link_status (arduino m).
Proof.
  intros He.
  unfold SleepinessDetector.process_frame, SleepinessDetector.process_face.
  cbn [for_collect]. rewrite He. unfold SleepinessDetector.lift.
  destruct (ear_check_eyes_spec ear m) as (a & evs & E & H).
  unfold bind, ret. rewrite E. exists a, evs. split; [reflexivity|exact H].
Qed.

(** Continuous mode, from any count already reached. *)
Lemma ear_observe_closed (frames : list (list Face)) :
  forall m : @SleepinessDetector.Detector F,
    Forall (below_threshold (SleepinessDetector.EAR_THRESHOLD (self m))) frames ->
    exists m',
      SleepinessDetector.observe_all frames m
      = (inr (map (fun o => [o])
                  (debounced (SleepinessDetector.CONSECUTIVE_FRAMES (self m)
                              - SleepinessDetector.frame_counter (self m))
                             (List.length frames))),
         m').
Proof.
  unfold SleepinessDetector.observe_all.
  induction frames as [|fr frames IH]; intros m Hall.
  - exists m. reflexivity.
  - inversion Hall as [|? ? Hf Hrest]; subst.
    destruct Hf as (face & ear & -> & He & Hlt).
    cbn [for_collect]. unfold bind at 1.
    destruct (ear_process_frame_one m He) as (a & evs & E & _). rewrite E.
    cbv beta iota. unfold bind at 1.
    set (c := SleepinessDetector.frame_counter (self m)) in *.
    set (n := SleepinessDetector.CONSECUTIVE_FRAMES (self m)) in *.
    assert (Hd : ear_count ear (self m)
                 = SleepinessDetector.mkFields
                     (SleepinessDetector.EAR_THRESHOLD (self m)) n (c + 1)
                     (SleepinessDetector.sleepy_counter (ear_count ear (self m)))).
    { unfold ear_count. rewrite Hlt. fold c n. destruct (_ >=? _); reflexivity. }
    match goal with |- context [for_collect frames _ ?m1] =>
      destruct (IH m1) as (m' & E') end.
    { cbn [self]. rewrite Hd. exact Hrest. }
    rewrite E'. unfold ret. exists m'.
    f_equal. f_equal. cbn [List.length self]. rewrite debounced_cons. cbn [map].
    f_equal.
    + f_equal. unfold ear_outcome, nth_call_outcome. rewrite Hlt. fold c n.
      destruct (Z.geb_spec (c + 1) n), (Z.leb_spec (n - c) (Z.of_nat 1));
        try reflexivity; lia.
    + rewrite Hd. cbn [SleepinessDetector.CONSECUTIVE_FRAMES
                         SleepinessDetector.frame_counter].
      unfold debounced. rewrite !map_map. apply map_ext. intros k.
      unfold nth_call_outcome.
      destruct (Z.leb_spec (n - (c + 1)) (Z.of_nat k)),
               (Z.leb_spec (n - c) (Z.of_nat (S k))); try reflexivity; lia.
Qed.

End EarFacts.

(** C1 (as amended).  A run of closed-eye looks that starts with the counter
    at 0.  Discrete mode ([EyeControlledCar.detect_eye_state], face present
    and fewer than two eyes): the outcome is [UNCERTAIN] on calls 1 to
    [EYE_CLOSED_THRESHOLD] and [EYES_CLOSED] from call
    [EYE_CLOSED_THRESHOLD + 1] on.  Continuous mode
    ([SleepinessDetector.process_frame], one face with the averaged ratio
    below [EAR_THRESHOLD]): the outcome is [UNCERTAIN] on calls 1 to
    [CONSECUTIVE_FRAMES - 1] and [EYES_CLOSED] from call
    [CONSECUTIVE_FRAMES] on. *)
Theorem closed_eyes_debounce {F : Type} {arith : Arith F}
    (frames : list Frame) (c : EyeControlledCar.Car)
    (looks : list (list Face)) (d : @SleepinessDetector.Detector F) :
  Forall closed_frame frames ->
  EyeControlledCar.eye_closed_counter (self c) = 0 ->
  Forall (below_threshold (SleepinessDetector.EAR_THRESHOLD (self d))) looks ->
  SleepinessDetector.frame_counter (self d) = 0 ->
  (exists vs c',
      EyeControlledCar.observe_all frames c = (inr vs, c')
      /\ map EyeControlledCar.outcome vs
         = debounced (EyeControlledCar.EYE_CLOSED_THRESHOLD (self c) + 1)
                     (List.length frames))
  /\
  (exists d',
      SleepinessDetector.observe_all looks d
      = (inr (map (fun o => [o])
                  (debounced (SleepinessDetector.CONSECUTIVE_FRAMES (self d))
                             (List.length looks))),
         d')).
Proof.
  intros Hframes Hc Hlooks Hd. split.
  - destruct (car_observe_closed c Hframes) as (vs & c' & E & Hvs).
    exists vs, c'. split; [exact E|]. rewrite Hvs, Hc, Z.sub_0_r. reflexivity.
  - destruct (ear_observe_closed d Hlooks) as (d' & E).
    exists d'. rewrite E, Hd, Z.sub_0_r. reflexivity.
Qed.

Lemma sample_face_ratio_shut :
  SleepinessDetector.avg_ear (F:=float) (sample_face 1) = inr 0x1.1111111111111p-4%float.
Proof. vm_compute. reflexivity. Qed.

Lemma sample_looks_below (n : nat) :
  Forall (below_threshold (F:=float) 0.21%float) (repeat [sample_face 1] n).
Proof.
  apply Forall_forall. intros x Hx. apply repeat_spec in Hx. subst x.
  exists (sample_face 1), 0x1.1111111111111p-4%float.
  split; [reflexivity|]. split; [apply sample_face_ratio_shut|].
  vm_compute. reflexivity.
Qed.

Lemma sample_frames_closed (n : nat) : Forall closed_frame (repeat shut_frame n).
Proof.
  apply Forall_forall. intros x Hx. apply repeat_spec in Hx. subst x.
  unfold closed_frame, shut_frame, len. cbn. lia.
Qed.

(** Seventeen closed-eye frames for a new car (threshold 15) and twenty-one
    low-ratio frames for a new detector (20 consecutive frames). *)
Lemma closed_eyes_debounce_witness :
  let frames := repeat shut_frame 17 in
  let c := EyeControlledCar.fresh in
  let looks := repeat [sample_face 1] 21 in
  let d := SleepinessDetector.fresh (F:=float) in
  Forall closed_frame frames
  /\ EyeControlledCar.eye_closed_counter (self c) = 0
  /\ Forall (below_threshold (SleepinessDetector.EAR_THRESHOLD (self d))) looks
  /\ SleepinessDetector.frame_counter (self d) = 0
  /\ (exists vs c',
         EyeControlledCar.observe_all frames c = (inr vs, c')
         /\ map EyeControlledCar.outcome vs = debounced 16 17)
  /\ (exists d',
         SleepinessDetector.observe_all looks d
         = (inr (map (fun o => [o]) (debounced 20 21)), d')).
Proof.
  intros frames c looks d.
  assert (H1 : Forall closed_frame frames) by apply sample_frames_closed.
  assert (H2 : EyeControlledCar.eye_closed_counter (self c) = 0) by reflexivity.
  assert (H3 : Forall (below_threshold (SleepinessDetector.EAR_THRESHOLD (self d))) looks)
    by apply sample_looks_below.
  assert (H4 : SleepinessDetector.frame_counter (self d) = 0) by reflexivity.
  split; [exact H1|]. split; [exact H2|]. split; [exact H3|]. split; [exact H4|].
  exact (@closed_eyes_debounce float float_arith frames c looks d H1 H2 H3 H4).
Defined.

(** C1 as it was stated fails in continuous mode: a new [SleepinessDetector]
    ([CONSECUTIVE_FRAMES] = 20) fed twenty-one frames with the ratio below
    the threshold answers [EYES_CLOSED] already on the 20th call, where the
    statement wants [UNCERTAIN] on every call before the 21st. *)
Lemma closed_eyes_debounce_counterexample :
  let d := SleepinessDetector.fresh (F:=float) in
  let looks := repeat [sample_face 1] 21 in
  Forall (below_threshold (SleepinessDetector.EAR_THRESHOLD (self d))) looks
  /\ SleepinessDetector.frame_counter (self d) = 0
  /\ SleepinessDetector.CONSECUTIVE_FRAMES (self d) = 20
  /\ (exists outs,
         fst (SleepinessDetector.observe_all looks d) = inr outs
         /\ nth_error outs 19 = Some [EYES_CLOSED])
  /\ nth_error (debounced (20 + 1) 21) 19 = Some UNCERTAIN.
Proof.
  intros d looks. split; [apply sample_looks_below|].
  split; [reflexivity|]. split; [reflexivity|]. split.
  - eexists. split; vm_compute; reflexivity.
  - reflexivity.
Qed.

(** ** Edge-triggered and level-triggered loops *)

Lemma car_verdict_open (f : Frame) (d : EyeControlledCar.Fields) :
  open_frame f -> EyeControlledCar.eyes_open (car_verdict f d) = Some true.
Proof.
  intros [Hf He]. unfold car_verdict.
  apply Z.eqb_neq in Hf. apply Z.ltb_ge in He. rewrite Hf, He. reflexivity.
Qed.

Lemma car_step_open (f : Frame) (m : EyeControlledCar.Car) :
  open_frame f ->
  exists m' evs,
    EyeControlledCar.step f m = (inr tt, m')
    /\ trace m' = trace m ++ evs
    /\ sends evs = (if EyeControlledCar.car_running (self m) then [] else ["1"])
    /\ EyeControlledCar.car_running (self m') = true.
Proof.
  intros Hf. destruct (car_step_spec f m) as (a & evs & E & Hs & _).
  rewrite (car_verdict_open _ Hf) in Hs.
  eexists; exists evs. split; [exact E|]. split; [reflexivity|]. split; [exact Hs|].
  cbn [self]. unfold car_after. cbn [EyeControlledCar.car_running
    EyeControlledCar.set_car_running]. rewrite (car_verdict_open _ Hf). reflexivity.
Qed.

Lemma car_loop_open_running (frames : list Frame) :
  forall m : EyeControlledCar.Car,
    Forall open_frame frames ->
    EyeControlledCar.car_running (self m) = true ->
    exists m' evs,
      for_each frames EyeControlledCar.step m = (inr tt, m')
      /\ trace m' = trace m ++ evs
      /\ sends evs = []
      /\ EyeControlledCar.car_running (self m') = true.
Proof.
  induction frames as [|f frames IH]; intros m Hall Hrun.
  - exists m, []. rewrite app_nil_r. repeat split. exact Hrun.
  - inversion Hall as [|? ? Hf Hrest]; subst.
    destruct (car_step_open m Hf) as (m1 & evs1 & E1 & T1 & S1 & R1).
    destruct (IH m1 Hrest R1) as (m2 & evs2 & E2 & T2 & S2 & R2).
    cbn [for_each]. unfold bind. rewrite E1, E2.
    exists m2, (evs1 ++ evs2). rewrite T2, T1, app_assoc, sends_app, S1, S2, Hrun.
    repeat split. exact R2.
Qed.

Lemma simple_signal_alert_spec (b : bool) (m : SimpleSleepinessDetector.Detector) :
  exists a evs,
    SimpleSleepinessDetector.signal_alert b m
    = (inr tt, mkMachine (self m) a (trace m ++ evs))
    /\ sends evs = [if b then "0" else "1"]
    /\ link_status a = link_status (arduino m).
Proof.
  unfold SimpleSleepinessDetector.signal_alert.
  destruct b;
    [destruct (send_to_arduino_spec "0" m) as (a & evs & E & Hs & _ & Hl)
    |destruct (send_to_arduino_spec "1" m) as (a & evs & E & Hs & _ & Hl)];
    rewrite E; eexists; eexists; (split; [reflexivity|]); cbn; rewrite Hs;
    split; [reflexivity | exact Hl | reflexivity | exact Hl].
Qed.

Lemma simple_loop_open (frames : list Frame) :
  forall m : SimpleSleepinessDetector.Detector,
    Forall open_frame frames ->
    exists m' evs,
      for_each frames SimpleSleepinessDetector.step m = (inr tt, m')
      /\ trace m' = trace m ++ evs
      /\ sends evs = repeat "1" (List.length frames).
Proof.
  induction frames as [|f frames IH]; intros m Hall.
  - exists m, []. rewrite app_nil_r. repeat split.
  - inversion Hall as [|? ? Hf Hrest]; subst.
    cbn [for_each]. unfold SimpleSleepinessDetector.step at 1. unfold bind at 1 2.
    rewrite (SimpleFacts.simple_detect_open m Hf).
    match goal with |- context [SimpleSleepinessDetector.signal_alert ?b ?m1] =>
      destruct (simple_signal_alert_spec b m1) as (a & evs1 & E1 & S1 & _) end.
    rewrite E1.
    match type of E1 with _ = (_, ?m2) =>
      destruct (IH m2 Hrest) as (m3 & evs2 & E2 & T2 & S2) end.
    rewrite E2. exists m3, (evs1 ++ evs2).
    rewrite T2, sends_app, S1, S2. cbn [trace set_self]. rewrite app_assoc.
    repeat split.
Qed.

Section EarLoop.

Context {F : Type} {arith : Arith F}.

Lemma ear_loop_open (looks : list (list Face)) :
  forall m : @SleepinessDetector.Detector F,
    Forall (not_below_threshold (SleepinessDetector.EAR_THRESHOLD (self m))) looks ->
    exists m' evs,
      for_each looks (fun fr => SleepinessDetector.process_frame fr ;; ret tt) m
      = (inr tt, m')
      /\ trace m' = trace m ++ evs
      /\ sends evs = repeat "1" (List.length looks).
Proof.
  induction looks as [|fr looks IH]; intros m Hall.
  - exists m, []. rewrite app_nil_r. repeat split.
  - inversion Hall as [|? ? Hf Hrest]; subst.
    destruct Hf as (face & ear & -> & He & Hlt).
    cbn [for_each]. unfold bind at 1 2.
    destruct (ear_process_frame_one m He) as (a & evs1 & E1 & S1 & _). rewrite E1.
    unfold ret at 1.
    assert (Hd : ear_count ear (self m)
                 = SleepinessDetector.set_frame_counter 0 (self m)).
    { unfold ear_count. rewrite Hlt. reflexivity. }
    match type of E1 with _ = (_, ?m2) => destruct (IH m2) as (m3 & evs2 & E2 & T2 & S2) end.
    { cbn [self]. rewrite Hd. exact Hrest. }
    rewrite E2. exists m3, (evs1 ++ evs2).
    rewrite T2, sends_app, S1, S2. cbn [trace]. rewrite app_assoc.
    unfold ear_command, ear_outcome. rewrite Hlt. repeat split.
Qed.

End EarLoop.

(** C2 (as amended).  A steady stream of [EYES_OPEN] frames.  The loop of
    [EyeControlledCar.run], from any car state: [send_to_arduino] is called
    on the first frame only, once and with ['1'], if the car was stopped,
    and not at all if it was running; no later frame of the stream calls it,
    and the car is running at the end.  The loops of
    [SimpleSleepinessDetector.run] and of [SleepinessDetector.run] keep no
    car state and call [send_to_arduino('1')] on every such frame. *)
Theorem edge_triggering {F : Type} {arith : Arith F}
    (f : Frame) (rest : list Frame) (c : EyeControlledCar.Car)
    (frames : list Frame) (s : SimpleSleepinessDetector.Detector)
    (looks : list (list Face)) (d : @SleepinessDetector.Detector F) :
  open_frame f ->
  Forall open_frame rest ->
  Forall open_frame frames ->
  Forall (not_below_threshold (SleepinessDetector.EAR_THRESHOLD (self d))) looks ->
  (exists c1 c2 evs1 evs2,
      EyeControlledCar.step f c = (inr tt, c1)
      /\ for_each rest EyeControlledCar.step c1 = (inr tt, c2)
      /\ trace c1 = trace c ++ evs1
      /\ trace c2 = trace c1 ++ evs2
      /\ sends evs1 = (if EyeControlledCar.car_running (self c) then [] else ["1"])
      /\ sends evs2 = []
      /\ EyeControlledCar.car_running (self c2) = true)
  /\ (exists s' evs,
         for_each frames SimpleSleepinessDetector.step s = (inr tt, s')
         /\ trace s' = trace s ++ evs
         /\ sends evs = repeat "1" (List.length frames))
  /\ (exists d' evs,
         for_each looks (fun fr => SleepinessDetector.process_frame fr ;; ret tt) d
         = (inr tt, d')
         /\ trace d' = trace d ++ evs
         /\ sends evs = repeat "1" (List.length looks)).
Proof.
  intros Hf Hrest Hframes Hlooks. split; [|split].
  - destruct (car_step_open c Hf) as (c1 & evs1 & E1 & T1 & S1 & R1).
    destruct (car_loop_open_running c1 Hrest R1) as (c2 & evs2 & E2 & T2 & S2 & R2).
    exists c1, c2, evs1, evs2. repeat split; assumption.
  - apply simple_loop_open, Hframes.
  - apply ear_loop_open, Hlooks.
Qed.

Lemma sample_face_ratio_wide :
  SleepinessDetector.avg_ear (F:=float) (sample_face 5) = inr 0x1.5555555555555p-2%float.
Proof. vm_compute. reflexivity. Qed.

Lemma sample_looks_not_below (n : nat) :
  Forall (not_below_threshold (F:=float) 0.21%float) (repeat [sample_face 5] n).
Proof.
  apply Forall_forall. intros x Hx. apply repeat_spec in Hx. subst x.
  exists (sample_face 5), 0x1.5555555555555p-2%float.
  split; [reflexivity|]. split; [apply sample_face_ratio_wide|].
  vm_compute. reflexivity.
Qed.

Lemma alert_frame_open : open_frame alert_frame.
Proof. unfold open_frame, alert_frame, len. cbn. lia. Qed.

Lemma sample_frames_open (n : nat) : Forall open_frame (repeat alert_frame n).
Proof.
  apply Forall_forall. intros x Hx. apply repeat_spec in Hx. subst x.
  apply alert_frame_open.
Qed.

(** Five open-eye frames for a new car, three for each of the two
    sleepiness detectors. *)
Lemma edge_triggering_witness :
  let c := EyeControlledCar.fresh in
  let s := SimpleSleepinessDetector.fresh in
  let d := SleepinessDetector.fresh (F:=float) in
  let rest := repeat alert_frame 4 in
  let frames := repeat alert_frame 3 in
  let looks := repeat [sample_face 5] 3 in
  open_frame alert_frame
  /\ Forall open_frame rest
  /\ Forall open_frame frames
  /\ Forall (not_below_threshold (SleepinessDetector.EAR_THRESHOLD (self d))) looks
  /\ (exists c1 c2 evs1 evs2,
         EyeControlledCar.step alert_frame c = (inr tt, c1)
         /\ for_each rest EyeControlledCar.step c1 = (inr tt, c2)
         /\ trace c1 = trace c ++ evs1
         /\ trace c2 = trace c1 ++ evs2
         /\ sends evs1 = ["1"]
         /\ sends evs2 = []
         /\ EyeControlledCar.car_running (self c2) = true)
  /\ (exists s' evs,
         for_each frames SimpleSleepinessDetector.step s = (inr tt, s')
         /\ trace s' = trace s ++ evs
         /\ sends evs = ["1"; "1"; "1"])
  /\ (exists d' evs,
         for_each looks (fun fr => SleepinessDetector.process_frame fr ;; ret tt) d
         = (inr tt, d')
         /\ trace d' = trace d ++ evs
         /\ sends evs = ["1"; "1"; "1"]).
Proof.
  intros c s d rest frames looks.
  assert (H1 : open_frame alert_frame) by apply alert_frame_open.
  assert (H2 : Forall open_frame rest) by apply sample_frames_open.
  assert (H3 : Forall open_frame frames) by apply sample_frames_open.
  assert (H4 : Forall (not_below_threshold (SleepinessDetector.EAR_THRESHOLD (self d))) looks)
    by apply sample_looks_not_below.
  split; [exact H1|]. split; [exact H2|]. split; [exact H3|]. split; [exact H4|].
  exact (@edge_triggering float float_arith alert_frame rest c frames s looks d
           H1 H2 H3 H4).
Defined.

(** C2 as it was stated fails for the level-triggered loops: a
    [SimpleSleepinessDetector] connected to a working port and shown three
    open-eye frames calls [send_to_arduino] three times, and the port
    receives ['1'] three more times after the one [setup_arduino] sent. *)
Lemma edge_triggering_counterexample :
  let s := snd (SimpleSleepinessDetector.init (inr good_port)) in
  let frames := repeat alert_frame 3 in
  let s' := snd (for_each frames SimpleSleepinessDetector.step s) in
  Forall open_frame frames
  /\ wire_of (arduino s) = encode "1"
  /\ (exists evs, trace s' = trace s ++ evs /\ sends evs = ["1"; "1"; "1"])
  /\ wire_of (arduino s') = encode "1111".
Proof.
  intros s frames s'. split; [apply sample_frames_open|].
  split; [reflexivity|]. split; [|reflexivity].
  exists [EvSend "1"; EvSend "1"; EvSend "1"]. split; reflexivity.
Qed.

(** ** The decision step *)

(** C3 (as amended).  In [EyeControlledCar] the decision step that follows
    [detect_eye_state] leaves the car running on [EYES_OPEN], stopped on
    [EYES_CLOSED] and on [NO_FACE], and as it was on [UNCERTAIN], whatever
    the car state was.  [SimpleSleepinessDetector] keeps no car state: its
    decision step sends ['0'] on [EYES_CLOSED] and ['1'] on each of
    [EYES_OPEN], [UNCERTAIN] and [NO_FACE]. *)
Theorem decision_policy
    (f : Frame) (c : EyeControlledCar.Car) (s : SimpleSleepinessDetector.Detector) :
  (exists v c1 c2,
      EyeControlledCar.detect_eye_state f c = (inr v, c1)
      /\ EyeControlledCar.control_car (EyeControlledCar.eyes_open v) c1 = (inr tt, c2)
      /\ EyeControlledCar.car_running (self c2)
         = match EyeControlledCar.outcome v with
           | EYES_OPEN => true
           | EYES_CLOSED | NO_FACE => false
           | UNCERTAIN => EyeControlledCar.car_running (self c)
           end)
  /\
  (exists v s1 s2 evs,
      SimpleSleepinessDetector.detect_sleepiness f s = (inr v, s1)
      /\ SimpleSleepinessDetector.signal_alert (SimpleSleepinessDetector.is_sleepy v) s1
         = (inr tt, s2)
      /\ trace s2 = trace s ++ evs
      /\ sends evs
         = match SimpleSleepinessDetector.outcome v with
           | EYES_CLOSED => ["0"]
           | EYES_OPEN | UNCERTAIN | NO_FACE => ["1"]
           end).
Proof.
  split.
  - rewrite car_detect_spec.
    match goal with |- context [(inr ?v, ?m1)] =>
      destruct (car_control_car_spec (EyeControlledCar.eyes_open v) m1)
        as (a & evs & E & _) end.
    do 3 eexists. split; [reflexivity|]. split; [exact E|].
    cbn [self set_self EyeControlledCar.car_running EyeControlledCar.set_car_running].
    unfold car_verdict, car_count.
    destruct (len (faces f) =? 0); [reflexivity|].
    destruct (len (eyes f) <? 2); [|reflexivity].
    cbn [EyeControlledCar.eye_closed_counter EyeControlledCar.EYE_CLOSED_THRESHOLD].
    destruct (_ >? _); reflexivity.
  - destruct (CarFacts.frame_kind f) as [K|[K|K]].
    + rewrite (SimpleFacts.simple_detect_no_face s K).
      match goal with |- context [(inr ?v, ?m1)] =>
        destruct (simple_signal_alert_spec (SimpleSleepinessDetector.is_sleepy v) m1)
          as (a & evs & E & Hs & _) end.
      do 4 eexists. split; [reflexivity|]. split; [exact E|].
      split; [reflexivity|]. rewrite Hs.
      unfold SimpleSleepinessDetector.outcome. cbn.
      destruct (_ >? _); reflexivity.
    + rewrite (SimpleFacts.simple_detect_closed s K).
      match goal with |- context [(inr ?v, ?m1)] =>
        destruct (simple_signal_alert_spec (SimpleSleepinessDetector.is_sleepy v) m1)
          as (a & evs & E & Hs & _) end.
      do 4 eexists. split; [reflexivity|]. split; [exact E|].
      split; [reflexivity|]. rewrite Hs.
      unfold SimpleSleepinessDetector.outcome. cbn.
      destruct (_ >? _); reflexivity.
    + rewrite (SimpleFacts.simple_detect_open s K).
      match goal with |- context [(inr ?v, ?m1)] =>
        destruct (simple_signal_alert_spec (SimpleSleepinessDetector.is_sleepy v) m1)
          as (a & evs & E & Hs & _) end.
      do 4 eexists. split; [reflexivity|]. split; [exact E|].
      split; [reflexivity|]. rewrite Hs. reflexivity.
Qed.

(** C3 as it was stated fails in [SimpleSleepinessDetector]: a frame
    without a face, outcome [NO_FACE], makes its loop send the run command
    ['1'], not the stop command ['0']. *)
Lemma decision_policy_counterexample :
  let s := SimpleSleepinessDetector.fresh in
  no_face_frame empty_frame
  /\ (exists v s1,
         SimpleSleepinessDetector.detect_sleepiness empty_frame s = (inr v, s1)
         /\ SimpleSleepinessDetector.outcome v = NO_FACE)
  /\ sends (trace (snd (SimpleSleepinessDetector.step empty_frame s))) = ["1"]
  /\ ["1"] <> ["0"].
Proof.
  intros s. split; [reflexivity|]. split; [|split].
  - do 2 eexists. split; reflexivity.
  - reflexivity.
  - discriminate.
Qed.

(** ** Running without a link *)

Lemma send_without_link {D} (signal : string) (d : D) (tr : list Event) :
  send_to_arduino signal (mkMachine d None tr)
  = (inr tt, mkMachine d None (tr ++ [EvSend signal])).
Proof. reflexivity. Qed.

Lemma link_status_none (a : option Serial) : link_status a = None -> a = None.
Proof. destruct a; [discriminate|reflexivity]. Qed.

Lemma car_cleanup_without_link (m : EyeControlledCar.Car) :
  arduino m = None ->
  EyeControlledCar.cleanup m
  = (inr tt, mkMachine (self m) None
               (trace m ++ [EvPrint MsgCleaningUp; EvPrint MsgShutDown])).
Proof.
  destruct m as [d a tr]. cbn [arduino]. intros ->.
  unfold EyeControlledCar.cleanup. run_monad. rewrite <- app_assoc. reflexivity.
Qed.

(** The count of frames only grows by one a turn. *)
Lemma car_after_all_frame_count (frames : list Frame) (d : EyeControlledCar.Fields) :
  EyeControlledCar.frame_count (car_after_all frames d)
  = EyeControlledCar.frame_count d + Z.of_nat (List.length frames).
Proof.
  revert d. induction frames as [|f frames IH]; intros d.
  - cbn. lia.
  - cbn [car_after_all fold_left] in *. rewrite IH.
    assert (E : EyeControlledCar.frame_count (car_after f d)
                = EyeControlledCar.frame_count d + 1).
    { unfold car_after, car_count.
      destruct (len (faces f) =? 0), (len (eyes f) <? 2); reflexivity. }
    rewrite E. cbn [List.length]. lia.
Qed.

(** One turn of the loop on an object without a link. *)
Lemma car_step_without_link (f : Frame) (d : EyeControlledCar.Fields)
    (tr : list Event) :
  exists evs,
    EyeControlledCar.step f (mkMachine d None tr)
    = (inr tt, mkMachine (car_after f d) None (tr ++ evs))
    /\ sends evs
       = command (EyeControlledCar.eyes_open
                    (car_verdict f (EyeControlledCar.set_frame_count
                                      (EyeControlledCar.frame_count d + 1) d)))
                 (EyeControlledCar.car_running d).
Proof.
  destruct (car_step_spec f (mkMachine d None tr)) as (a & evs & E & Hs & _ & Hl).
  cbn [self arduino trace] in *. apply link_status_none in Hl. subst a.
  exists evs. split; [exact E|exact Hs].
Qed.

(** The fields a turn leaves, one by one. *)
Lemma car_after_fields (f : Frame) (d : EyeControlledCar.Fields) :
  let d1 := EyeControlledCar.set_frame_count (EyeControlledCar.frame_count d + 1) d in
  EyeControlledCar.car_running (car_after f d)
  = match EyeControlledCar.outcome (car_verdict f d1) with
    | EYES_OPEN => true
    | EYES_CLOSED | NO_FACE => false
    | UNCERTAIN => EyeControlledCar.car_running d
    end
  /\ EyeControlledCar.eye_closed_counter (car_after f d)
     = (if len (faces f) =? 0 then 0
        else if len (eyes f) <? 2 then EyeControlledCar.eye_closed_counter d + 1
        else 0)
  /\ EyeControlledCar.no_face_counter (car_after f d)
     = (if len (faces f) =? 0 then EyeControlledCar.no_face_counter d + 1 else 0)
  /\ EyeControlledCar.frame_count (car_after f d) = EyeControlledCar.frame_count d + 1
  /\ EyeControlledCar.EYE_CLOSED_THRESHOLD (car_after f d)
     = EyeControlledCar.EYE_CLOSED_THRESHOLD d.
Proof.
  intros d1. unfold car_after, car_verdict, car_count. fold d1.
  destruct (len (faces f) =? 0); [repeat split|].
  destruct (len (eyes f) <? 2); [|repeat split].
  split; [|repeat split].
  cbn [EyeControlledCar.car_running EyeControlledCar.set_car_running].
  destruct (_ >? _); reflexivity.
Qed.

(** C5.  When opening the port fails, [setup_arduino] does not raise and
    leaves [arduino] at [None] (no link) and the fields as [__init__] set
    them.  From there, whatever frames come, the loop of
    [EyeControlledCar.run] and [run] itself (loop and [cleanup]) end without
    an exception and still without a link, and a [send_to_arduino] on an
    object without a link returns normally and changes nothing but the
    record of the call.  The fields the loop leaves are those of
    [car_after_all], the same as when the port had opened, whatever that
    port then does, and as many frames are counted as came.  Turn by turn,
    on any object without a link: the turn returns normally, calls
    [send_to_arduino] with the command of the verdict exactly when the car
    changes state, and leaves the car running on [EYES_OPEN], stopped on
    [EYES_CLOSED] and [NO_FACE] and as it was on [UNCERTAIN], the closed-eye
    counter one up on a face with fewer than two eyes and at 0 otherwise,
    the no-face counter one up without a face and at 0 otherwise, and one
    more frame counted. *)
Theorem disconnection_transparency
    (e : Exn) (p : Serial) (f : Frame) (frames : list Frame)
    (signal : string) (d : EyeControlledCar.Fields) (tr : list Event) :
  let c := snd (EyeControlledCar.init (inl e)) in
  let live := snd (EyeControlledCar.init (inr p)) in
  let last := snd (for_each frames EyeControlledCar.step c) in
  let d1 := EyeControlledCar.set_frame_count (EyeControlledCar.frame_count d + 1) d in
  fst (EyeControlledCar.init (inl e)) = inr tt
  /\ arduino c = None
  /\ self c = EyeControlledCar.mkFields 15 0 0 0 false
  /\ fst (for_each frames EyeControlledCar.step c) = inr tt
  /\ arduino last = None
  /\ fst (EyeControlledCar.run frames c) = inr tt
  /\ send_to_arduino signal (mkMachine d None tr)
     = (inr tt, mkMachine d None (tr ++ [EvSend signal]))
  /\ self last = self (snd (for_each frames EyeControlledCar.step live))
  /\ self last = car_after_all frames (EyeControlledCar.mkFields 15 0 0 0 false)
  /\ EyeControlledCar.frame_count (self last) = Z.of_nat (List.length frames)
  /\ (exists evs,
         EyeControlledCar.step f (mkMachine d None tr)
         = (inr tt, mkMachine (car_after f d) None (tr ++ evs))
         /\ sends evs
            = command (EyeControlledCar.eyes_open (car_verdict f d1))
                      (EyeControlledCar.car_running d))
  /\ EyeControlledCar.car_running (car_after f d)
     = match EyeControlledCar.outcome (car_verdict f d1) with
       | EYES_OPEN => true
       | EYES_CLOSED | NO_FACE => false
       | UNCERTAIN => EyeControlledCar.car_running d
       end
  /\ EyeControlledCar.eye_closed_counter (car_after f d)
     = (if len (faces f) =? 0 then 0
        else if len (eyes f) <? 2 then EyeControlledCar.eye_closed_counter d + 1
        else 0)
  /\ EyeControlledCar.no_face_counter (car_after f d)
     = (if len (faces f) =? 0 then EyeControlledCar.no_face_counter d + 1 else 0)
  /\ EyeControlledCar.frame_count (car_after f d) = EyeControlledCar.frame_count d + 1.
Proof.
  intros c live last d1.
  assert (Hc : arduino c = None) by reflexivity.
  assert (Hf : self c = EyeControlledCar.mkFields 15 0 0 0 false) by reflexivity.
  destruct (car_loop_spec frames c) as (a & evs & E & _ & Hl).
  rewrite Hc in Hl. apply link_status_none in Hl. subst a.
  assert (El : self last = car_after_all frames (EyeControlledCar.mkFields 15 0 0 0 false)).
  { unfold last. rewrite E, Hf. reflexivity. }
  split; [reflexivity|]. split; [exact Hc|]. split; [exact Hf|].
  split; [rewrite E; reflexivity|]. split; [unfold last; rewrite E; reflexivity|].
  split; [|split; [|split; [|split; [|split; [|split]]]]].
  - unfold EyeControlledCar.run, try_finally. rewrite E.
    rewrite car_cleanup_without_link by reflexivity. reflexivity.
  - apply send_without_link.
  - rewrite El.
    destruct (car_loop_spec frames live) as (a' & evs' & E' & _). rewrite E'.
    cbn [snd self]. f_equal. unfold live, EyeControlledCar.init.
    destruct (setup_arduino_spec "0" (inr p) EyeControlledCar.fresh)
      as (a0 & evs0 & E0 & _).
    rewrite E0. reflexivity.
  - exact El.
  - rewrite El, car_after_all_frame_count. reflexivity.
  - apply car_step_without_link.
  - destruct (car_after_fields f d) as (H1 & H2 & H3 & H4 & _).
    repeat split; assumption.
Qed.

(** ** Write failures *)

Ltac send_cases :=
  unfold send_to_arduino, Serial_write, Serial_flush, Serial_close, next_fault;
  run_monad; rewrite <- ?app_assoc; cbn [app].

Lemma send_write_fails {D} (signal : string) (d : D) (w : list ascii)
    (fs : list bool) (tr : list Event) :
  send_to_arduino signal (mkMachine d (Some (mkSerial true w (true :: fs))) tr)
  = (inr tt,
     mkMachine d (Some (mkSerial true w fs))
               (tr ++ [EvSend signal; EvPrint MsgSendError])).
Proof. send_cases. reflexivity. Qed.

Lemma send_goes_through {D} (signal : string) (d : D) (w : list ascii)
    (fs : list bool) (tr : list Event) :
  send_to_arduino signal
    (mkMachine d (Some (mkSerial true w (false :: false :: fs))) tr)
  = (inr tt,
     mkMachine d (Some (mkSerial true (w ++ encode signal) fs))
               (tr ++ [EvSend signal])).
Proof. send_cases. reflexivity. Qed.

Lemma send_on_quiet_port {D} (signal : string) (d : D) (w : list ascii)
    (tr : list Event) :
  send_to_arduino signal (mkMachine d (Some (mkSerial true w [])) tr)
  = (inr tt,
     mkMachine d (Some (mkSerial true (w ++ encode signal) []))
               (tr ++ [EvSend signal])).
Proof. send_cases. reflexivity. Qed.

(** C6 (as amended).  A [send_to_arduino] whose write fails on a live link:
    the exception is caught and an error line printed, nothing reaches the
    port, and the object keeps the link, still open (it is not set to
    [None]).  The next [send_to_arduino] therefore tries the write again: if
    the device fails again the error is printed again, if it works the byte
    reaches the port.  Through any number of turns of the loop of
    [EyeControlledCar.run] the link stays as present and as open as it was:
    it is neither dropped nor opened anew. *)
Theorem write_failure_handling {D : Type}
    (m : Machine D) (p : Serial) (signal next : string)
    (again : bool) (fs : list bool)
    (c : EyeControlledCar.Car) (frames : list Frame) :
  arduino m = Some p ->
  is_open p = true ->
  faults p = true :: again :: false :: fs ->
  let m1 := snd (send_to_arduino signal m) in
  send_to_arduino signal m
  = (inr tt,
     mkMachine (self m) (Some (mkSerial true (wire p) (again :: false :: fs)))
               (trace m ++ [EvSend signal; EvPrint MsgSendError]))
  /\ send_to_arduino next m1
     = (inr tt,
        if again
        then mkMachine (self m) (Some (mkSerial true (wire p) (false :: fs)))
                       (trace m1 ++ [EvSend next; EvPrint MsgSendError])
        else mkMachine (self m) (Some (mkSerial true (wire p ++ encode next) fs))
                       (trace m1 ++ [EvSend next]))
  /\ link_status (arduino (snd (for_each frames EyeControlledCar.step c)))
     = link_status (arduino c).
Proof.
  intros Ha Ho Hf m1.
  destruct m as [d a tr]. destruct p as [o w fl]. cbn in Ha, Ho, Hf. subst a o fl.
  subst m1. rewrite send_write_fails. cbn [snd self wire trace].
  split; [reflexivity|]. split.
  - destruct again; [rewrite send_write_fails | rewrite send_goes_through];
      reflexivity.
  - destruct (car_loop_spec frames c) as (a & evs & E & _ & Hl). rewrite E.
    exact Hl.
Qed.

(** A car whose port fails the first write met and then works. *)
Lemma write_failure_handling_witness :
  let p := mkSerial true (encode "0") [true; false; false] in
  let m := mkMachine (EyeControlledCar.mkFields 15 0 0 1 false) (Some p) [] in
  arduino m = Some p
  /\ is_open p = true
  /\ faults p = [true; false; false]
  /\ send_to_arduino "1" m
     = (inr tt,
        mkMachine (self m) (Some (mkSerial true (encode "0") [false; false]))
                  [EvSend "1"; EvPrint MsgSendError])
  /\ send_to_arduino "0" (snd (send_to_arduino "1" m))
     = (inr tt,
        mkMachine (self m) (Some (mkSerial true (encode "00") []))
                  [EvSend "1"; EvPrint MsgSendError; EvSend "0"]).
Proof.
  intros p m.
  assert (Ha : arduino m = Some p) by reflexivity.
  assert (Ho : is_open p = true) by reflexivity.
  assert (Hf : faults p = true :: false :: false :: []) by reflexivity.
  destruct (@write_failure_handling _ m p "1" "0" false [] m [] Ha Ho Hf)
    as (H1 & H2 & _).
  split; [exact Ha|]. split; [exact Ho|]. split; [exact Hf|].
  split; [exact H1 | exact H2].
Defined.

(** C6 as it was stated fails: the link is not demoted.  A car whose port
    fails one write (the ['1'] of the first open-eye frame) still holds the
    open port afterwards, and the ['0'] of the next frame without a face is
    written to it. *)
Lemma write_failure_handling_counterexample :
  let c := snd (EyeControlledCar.init (inr (mkSerial true [] [false; false; true]))) in
  let c1 := snd (EyeControlledCar.step alert_frame c) in
  let c2 := snd (EyeControlledCar.step empty_frame c1) in
  wire_of (arduino c) = encode "0"
  /\ In (EvPrint MsgSendError) (trace c1)
  /\ wire_of (arduino c1) = encode "0"
  /\ link_status (arduino c1) = Some true
  /\ arduino c1 <> None
  /\ wire_of (arduino c2) = encode "00".
Proof.
  intros c c1 c2. split; [reflexivity|]. split; [cbn; tauto|].
  split; [reflexivity|]. split; [reflexivity|]. split; [discriminate|reflexivity].
Qed.

(** ** Start and shutdown *)

Ltac farewell_cases m :=
  let d := fresh "d" in let o := fresh "o" in let w := fresh "w" in
  let fs := fresh "fs" in let tr := fresh "tr" in
  destruct m as [d [[o w fs]|] tr]; cbn [arduino];
  intros H; inversion H; subst; clear H;
  destruct o; [destruct fs as [|[] [|[] fs]]|];
  send_cases;
  (do 2 eexists; split; [reflexivity|]);
  cbn [sends wire is_open faults];
  (split; [reflexivity|]); (split; [reflexivity|]);
  (split; [first [left; reflexivity | right; reflexivity]|]);
  intros; try discriminate; reflexivity.

Lemma car_cleanup_farewell (m : EyeControlledCar.Car) (p : Serial) :
  arduino m = Some p -> farewell EyeControlledCar.cleanup "0" m p.
Proof.
  unfold farewell, EyeControlledCar.cleanup. farewell_cases m.
Qed.

Lemma simple_cleanup_farewell (m : SimpleSleepinessDetector.Detector) (p : Serial) :
  arduino m = Some p -> farewell SimpleSleepinessDetector.cleanup "1" m p.
Proof.
  unfold farewell, SimpleSleepinessDetector.cleanup. farewell_cases m.
Qed.

Lemma ear_cleanup_farewell {F : Type} {arith : Arith F}
    (m : @SleepinessDetector.Detector F) (p : Serial) :
  arduino m = Some p -> farewell SleepinessDetector.cleanup "1" m p.
Proof.
  unfold farewell, SleepinessDetector.cleanup. farewell_cases m.
Qed.

(** C7 (as amended).  Start: the object [__init__] builds has its counters
    at 0 and, in [EyeControlledCar], the car stopped, whether the port
    opened or not.  Shutdown: [run] ends with [cleanup] on what the loop
    left; with a link, [EyeControlledCar.cleanup] calls
    [send_to_arduino('0')] once and then closes the port, so that the port
    has received the ['0'] when it was open and the device did not fail, and
    nothing otherwise; [SimpleSleepinessDetector.cleanup] and
    [SleepinessDetector.cleanup] do the same with ['1'] in place of
    ['0']. *)
Theorem lifecycle {F : Type} {arith : Arith F}
    (opened : Exn + Serial) (frames : list Frame)
    (c : EyeControlledCar.Car) (p : Serial)
    (s : SimpleSleepinessDetector.Detector) (q : Serial)
    (d : @SleepinessDetector.Detector F) (r : Serial) :
  arduino c = Some p ->
  arduino s = Some q ->
  arduino d = Some r ->
  (let c0 := snd (EyeControlledCar.init opened) in
   EyeControlledCar.eye_closed_counter (self c0) = 0
   /\ EyeControlledCar.no_face_counter (self c0) = 0
   /\ EyeControlledCar.car_running (self c0) = false)
  /\ (let s0 := snd (SimpleSleepinessDetector.init opened) in
      SimpleSleepinessDetector.eye_closed_counter (self s0) = 0
      /\ SimpleSleepinessDetector.no_face_counter (self s0) = 0)
  /\ (let d0 := snd (SleepinessDetector.init (F:=F) opened) in
      SleepinessDetector.frame_counter (self d0) = 0
      /\ SleepinessDetector.sleepy_counter (self d0) = 0)
  /\ (exists c1,
         for_each frames EyeControlledCar.step c = (inr tt, c1)
         /\ EyeControlledCar.run frames c = EyeControlledCar.cleanup c1)
  /\ farewell EyeControlledCar.cleanup "0" c p
  /\ farewell SimpleSleepinessDetector.cleanup "1" s q
  /\ farewell SleepinessDetector.cleanup "1" d r.
Proof.
  intros Hc Hs Hd.
  split; [|split; [|split; [|split; [|split; [|split]]]]].
  - unfold EyeControlledCar.init.
    destruct (setup_arduino_spec "0" opened EyeControlledCar.fresh) as (a & evs & E & _).
    rewrite E. repeat split.
  - unfold SimpleSleepinessDetector.init.
    destruct (setup_arduino_spec "1" opened SimpleSleepinessDetector.fresh)
      as (a & evs & E & _).
    rewrite E. repeat split.
  - unfold SleepinessDetector.init.
    destruct (setup_arduino_spec "1" opened (SleepinessDetector.fresh (F:=F)))
      as (a & evs & E & _).
    rewrite E. repeat split.
  - destruct (car_loop_spec frames c) as (a & evs & E & _).
    eexists. split; [exact E|].
    unfold EyeControlledCar.run, try_finally. rewrite E.
    destruct (EyeControlledCar.cleanup _) as [[e|[]] c2] eqn:K; [|reflexivity].
    exfalso.
    match type of K with EyeControlledCar.cleanup ?m1 = _ =>
      destruct (arduino m1) as [p1|] eqn:A;
      [ destruct (car_cleanup_farewell m1 A) as (p' & evs' & K' & _)
      | pose proof (car_cleanup_without_link m1 A) as K' ] end;
      rewrite K' in K; discriminate.
  - apply car_cleanup_farewell, Hc.
  - apply simple_cleanup_farewell, Hs.
  - apply ear_cleanup_farewell, Hd.
Qed.

(** Two detectors, each with a working port, about to shut down. *)
Lemma lifecycle_witness :
  let c := snd (EyeControlledCar.init (inr good_port)) in
  let s := snd (SimpleSleepinessDetector.init (inr good_port)) in
  let d := snd (SleepinessDetector.init (F:=float) (inr good_port)) in
  let p := mkSerial true (encode "0") [] in
  let q := mkSerial true (encode "1") [] in
  arduino c = Some p /\ arduino s = Some q /\ arduino d = Some q
  /\ farewell EyeControlledCar.cleanup "0" c p
  /\ farewell SimpleSleepinessDetector.cleanup "1" s q
  /\ farewell SleepinessDetector.cleanup "1" d q.
Proof.
  intros c s d p q.
  assert (Hc : arduino c = Some p) by reflexivity.
  assert (Hs : arduino s = Some q) by reflexivity.
  assert (Hd : arduino d = Some q) by reflexivity.
  destruct (@lifecycle float float_arith (inr good_port) [] c p s q d q Hc Hs Hd)
    as (_ & _ & _ & _ & H1 & H2 & H3).
  split; [exact Hc|]. split; [exact Hs|]. split; [exact Hd|].
  split; [exact H1|]. split; [exact H2|exact H3].
Defined.

(** C7 as it was stated fails for [SleepinessDetector]: connected to a
    working port and shut down at once, the last byte it sends is ['1'], not
    the stop command ['0']. *)
Lemma lifecycle_counterexample :
  let d := snd (SleepinessDetector.init (F:=float) (inr good_port)) in
  let d' := snd (SleepinessDetector.run [] d) in
  fst (SleepinessDetector.run [] d) = inr tt
  /\ wire_of (arduino d) = encode "1"
  /\ (exists evs, trace d' = trace d ++ evs /\ sends evs = ["1"])
  /\ wire_of (arduino d') = encode "11"
  /\ link_status (arduino d') = Some false
  /\ last (wire_of (arduino d')) "0"%char = "1"%char.
Proof.
  intros d d'. split; [reflexivity|]. split; [reflexivity|].
  split; [|repeat split].
  exists [EvPrint MsgCleaningUp; EvSend "1"; EvSleep; EvPrint MsgShutDown].
  split; reflexivity.
Qed.

(** ** The voice alert *)

Section VoiceFacts.

Context {F : Type} {arith : Arith F}.



End VoiceFacts.




(** ** The eye aspect ratio *)

(** The binary64 operations pass the checks of [ear_cell] and [ear_sign] on
    every pair of differences from 0 to [PICTURE]. *)
Lemma ear_table_ok : ear_rows SIDE SIDE 0%uint63 = true.
Proof. vm_compute. reflexivity. Qed.

Lemma SIDE_value : Z.of_nat SIDE = PICTURE + 1.
Proof. reflexivity. Qed.

Lemma wB_value : Uint63.wB = 9223372036854775808.
Proof. reflexivity. Qed.

Lemma to_Z_succ (j : Uint63.int) :
  Uint63.to_Z j + 1 < Uint63.wB ->
  Uint63.to_Z (Uint63.add j 1%uint63) = Uint63.to_Z j + 1.
Proof.
  intros H. rewrite Uint63.add_spec, Uint63.to_Z_1.
  pose proof (Uint63.to_Z_bounded j). apply Z.mod_small. lia.
Qed.

Lemma ear_row_sound (n : nat) (i : Uint63.int) :
  forall j y, ear_row n i j = true ->
    Uint63.to_Z j <= y < Uint63.to_Z j + Z.of_nat n -> y < Uint63.wB ->
    ear_cell i (Uint63.of_Z y) = true.
Proof.
  induction n as [|n IH]; intros j y H Hy Hw; [lia|].
  cbn [ear_row] in H. apply andb_true_iff in H. destruct H as [Hc Hr].
  destruct (Z.eq_dec y (Uint63.to_Z j)) as [->|Hne].
  - rewrite Uint63.of_to_Z. exact Hc.
  - apply (IH _ _ Hr); [|exact Hw].
    rewrite to_Z_succ by lia. lia.
Qed.

Lemma ear_rows_sound (n m : nat) :
  forall i x y, ear_rows n m i = true ->
    Uint63.to_Z i <= x < Uint63.to_Z i + Z.of_nat n -> x < Uint63.wB ->
    0 <= y < Z.of_nat m -> y < Uint63.wB ->
    ear_sign (Uint63.of_Z x) = true
    /\ ear_cell (Uint63.of_Z x) (Uint63.of_Z y) = true.
Proof.
  induction n as [|n IH]; intros i x y H Hx Hw Hy Hyw; [lia|].
  cbn [ear_rows] in H. apply andb_true_iff in H. destruct H as [H Hr].
  apply andb_true_iff in H. destruct H as [Hs Hc].
  destruct (Z.eq_dec x (Uint63.to_Z i)) as [->|Hne].
  - rewrite Uint63.of_to_Z. split; [exact Hs|].
    apply (ear_row_sound _ _ _ Hc); [|exact Hyw].
    rewrite Uint63.to_Z_0. lia.
  - apply (IH _ _ _ Hr); try assumption.
    rewrite to_Z_succ by lia. lia.
Qed.

Lemma of_Z_sum_squares (x y : Z) :
  0 <= x <= PICTURE -> 0 <= y <= PICTURE ->
  Uint63.add (Uint63.mul (Uint63.of_Z x) (Uint63.of_Z x))
             (Uint63.mul (Uint63.of_Z y) (Uint63.of_Z y))
  = Uint63.of_Z (x * x + y * y).
Proof.
  unfold PICTURE. intros Hx Hy. apply Uint63.to_Z_inj.
  rewrite Uint63.add_spec, !Uint63.mul_spec, !Uint63.of_Z_spec, wB_value.
  rewrite (Z.mod_small x), (Z.mod_small y) by lia.
  rewrite (Z.mod_small (x * x)), (Z.mod_small (y * y)) by nia.
  reflexivity.
Qed.

Lemma float_of_Z_nonneg (x : Z) :
  0 <= x -> float_of_Z x = PrimFloat.of_uint63 (Uint63.of_Z x).
Proof.
  intros H. unfold float_of_Z. destruct (Z.ltb_spec x 0); [lia|reflexivity].
Qed.

Lemma float_of_Z_opp (x : Z) :
  0 < x -> float_of_Z (- x) = PrimFloat.opp (PrimFloat.of_uint63 (Uint63.of_Z x)).
Proof.
  intros H. unfold float_of_Z. destruct (Z.ltb_spec (- x) 0); [|lia].
  rewrite Z.opp_involutive. reflexivity.
Qed.

(** On differences between 0 and [PICTURE], in binary64: the sum of the
    squares is exact, a difference and its opposite have the same square,
    and the ratio of twice a distance to twice that distance is [1.0], that
    of [0.0] to it [0.0]. *)
Lemma ear_table_sound (x y : Z) :
  0 <= x <= PICTURE -> 0 <= y <= PICTURE ->
  PrimFloat.add (PrimFloat.mul (float_of_Z x) (float_of_Z x))
                (PrimFloat.mul (float_of_Z y) (float_of_Z y))
  = float_of_Z (x * x + y * y)
  /\ PrimFloat.mul (float_of_Z (- x)) (float_of_Z (- x))
     = PrimFloat.mul (float_of_Z x) (float_of_Z x)
  /\ (0 < x * x + y * y ->
      let a := PrimFloat.sqrt (float_of_Z (x * x + y * y)) in
      PrimFloat.div (PrimFloat.add a a) (PrimFloat.mul 2%float a) = 1%float
      /\ PrimFloat.div 0%float (PrimFloat.mul 2%float a) = 0%float).
Proof.
  intros Hx Hy.
  destruct (@ear_rows_sound SIDE SIDE 0%uint63 x y ear_table_ok) as [Hs Hc].
  { rewrite Uint63.to_Z_0, SIDE_value. lia. }
  { rewrite wB_value. unfold PICTURE in Hx. lia. }
  { rewrite SIDE_value. lia. }
  { rewrite wB_value. unfold PICTURE in Hy. lia. }
  unfold ear_cell in Hc. cbv zeta in Hc.
  rewrite (of_Z_sum_squares Hx Hy) in Hc.
  rewrite <- !float_of_Z_nonneg in Hc by nia.
  apply andb_true_iff in Hc. destruct Hc as [Harg Hratio].
  apply FloatAxioms.Leibniz.eqb_spec in Harg.
  split; [exact Harg|]. split.
  - destruct (Z.eq_dec x 0) as [->|Hne]; [reflexivity|].
    rewrite float_of_Z_opp by lia. rewrite float_of_Z_nonneg by lia.
    apply FloatAxioms.Leibniz.eqb_spec. exact Hs.
  - intros Hpos. cbv zeta.
    apply orb_true_iff in Hratio. destruct Hratio as [Hz|Hr].
    + apply andb_true_iff in Hz. destruct Hz as [Hx0 Hy0].
      apply Uint63.eqb_spec in Hx0. apply Uint63.eqb_spec in Hy0.
      apply (f_equal Uint63.to_Z) in Hx0. apply (f_equal Uint63.to_Z) in Hy0.
      rewrite Uint63.of_Z_spec, Uint63.to_Z_0, wB_value in Hx0, Hy0.
      unfold PICTURE in Hx, Hy.
      rewrite Z.mod_small in Hx0 by lia. rewrite Z.mod_small in Hy0 by lia.
      subst. lia.
    + apply andb_true_iff in Hr. destruct Hr as [H1 H0].
      split; apply FloatAxioms.Leibniz.eqb_spec; assumption.
Qed.

Lemma float_square_abs (d : Z) :
  Z.abs d <= PICTURE ->
  PrimFloat.mul (float_of_Z d) (float_of_Z d)
  = PrimFloat.mul (float_of_Z (Z.abs d)) (float_of_Z (Z.abs d)).
Proof.
  intros H. destruct (Z.abs_spec d) as [[Hd E]|[Hd E]]; rewrite E.
  - reflexivity.
  - assert (Hr : 0 <= - d <= PICTURE) by lia.
    destruct (ear_table_sound Hr Hr) as (_ & Hs & _).
    rewrite Z.opp_involutive in Hs. exact Hs.
Qed.

(** In binary64 the distance [calculate_ear] takes of two landmarks of one
    picture is the rounded root of their squared distance in pixels: the
    squares and their sum are computed without rounding. *)
Lemma euclidean_binary64 (u v : Point) :
  within PICTURE u v ->
  SleepinessDetector.euclidean (F:=float) u v
  = PrimFloat.sqrt (float_of_Z (sqdist u v)).
Proof.
  intros [Hx Hy]. unfold SleepinessDetector.euclidean, sqdist.
  cbn [fsqrt fadd fmul of_int float_arith].
  rewrite (float_square_abs _ Hx), (float_square_abs _ Hy).
  assert (Ax : 0 <= Z.abs (fst u - fst v) <= PICTURE) by lia.
  assert (Ay : 0 <= Z.abs (snd u - snd v) <= PICTURE) by lia.
  destruct (ear_table_sound Ax Ay) as (E & _ & _).
  rewrite E. rewrite !Z.abs_square. reflexivity.
Qed.

Lemma within_same (n : Z) (u v : Point) : 0 <= n -> sqdist u v = 0 -> within n u v.
Proof.
  unfold sqdist, within. intros Hn H.
  pose proof (Z.square_nonneg (fst u - fst v)) as Hx.
  pose proof (Z.square_nonneg (snd u - snd v)) as Hy.
  assert (Ex : (fst u - fst v) * (fst u - fst v) = 0) by lia.
  assert (Ey : (snd u - snd v) * (snd u - snd v) = 0) by lia.
  apply Z.mul_eq_0 in Ex. apply Z.mul_eq_0 in Ey.
  split; lia.
Qed.

(** The result of [calculate_ear] in binary64, on landmarks of one
    picture. *)
Lemma calculate_ear_binary64 (p1 p2 p3 p4 p5 p6 : Point) :
  within PICTURE p2 p6 -> within PICTURE p3 p5 -> within PICTURE p1 p4 ->
  SleepinessDetector.calculate_ear (F:=float) [p1; p2; p3; p4; p5; p6]
  = inr (PrimFloat.div
           (PrimFloat.add (PrimFloat.sqrt (float_of_Z (sqdist p2 p6)))
                          (PrimFloat.sqrt (float_of_Z (sqdist p3 p5))))
           (PrimFloat.mul 2%float (PrimFloat.sqrt (float_of_Z (sqdist p1 p4))))).
Proof.
  intros HA HB HC. unfold SleepinessDetector.calculate_ear.
  cbn [SleepinessDetector.index nth_error].
  rewrite (euclidean_binary64 HA), (euclidean_binary64 HB), (euclidean_binary64 HC).
  reflexivity.
Qed.

(** C9.  [calculate_ear] on six landmarks [p1 .. p6] returns
    [(d(p2,p6) + d(p3,p5)) / (2 * d(p1,p4))], with [d] the Euclidean
    distance and the operations those of the floats it is run with; the
    ratio [process_frame] uses for a face is the sum of the ratios of the
    left eye (landmarks 42 to 47) and of the right eye (36 to 41) divided by
    2.  In binary64, as the interpreter computes, and for landmarks of a
    picture of up to 4096 by 4096 pixels: each distance is the root, rounded
    once, of the squared distance in pixels; an eye [s1 .. s6] of nonzero
    width whose two lid distances equal its width (a square, in any
    position and at any angle) has the ratio [1.0]; and an eye [t1 .. t6] of
    nonzero width whose two lid distances are 0 (lids together) has the
    ratio [0.0], both without any rounding error. *)
Theorem ear_formula {F : Type} {arith : Arith F}
    (p1 p2 p3 p4 p5 p6 : Point) (face : Face)
    (s1 s2 s3 s4 s5 s6 : Point) (t1 t2 t3 t4 t5 t6 : Point) :
  within PICTURE p2 p6 -> within PICTURE p3 p5 -> within PICTURE p1 p4 ->
  within PICTURE s2 s6 -> within PICTURE s3 s5 -> within PICTURE s1 s4 ->
  0 < sqdist s1 s4 ->
  sqdist s2 s6 = sqdist s1 s4 ->
  sqdist s3 s5 = sqdist s1 s4 ->
  within PICTURE t1 t4 ->
  0 < sqdist t1 t4 ->
  sqdist t2 t6 = 0 ->
  sqdist t3 t5 = 0 ->
  SleepinessDetector.calculate_ear (F:=F) [p1; p2; p3; p4; p5; p6]
  = inr (fdiv (fadd (SleepinessDetector.euclidean p2 p6)
                    (SleepinessDetector.euclidean p3 p5))
              (fmul (of_int 2) (SleepinessDetector.euclidean p1 p4)))
  /\ (exists left_ear right_ear : F,
         SleepinessDetector.calculate_ear
           [part face 42; part face 43; part face 44;
            part face 45; part face 46; part face 47] = inr left_ear
         /\ SleepinessDetector.calculate_ear
              [part face 36; part face 37; part face 38;
               part face 39; part face 40; part face 41] = inr right_ear
         /\ SleepinessDetector.avg_ear face
            = inr (fdiv (fadd left_ear right_ear) (of_int 2)))
  /\ SleepinessDetector.calculate_ear (F:=float) [p1; p2; p3; p4; p5; p6]
     = inr (PrimFloat.div
              (PrimFloat.add (PrimFloat.sqrt (float_of_Z (sqdist p2 p6)))
                             (PrimFloat.sqrt (float_of_Z (sqdist p3 p5))))
              (PrimFloat.mul 2%float (PrimFloat.sqrt (float_of_Z (sqdist p1 p4)))))
  /\ SleepinessDetector.calculate_ear (F:=float) [s1; s2; s3; s4; s5; s6]
     = inr 1%float
  /\ SleepinessDetector.calculate_ear (F:=float) [t1; t2; t3; t4; t5; t6]
     = inr 0%float
  /\ SleepinessDetector.average (F:=float) 1%float 1%float = 1%float
  /\ SleepinessDetector.average (F:=float) 0%float 0%float = 0%float.
Proof.
  intros HpA HpB HpC HsA HsB HsC Hs EA EB HtC Ht ZA ZB.
  split; [reflexivity|]. split; [|split; [|split; [|split]]].
  - do 2 eexists. split; [reflexivity|]. split; reflexivity.
  - exact (calculate_ear_binary64 HpA HpB HpC).
  - rewrite (calculate_ear_binary64 HsA HsB HsC), EA, EB. f_equal.
    destruct HsC as [Hx Hy].
    assert (Ax : 0 <= Z.abs (fst s1 - fst s4) <= PICTURE) by lia.
    assert (Ay : 0 <= Z.abs (snd s1 - snd s4) <= PICTURE) by lia.
    destruct (ear_table_sound Ax Ay) as (_ & _ & R).
    rewrite !Z.abs_square in R. apply R. exact Hs.
  - assert (HP : 0 <= PICTURE) by (unfold PICTURE; lia).
    rewrite (calculate_ear_binary64
               (@within_same PICTURE t2 t6 HP ZA) (@within_same PICTURE t3 t5 HP ZB) HtC),
      ZA, ZB.
    f_equal.
    destruct HtC as [Hx Hy].
    assert (Ax : 0 <= Z.abs (fst t1 - fst t4) <= PICTURE) by lia.
    assert (Ay : 0 <= Z.abs (snd t1 - snd t4) <= PICTURE) by lia.
    destruct (ear_table_sound Ax Ay) as (_ & _ & R).
    rewrite !Z.abs_square in R. apply R. exact Ht.
  - split; reflexivity.
Qed.

(** A square eye of side 5 turned by the angle of the 3-4-5 triangle and a
    flat eye of width 3: the binary64 ratios are [1.0] and [0.0]. *)
Lemma ear_formula_witness :
  SleepinessDetector.calculate_ear (F:=float)
    [(0, 0); (7, 1); (11, 4); (4, 3); (8, 8); (4, 5)] = inr 1%float
  /\ SleepinessDetector.calculate_ear (F:=float) (flat_eye 3) = inr 0%float.
Proof.
  destruct (@ear_formula float float_arith (0, 1) (1, 0) (2, 0) (6, 1) (4, 2) (3, 2)
              (sample_face 1)
              (0, 0) (7, 1) (11, 4) (4, 3) (8, 8) (4, 5)
              (0, 0) (1, 0) (2, 0) (3, 0) (2, 0) (1, 0))
    as (_ & _ & _ & Hs & Ht & _);
    try (unfold within, sqdist, PICTURE; cbn; lia).
  split; [exact Hs|exact Ht].
Defined.

(** What the interpreter computes, in binary64, for a square eye, for an
    eye with the lids together and for the average of the two. *)
Lemma ear_binary64_samples :
  SleepinessDetector.calculate_ear (F:=float) (square_eye 7) = inr 1%float
  /\ SleepinessDetector.calculate_ear (F:=float) (flat_eye 30) = inr 0%float
  /\ SleepinessDetector.average (F:=float) 1%float 0%float = 0.5%float.
Proof. repeat split; vm_compute; reflexivity. Qed.

(* ================================================================== *)
(** * Further properties *)

(** ** Commands and the port, whatever the frames *)

Lemma delivered_app (cs1 cs2 : list string) (w1 w2 : list ascii) :
  delivered cs1 w1 -> delivered cs2 w2 -> delivered (cs1 ++ cs2) (w1 ++ w2).
Proof.
  intros H1 H2. induction H1; cbn.
  - exact H2.
  - rewrite <- app_assoc. apply delivered_sent, IHdelivered.
  - apply delivered_lost, IHdelivered.
Qed.

Lemma delivered_length (cs : list string) (w : list ascii) :
  delivered cs w -> (List.length w <= List.length (List.concat (map encode cs)))%nat.
Proof.
  intros H. induction H; cbn; rewrite ?length_app; lia.
Qed.

Lemma transmits_nothing (a : option Serial) : transmits a [] a.
Proof.
  split; [reflexivity|]. split.
  - exists []. rewrite app_nil_r. split; [reflexivity|constructor].
  - intros w0 ->. cbn. rewrite app_nil_r. reflexivity.
Qed.

Lemma transmits_then (a1 a2 a3 : option Serial) (cs1 cs2 : list string) :
  transmits a1 cs1 a2 -> transmits a2 cs2 a3 -> transmits a1 (cs1 ++ cs2) a3.
Proof.
  intros (L1 & (w1 & W1 & D1) & Q1) (L2 & (w2 & W2 & D2) & Q2).
  split; [congruence|]. split.
  - exists (w1 ++ w2). rewrite W2, W1, app_assoc. split; [reflexivity|].
    apply delivered_app; assumption.
  - intros w0 E. rewrite (Q2 _ (Q1 _ E)).
    rewrite map_app, concat_app, app_assoc. reflexivity.
Qed.

(** One call of [send_to_arduino]. *)
Lemma send_to_arduino_transmits {D} (signal : string) (m : Machine D) :
  exists a evs,
    send_to_arduino signal m
      = (inr tt, mkMachine (self m) a (trace m ++ EvSend signal :: evs))
    /\ sends evs = [] /\ says evs = []
    /\ transmits (arduino m) [signal] a.
Proof.
  destruct m as [d [[o w fs]|] tr];
    unfold send_to_arduino, Serial_write, Serial_flush, next_fault; run_monad;
    [destruct o; [destruct fs as [|[] [|[] fs]]|] |]; run_monad;
    rewrite <- ?app_assoc; cbn [app];
    (eexists; eexists; split; [reflexivity|]);
    (split; [reflexivity|]); (split; [reflexivity|]);
    (split; [reflexivity|]); (split; [|intros w0 E; inversion E; subst; cbn;
                                       rewrite ?app_nil_r; reflexivity]);
    cbn [wire_of wire];
    first [ exists (encode signal ++ []); split;
              [rewrite app_nil_r; reflexivity | apply delivered_sent, delivered_nil]
          | exists []; split;
              [rewrite app_nil_r; reflexivity | apply delivered_lost, delivered_nil] ].
Qed.

Lemma state_after_app (r : bool) (xs ys : list string) :
  state_after r (xs ++ ys) = state_after (state_after r xs) ys.
Proof. unfold state_after. apply fold_left_app. Qed.

Lemma toggles_app (xs ys : list string) :
  forall r, toggles r xs -> toggles (state_after r xs) ys -> toggles r (xs ++ ys).
Proof.
  induction xs as [|c xs IH]; intros r Hx Hy; [exact Hy|].
  destruct Hx as [Hc Hx]. cbn. split; [exact Hc|]. apply IH; [exact Hx|].
  replace (state_after (negb r) xs) with (state_after r (c :: xs)); [exact Hy|].
  unfold state_after. cbn. rewrite Hc. destruct r; reflexivity.
Qed.

Lemma command_toggles (eo : option bool) (r : bool) :
  toggles r (command eo r) /\ state_after r (command eo r) = target eo r.
Proof. destruct eo as [[|]|], r; cbn; auto. Qed.

Lemma car_control_car_full (eo : option bool) (m : EyeControlledCar.Car) :
  exists a evs,
    EyeControlledCar.control_car eo m
    = (inr tt,
       mkMachine
         (EyeControlledCar.set_car_running
            (target eo (EyeControlledCar.car_running (self m))) (self m))
         a (trace m ++ evs))
    /\ sends evs = command eo (EyeControlledCar.car_running (self m))
    /\ transmits (arduino m) (sends evs) a.
Proof.
  unfold EyeControlledCar.control_car.
  destruct eo as [[|]|]; run_monad;
    destruct (EyeControlledCar.car_running (self m)) eqn:R; run_monad;
    try (exists (arduino m), []; rewrite app_nil_r;
         destruct m as [[t e n fc r] a tr]; cbn in *; subst;
         split; [reflexivity|]; split; [reflexivity|]; apply transmits_nothing).
  - destruct (send_to_arduino_transmits "1" m) as (a & evs & E & Hs & _ & Ht).
    rewrite E. run_monad.
    exists a, (EvSend "1" :: evs ++ [EvPrint MsgCarStarted]).
    rewrite <- app_assoc. cbn. rewrite sends_app, Hs.
    split; [reflexivity|]. split; [reflexivity|]. exact Ht.
  - destruct (send_to_arduino_transmits "0" m) as (a & evs & E & Hs & _ & Ht).
    rewrite E. run_monad.
    exists a, (EvSend "0" :: evs ++ [EvPrint MsgCarStopped]).
    rewrite <- app_assoc. cbn. rewrite sends_app, Hs.
    split; [reflexivity|]. split; [reflexivity|]. exact Ht.
Qed.

Lemma car_step_full (f : Frame) (m : EyeControlledCar.Car) :
  exists a evs,
    EyeControlledCar.step f m
    = (inr tt, mkMachine (car_after f (self m)) a (trace m ++ evs))
    /\ toggles (EyeControlledCar.car_running (self m)) (sends evs)
    /\ EyeControlledCar.car_running (car_after f (self m))
       = state_after (EyeControlledCar.car_running (self m)) (sends evs)
    /\ transmits (arduino m) (sends evs) a.
Proof.
  unfold EyeControlledCar.step. unfold bind at 1, modify at 1.
  unfold bind at 1. rewrite car_detect_spec.
  match goal with |- context [EyeControlledCar.control_car ?eo ?m1] =>
    destruct (car_control_car_full eo m1) as (a & evs & E & Hs & Ht);
    rewrite E end.
  exists a, evs.
  assert (Hr : EyeControlledCar.car_running
                 (self (set_self (car_count f)
                          (set_self (fun d => EyeControlledCar.set_frame_count
                                                (EyeControlledCar.frame_count d + 1) d) m)))
               = EyeControlledCar.car_running (self m)).
  { unfold car_count, set_self. cbn [self].
    destruct (len (faces f) =? 0), (len (eyes f) <? 2); reflexivity. }
  rewrite Hr in Hs.
  match type of Hs with _ = command ?eo ?r =>
    destruct (command_toggles eo r) as [Hc1 Hc2] end.
  split; [|split; [|split]].
  - f_equal. f_equal.
    unfold car_after, car_count, set_self. cbn [self].
    destruct (len (faces f) =? 0), (len (eyes f) <? 2); reflexivity.
  - rewrite Hs. exact Hc1.
  - rewrite Hs, Hc2. unfold car_after.
    cbn [EyeControlledCar.car_running EyeControlledCar.set_car_running].
    unfold car_count, set_self. cbn [self].
    destruct (len (faces f) =? 0), (len (eyes f) <? 2); reflexivity.
  - exact Ht.
Qed.

Lemma car_loop_full (frames : list Frame) :
  forall m : EyeControlledCar.Car,
  exists a evs,
    for_each frames EyeControlledCar.step m
    = (inr tt, mkMachine (car_after_all frames (self m)) a (trace m ++ evs))
    /\ toggles (EyeControlledCar.car_running (self m)) (sends evs)
    /\ EyeControlledCar.car_running (car_after_all frames (self m))
       = state_after (EyeControlledCar.car_running (self m)) (sends evs)
    /\ transmits (arduino m) (sends evs) a.
Proof.
  induction frames as [|f frames IH]; intros m.
  - exists (arduino m), []. rewrite app_nil_r. destruct m.
    split; [reflexivity|]. split; [exact I|]. split; [reflexivity|].
    apply transmits_nothing.
  - cbn [for_each]. unfold bind.
    destruct (car_step_full f m) as (a1 & evs1 & E1 & T1 & R1 & X1). rewrite E1.
    destruct (IH (mkMachine (car_after f (self m)) a1 (trace m ++ evs1)))
      as (a2 & evs2 & E2 & T2 & R2 & X2).
    rewrite E2. cbn [self trace arduino] in *.
    exists a2, (evs1 ++ evs2). rewrite app_assoc, sends_app, state_after_app.
    split; [reflexivity|]. split; [|split].
    + apply toggles_app; [exact T1|]. rewrite <- R1. exact T2.
    + cbn [car_after_all fold_left]. unfold car_after_all in R2. rewrite R2, R1.
      reflexivity.
    + exact (transmits_then X1 X2).
Qed.

Lemma toggles_vocabulary (cmds : list string) :
  forall r, toggles r cmds -> Forall (fun c => c = "0" \/ c = "1") cmds.
Proof.
  induction cmds as [|c cmds IH]; intros r H; [constructor|].
  destruct H as [Hc H]. constructor; [|exact (IH _ H)].
  destruct r; [left|right]; exact Hc.
Qed.

Lemma delivered_vocabulary (cmds : list string) (w : list ascii) :
  delivered cmds w ->
  Forall (fun c => c = "0" \/ c = "1") cmds ->
  Forall (fun b => b = "0"%char \/ b = "1"%char) w.
Proof.
  intros H. induction H; intros Hv.
  - constructor.
  - inversion Hv as [|? ? Hc Hrest]; subst. apply Forall_app. split.
    + destruct Hc as [-> | ->]; cbn; (constructor; [auto|constructor]).
    + apply IHdelivered, Hrest.
  - inversion Hv; subst. auto.
Qed.

(** X1.  Hard reset in [EyeControlledCar.detect_eye_state]: whatever the
    counters were, one frame with open eyes, or one without a face, puts
    [eye_closed_counter] back to 0, so that the closed-eye frames that
    follow are again answered [UNCERTAIN] for [EYE_CLOSED_THRESHOLD] calls
    and [EYES_CLOSED] only from the next one on. *)
Theorem car_hard_reset (f : Frame) (cs : list Frame) (m : EyeControlledCar.Car) :
  open_frame f \/ no_face_frame f ->
  Forall closed_frame cs ->
  exists v m1 vs m2,
    EyeControlledCar.detect_eye_state f m = (inr v, m1)
    /\ EyeControlledCar.eye_closed_counter (self m1) = 0
    /\ EyeControlledCar.observe_all cs m1 = (inr vs, m2)
    /\ map EyeControlledCar.outcome vs
       = debounced (EyeControlledCar.EYE_CLOSED_THRESHOLD (self m) + 1)
                   (List.length cs).
Proof.
  intros Hf Hcs.
  assert (H : exists v m1,
             EyeControlledCar.detect_eye_state f m = (inr v, m1)
             /\ EyeControlledCar.eye_closed_counter (self m1) = 0
             /\ EyeControlledCar.EYE_CLOSED_THRESHOLD (self m1)
                = EyeControlledCar.EYE_CLOSED_THRESHOLD (self m)).
  { destruct Hf as [Hf|Hf].
    - rewrite (CarFacts.car_detect_open m Hf). do 2 eexists. repeat split.
    - rewrite (CarFacts.car_detect_no_face m Hf). do 2 eexists. repeat split. }
  destruct H as (v & m1 & E & Hc & Ht).
  destruct (car_observe_closed m1 Hcs) as (vs & m2 & E2 & Hvs).
  exists v, m1, vs, m2. repeat split; try assumption.
  rewrite Hvs, Hc, Ht, Z.sub_0_r. reflexivity.
Qed.

(** A car that has counted fourteen closed-eye frames sees one open-eye
    frame and then seventeen closed-eye ones. *)
Lemma car_hard_reset_witness :
  let m := mkMachine (EyeControlledCar.mkFields 15 14 0 14 true) None [] in
  let cs := repeat shut_frame 17 in
  (open_frame alert_frame \/ no_face_frame alert_frame)
  /\ Forall closed_frame cs
  /\ exists v m1 vs m2,
      EyeControlledCar.detect_eye_state alert_frame m = (inr v, m1)
      /\ EyeControlledCar.eye_closed_counter (self m1) = 0
      /\ EyeControlledCar.observe_all cs m1 = (inr vs, m2)
      /\ map EyeControlledCar.outcome vs = debounced 16 17.
Proof.
  intros m cs.
  assert (H1 : open_frame alert_frame \/ no_face_frame alert_frame)
    by (left; apply alert_frame_open).
  assert (H2 : Forall closed_frame cs) by apply sample_frames_closed.
  split; [exact H1|]. split; [exact H2|].
  exact (@car_hard_reset alert_frame cs m H1 H2).
Defined.

(** X2.  The loop of [EyeControlledCar.run] never ends with an exception
    and never repeats a command, whatever the frames and whatever state it
    starts in: the commands it sends are alternately ['0'] and ['1'],
    beginning with the one that changes the state the car is in, and the
    car state at the end is the one the last command asked for. *)
Theorem car_commands_alternate (frames : list Frame) (m : EyeControlledCar.Car) :
  exists m' evs,
    for_each frames EyeControlledCar.step m = (inr tt, m')
    /\ trace m' = trace m ++ evs
    /\ toggles (EyeControlledCar.car_running (self m)) (sends evs)
    /\ EyeControlledCar.car_running (self m')
       = state_after (EyeControlledCar.car_running (self m)) (sends evs).
Proof.
  destruct (car_loop_full frames m) as (a & evs & E & T & R & _).
  eexists; exists evs. split; [exact E|]. split; [reflexivity|].
  split; [exact T|exact R].
Qed.

(** X3.  With the port open and a device that never fails, every command
    the loop of [EyeControlledCar.run] sends reaches the port, as one byte
    each, in the order sent, and nothing else does. *)
Theorem car_healthy_port_receives_all
    (frames : list Frame) (m : EyeControlledCar.Car) (w0 : list ascii) :
  arduino m = Some (mkSerial true w0 []) ->
  exists m' evs,
    for_each frames EyeControlledCar.step m = (inr tt, m')
    /\ trace m' = trace m ++ evs
    /\ arduino m'
       = Some (mkSerial true (w0 ++ List.concat (map encode (sends evs))) [])
    /\ List.length (List.concat (map encode (sends evs))) = List.length (sends evs).
Proof.
  intros Ha.
  destruct (car_loop_full frames m) as (a & evs & E & T & _ & (_ & _ & Q)).
  eexists; exists evs. split; [exact E|]. split; [reflexivity|].
  split; [exact (Q _ Ha)|].
  apply toggles_vocabulary in T. clear -T.
  induction T as [|c cmds Hc _ IH]; [reflexivity|].
  cbn. rewrite length_app, IH. destruct Hc as [-> | ->]; reflexivity.
Qed.

(** A car just connected to a working port: open eyes, then no face, then
    open eyes again. *)
Lemma car_healthy_port_receives_all_witness :
  let m := snd (EyeControlledCar.init (inr good_port)) in
  let frames := [alert_frame; alert_frame; empty_frame; empty_frame; alert_frame] in
  arduino m = Some (mkSerial true (encode "0") [])
  /\ exists m' evs,
      for_each frames EyeControlledCar.step m = (inr tt, m')
      /\ trace m' = trace m ++ evs
      /\ arduino m'
         = Some (mkSerial true (encode "0" ++ List.concat (map encode (sends evs))) []).
Proof.
  intros m frames.
  assert (Ha : arduino m = Some (mkSerial true (encode "0") [])) by reflexivity.
  split; [exact Ha|].
  destruct (@car_healthy_port_receives_all frames m (encode "0") Ha)
    as (m' & evs & E & T & A & _).
  exists m', evs. split; [exact E|]. split; [exact T|exact A].
Defined.

(** X4.  Whatever the device does, the loop of [EyeControlledCar.run] only
    ever appends to what the port has received; what it appends are bytes
    of the commands it sent, each command whole or not at all, in order;
    so every byte appended is ['0'] or ['1'], and the link stays as present
    and as open as it was. *)
Theorem car_port_receives_only_commands
    (frames : list Frame) (m : EyeControlledCar.Car) :
  exists m' evs w,
    for_each frames EyeControlledCar.step m = (inr tt, m')
    /\ trace m' = trace m ++ evs
    /\ wire_of (arduino m') = wire_of (arduino m) ++ w
    /\ delivered (sends evs) w
    /\ Forall (fun b => b = "0"%char \/ b = "1"%char) w
    /\ (List.length w <= List.length (sends evs))%nat
    /\ link_status (arduino m') = link_status (arduino m).
Proof.
  destruct (car_loop_full frames m) as (a & evs & E & T & _ & (L & (w & W & D) & _)).
  eexists; exists evs, w. split; [exact E|]. split; [reflexivity|].
  split; [exact W|]. split; [exact D|].
  pose proof (toggles_vocabulary _ _ T) as V.
  split; [exact (delivered_vocabulary D V)|]. split; [|exact L].
  pose proof (delivered_length D) as Hl.
  replace (List.length (sends evs))
    with (List.length (List.concat (map encode (sends evs)))); [exact Hl|].
  clear -V. induction V as [|c cmds Hc _ IH]; [reflexivity|].
  cbn. rewrite length_app, IH. destruct Hc as [-> | ->]; reflexivity.
Qed.

Lemma send_on_closed_port {D} (signal : string) (d : D) (w : list ascii)
    (fs : list bool) (tr : list Event) :
  send_to_arduino signal (mkMachine d (Some (mkSerial false w fs)) tr)
  = (inr tt, mkMachine d (Some (mkSerial false w fs)) (tr ++ [EvSend signal])).
Proof. reflexivity. Qed.

(** X5.  [EyeControlledCar.run] on an object with a link ends without an
    exception and leaves the port closed; a command sent after that is
    dropped: the call returns normally and the port receives nothing. *)
Theorem car_run_closes_port
    (frames : list Frame) (c : EyeControlledCar.Car) (p : Serial) (signal : string) :
  arduino c = Some p ->
  exists c' p',
    EyeControlledCar.run frames c = (inr tt, c')
    /\ arduino c' = Some p'
    /\ is_open p' = false
    /\ send_to_arduino signal c'
       = (inr tt, mkMachine (self c') (Some p') (trace c' ++ [EvSend signal])).
Proof.
  intros Ha.
  destruct (car_loop_spec frames c) as (a & evs & E & _ & Hl).
  rewrite Ha in Hl. destruct a as [p1|]; [|discriminate].
  unfold EyeControlledCar.run, try_finally. rewrite E.
  match goal with |- context [EyeControlledCar.cleanup ?m1] =>
    destruct (@car_cleanup_farewell m1 p1 eq_refl) as (p' & evs' & K & _ & Hc & _) end.
  rewrite K. do 2 eexists. split; [reflexivity|]. split; [reflexivity|].
  split; [exact Hc|]. cbn [self trace].
  destruct p' as [o w fs]. cbn in Hc. subst o. apply send_on_closed_port.
Qed.

(** A connected car that saw two frames and was then shut down. *)
Lemma car_run_closes_port_witness :
  let c := snd (EyeControlledCar.init (inr good_port)) in
  arduino c = Some (mkSerial true (encode "0") [])
  /\ exists c' p',
      EyeControlledCar.run [alert_frame; empty_frame] c = (inr tt, c')
      /\ arduino c' = Some p'
      /\ is_open p' = false
      /\ send_to_arduino "1" c'
         = (inr tt, mkMachine (self c') (Some p') (trace c' ++ [EvSend "1"])).
Proof.
  intros c.
  assert (Ha : arduino c = Some (mkSerial true (encode "0") [])) by reflexivity.
  split; [exact Ha|].
  exact (@car_run_closes_port [alert_frame; empty_frame] c _ "1" Ha).
Defined.

(** ** [SimpleSleepinessDetector], whatever the frames *)

Lemma simple_detect_spec (f : Frame) (m : SimpleSleepinessDetector.Detector) :
  SimpleSleepinessDetector.detect_sleepiness f m
  = (inr (simple_verdict f (self m)), set_self (simple_count f) m).
Proof.
  unfold simple_verdict, simple_count.
  destruct (CarFacts.frame_kind f) as [H|[H|H]].
  - rewrite (SimpleFacts.simple_detect_no_face m H). unfold no_face_frame in H.
    rewrite H. reflexivity.
  - rewrite (SimpleFacts.simple_detect_closed m H). destruct H as [Hf He].
    apply Z.eqb_neq in Hf. apply Z.ltb_lt in He. rewrite Hf, He.
    destruct (_ >? _); reflexivity.
  - rewrite (SimpleFacts.simple_detect_open m H). destruct H as [Hf He].
    apply Z.eqb_neq in Hf. apply Z.ltb_ge in He. rewrite Hf, He. reflexivity.
Qed.

Lemma simple_collect_spec (frames : list Frame) :
  forall m : SimpleSleepinessDetector.Detector,
  exists d,
    for_collect frames SimpleSleepinessDetector.detect_sleepiness m
    = (inr (simple_verdicts frames (self m)), mkMachine d (arduino m) (trace m))
    /\ d = fold_left (fun d f => simple_count f d) frames (self m).
Proof.
  induction frames as [|f frames IH]; intros m.
  - exists (self m). destruct m. split; reflexivity.
  - cbn [for_collect]. unfold bind at 1. rewrite simple_detect_spec.
    cbv beta iota. unfold bind at 1.
    destruct (IH (set_self (simple_count f) m)) as (d & E & Hd).
    rewrite E. exists d. split; [reflexivity|exact Hd].
Qed.

Lemma simple_loop_spec (frames : list Frame) :
  forall m : SimpleSleepinessDetector.Detector,
  exists a evs,
    for_each frames SimpleSleepinessDetector.step m
    = (inr tt,
       mkMachine (fold_left (fun d f => simple_count f d) frames (self m))
                 a (trace m ++ evs))
    /\ sends evs = map simple_command (simple_verdicts frames (self m))
    /\ link_status a = link_status (arduino m).
Proof.
  induction frames as [|f frames IH]; intros m.
  - exists (arduino m), []. rewrite app_nil_r. destruct m. repeat split.
  - cbn [for_each]. unfold SimpleSleepinessDetector.step at 1. unfold bind at 1 2.
    rewrite simple_detect_spec.
    match goal with |- context [SimpleSleepinessDetector.signal_alert ?b ?m1] =>
      destruct (simple_signal_alert_spec b m1) as (a1 & evs1 & E1 & S1 & L1) end.
    rewrite E1.
    match type of E1 with _ = (_, ?m2) =>
      destruct (IH m2) as (a2 & evs2 & E2 & S2 & L2) end.
    rewrite E2. cbn [self trace arduino set_self] in *.
    exists a2, (evs1 ++ evs2). rewrite app_assoc, sends_app, S1, S2.
    split; [reflexivity|]. split; [reflexivity|]. congruence.
Qed.

(** X6.  The loop of [SimpleSleepinessDetector.run] never ends with an
    exception and sends exactly one command on every frame, whatever the
    frames: ['0'] on the frames [detect_sleepiness] answers with
    [is_sleepy] true, ['1'] on all the others. *)
Theorem simple_one_command_per_frame
    (frames : list Frame) (m : SimpleSleepinessDetector.Detector) :
  exists vs m1 m' evs,
    for_collect frames SimpleSleepinessDetector.detect_sleepiness m = (inr vs, m1)
    /\ for_each frames SimpleSleepinessDetector.step m = (inr tt, m')
    /\ trace m' = trace m ++ evs
    /\ self m' = self m1
    /\ sends evs
       = map (fun v => if SimpleSleepinessDetector.is_sleepy v then "0" else "1") vs
    /\ List.length (sends evs) = List.length frames.
Proof.
  destruct (simple_collect_spec frames m) as (d & E1 & Hd).
  destruct (simple_loop_spec frames m) as (a & evs & E2 & S & _).
  do 3 eexists. exists evs. split; [exact E1|]. split; [exact E2|].
  split; [reflexivity|]. split; [cbn; congruence|]. split; [exact S|].
  rewrite S, length_map. clear. revert m.
  induction frames as [|f frames IH]; intros m; [reflexivity|].
  cbn. f_equal. exact (IH (set_self (simple_count f) m)).
Qed.

Lemma simple_verdicts_absent (frames : list Frame) :
  forall d : SimpleSleepinessDetector.Fields,
    Forall no_face_frame frames ->
    simple_verdicts frames d
    = map (fun k =>
             (false,
              if SimpleSleepinessDetector.no_face_counter d + Z.of_nat k
                 >? SimpleSleepinessDetector.FACE_ABSENT_THRESHOLD d
              then StNoDriver
              else StSearching (SimpleSleepinessDetector.no_face_counter d + Z.of_nat k)))
          (seq 1 (List.length frames)).
Proof.
  induction frames as [|f frames IH]; intros d Hall; [reflexivity|].
  inversion Hall as [|? ? Hf Hrest]; subst.
  cbn [simple_verdicts List.length seq map]. f_equal.
  - unfold simple_verdict. unfold no_face_frame in Hf. rewrite Hf. reflexivity.
  - rewrite (IH _ Hrest). rewrite <- (seq_shift (List.length frames) 1), map_map.
    apply map_ext. intros k.
    unfold simple_count. unfold no_face_frame in Hf. rewrite Hf. cbn.
    replace (SimpleSleepinessDetector.no_face_counter d + 1 + Z.of_nat k)
      with (SimpleSleepinessDetector.no_face_counter d + Z.of_nat (S k)) by lia.
    reflexivity.
Qed.

(** X7.  In [SimpleSleepinessDetector] the absence of a face never alerts,
    however long it lasts: over a run of frames without a face that starts
    with [no_face_counter] at 0, [detect_sleepiness] answers [is_sleepy]
    false every time, with the line "Searching for face... (k)" on calls 1
    to [FACE_ABSENT_THRESHOLD] and "No face detected" after, and the loop
    sends ['1'] on every one of those frames. *)
Theorem simple_absence_never_alerts
    (frames : list Frame) (m : SimpleSleepinessDetector.Detector) :
  Forall no_face_frame frames ->
  SimpleSleepinessDetector.no_face_counter (self m) = 0 ->
  exists m1 m' evs,
    for_collect frames SimpleSleepinessDetector.detect_sleepiness m
    = (inr (map (fun k =>
                   (false,
                    if Z.of_nat k >? SimpleSleepinessDetector.FACE_ABSENT_THRESHOLD (self m)
                    then StNoDriver else StSearching (Z.of_nat k)))
                (seq 1 (List.length frames))),
       m1)
    /\ for_each frames SimpleSleepinessDetector.step m = (inr tt, m')
    /\ trace m' = trace m ++ evs
    /\ sends evs = repeat "1" (List.length frames).
Proof.
  intros Hall H0.
  destruct (simple_collect_spec frames m) as (d & E1 & _).
  destruct (simple_loop_spec frames m) as (a & evs & E2 & S & _).
  rewrite (simple_verdicts_absent _ Hall), H0 in E1, S.
  do 2 eexists. exists evs. split; [exact E1|]. split; [exact E2|].
  split; [reflexivity|]. rewrite S, map_map. cbn.
  clear. generalize 1%nat. induction (List.length frames) as [|n IH]; intros s.
  - reflexivity.
  - cbn. f_equal. apply IH.
Qed.

(** Forty frames without a face for a new detector. *)
Lemma simple_absence_never_alerts_witness :
  let m := SimpleSleepinessDetector.fresh in
  let frames := repeat empty_frame 40 in
  Forall no_face_frame frames
  /\ SimpleSleepinessDetector.no_face_counter (self m) = 0
  /\ exists m' evs,
      for_each frames SimpleSleepinessDetector.step m = (inr tt, m')
      /\ trace m' = trace m ++ evs
      /\ sends evs = repeat "1" 40.
Proof.
  intros m frames.
  assert (H1 : Forall no_face_frame frames).
  { apply Forall_forall. intros x Hx. apply repeat_spec in Hx. subst x. reflexivity. }
  assert (H2 : SimpleSleepinessDetector.no_face_counter (self m) = 0) by reflexivity.
  split; [exact H1|]. split; [exact H2|].
  destruct (@simple_absence_never_alerts frames m H1 H2) as (m1 & m' & evs & _ & E & T & S).
  exists m', evs. split; [exact E|]. split; [exact T|exact S].
Defined.

(** ** [SleepinessDetector], whatever the frames *)

Section EarMore.

Context {F : Type} {arith : Arith F}.

(** The ratio of a face is always computed: the two eyes have six
    landmarks each. *)
Lemma avg_ear_total (face : Face) :
  exists ear : F, SleepinessDetector.avg_ear face = inr ear.
Proof. eexists. reflexivity. Qed.

Lemma ear_count_sleepy (ear : F) (d : @SleepinessDetector.Fields F) :
  SleepinessDetector.sleepy_counter (ear_count ear d)
  = SleepinessDetector.sleepy_counter d
    + Z.of_nat (count_occ string_dec (ear_command ear d) "0")
  /\ (List.length (ear_command ear d) <= 1)%nat.
Proof.
  unfold ear_count, ear_command, ear_outcome.
  destruct (fltb ear (SleepinessDetector.EAR_THRESHOLD d)); [|cbn; lia].
  destruct (_ >=? _); cbn; lia.
Qed.

Lemma ear_process_frame_spec (faces : list Face) :
  forall m : @SleepinessDetector.Detector F,
  exists outs m' evs,
    SleepinessDetector.process_frame faces m = (inr outs, m')
    /\ trace m' = trace m ++ evs
    /\ SleepinessDetector.sleepy_counter (self m')
       = SleepinessDetector.sleepy_counter (self m)
         + Z.of_nat (count_occ string_dec (sends evs) "0")
    /\ (List.length (sends evs) <= List.length faces)%nat
    /\ link_status (arduino m') = link_status (arduino m).
Proof.
  unfold SleepinessDetector.process_frame.
  induction faces as [|face faces IH]; intros m.
  - exists [], m, []. rewrite app_nil_r. cbn. repeat split; lia.
  - destruct (avg_ear_total face) as (ear & Hear).
    cbn [for_collect]. unfold bind at 1.
    unfold SleepinessDetector.process_face at 1. rewrite Hear.
    unfold SleepinessDetector.lift. unfold bind at 1. unfold ret at 1.
    destruct (ear_check_eyes_spec ear m) as (a & evs1 & E1 & S1 & _ & L1).
    rewrite E1. unfold bind at 1.
    match goal with |- context [for_collect faces _ ?m1] =>
      destruct (IH m1) as (outs & m' & evs2 & E2 & T2 & C2 & N2 & L2) end.
    rewrite E2. unfold ret. do 2 eexists. exists (evs1 ++ evs2).
    split; [reflexivity|]. cbn [self trace arduino] in *.
    destruct (ear_count_sleepy ear (self m)) as [Hc Hn].
    rewrite T2, app_assoc, sends_app, count_occ_app, length_app, S1, C2, Hc.
    split; [reflexivity|]. split; [lia|]. split; [cbn [List.length]; lia|].
    congruence.
Qed.

Lemma ear_loop_spec (frames : list (list Face)) :
  forall m : @SleepinessDetector.Detector F,
  exists m' evs,
    for_each frames (fun fr => SleepinessDetector.process_frame fr ;; ret tt) m
    = (inr tt, m')
    /\ trace m' = trace m ++ evs
    /\ SleepinessDetector.sleepy_counter (self m')
       = SleepinessDetector.sleepy_counter (self m)
         + Z.of_nat (count_occ string_dec (sends evs) "0")
    /\ (List.length (sends evs) <= List.length (List.concat frames))%nat
    /\ link_status (arduino m') = link_status (arduino m).
Proof.
  induction frames as [|fr frames IH]; intros m.
  - exists m, []. rewrite app_nil_r. cbn. repeat split; lia.
  - cbn [for_each]. unfold bind at 1 2.
    destruct (ear_process_frame_spec fr m) as (outs & m1 & evs1 & E1 & T1 & C1 & N1 & L1).
    rewrite E1. unfold ret at 1.
    destruct (IH m1) as (m2 & evs2 & E2 & T2 & C2 & N2 & L2).
    rewrite E2. exists m2, (evs1 ++ evs2).
    rewrite T2, T1, app_assoc, sends_app, count_occ_app, length_app, C2, C1.
    split; [reflexivity|]. split; [reflexivity|]. split; [lia|].
    split; [cbn [List.concat]; rewrite length_app; lia|congruence].
Qed.

End EarMore.

Section EarAbsence.

Context {F : Type} {arith : Arith F}.

Lemma ear_observe_with_gaps (frames : list (list Face)) :
  forall m : @SleepinessDetector.Detector F,
    Forall (faceless_or_below (SleepinessDetector.EAR_THRESHOLD (self m))) frames ->
    exists outs m',
      SleepinessDetector.observe_all frames m = (inr outs, m')
      /\ List.concat outs
         = debounced (SleepinessDetector.CONSECUTIVE_FRAMES (self m)
                      - SleepinessDetector.frame_counter (self m))
                     (with_face frames)
      /\ SleepinessDetector.frame_counter (self m')
         = SleepinessDetector.frame_counter (self m) + Z.of_nat (with_face frames).
Proof.
  unfold SleepinessDetector.observe_all.
  induction frames as [|fr frames IH]; intros m Hall.
  - exists [], m. repeat split. cbn. lia.
  - inversion Hall as [|? ? Hf Hrest]; subst.
    destruct Hf as [-> | (face & ear & -> & He & Hlt)].
    + destruct (IH m Hrest) as (outs & m' & E & Hc & Hn).
      cbn [for_collect]. unfold bind at 1.
      unfold SleepinessDetector.process_frame at 1. cbn [for_collect].
      unfold ret at 1. unfold bind at 1. rewrite E. unfold ret.
      exists ([] :: outs), m'. split; [reflexivity|]. split; [exact Hc|exact Hn].
    + cbn [for_collect]. unfold bind at 1.
      destruct (ear_process_frame_one m He) as (a & evs & E & _). rewrite E.
      cbv beta iota. unfold bind at 1.
      set (c := SleepinessDetector.frame_counter (self m)) in *.
      set (n := SleepinessDetector.CONSECUTIVE_FRAMES (self m)) in *.
      assert (Hd : ear_count ear (self m)
                   = SleepinessDetector.mkFields
                       (SleepinessDetector.EAR_THRESHOLD (self m)) n (c + 1)
                       (SleepinessDetector.sleepy_counter (ear_count ear (self m)))).
      { unfold ear_count. rewrite Hlt. fold c n. destruct (_ >=? _); reflexivity. }
      match goal with |- context [for_collect frames _ ?m1] =>
        destruct (IH m1) as (outs & m' & E' & Hc & Hn) end.
      { cbn [self]. rewrite Hd. exact Hrest. }
      rewrite E'. unfold ret. do 2 eexists. split; [reflexivity|].
      cbn [self] in Hc, Hn. rewrite Hd in Hc, Hn.
      cbn [SleepinessDetector.CONSECUTIVE_FRAMES SleepinessDetector.frame_counter]
        in Hc, Hn.
      assert (Hw : with_face ([face] :: frames) = S (with_face frames)) by reflexivity.
      rewrite Hw. split; [|lia].
      cbn [List.concat app]. rewrite Hc, debounced_cons. f_equal.
      * unfold ear_outcome, nth_call_outcome. rewrite Hlt. fold c n.
        destruct (Z.geb_spec (c + 1) n), (Z.leb_spec (n - c) (Z.of_nat 1));
          try reflexivity; lia.
      * unfold debounced. rewrite map_map. apply map_ext. intros k.
        unfold nth_call_outcome.
        destruct (Z.leb_spec (n - (c + 1)) (Z.of_nat k)),
                 (Z.leb_spec (n - c) (Z.of_nat (S k))); try reflexivity; lia.
Qed.

End EarAbsence.

(** X8.  In [SleepinessDetector] a frame in which no face is found changes
    nothing: the closed-eye count is kept.  Over frames that each show
    either no face or one face with the ratio below the threshold, starting
    with [frame_counter] at 0, the frames that show a face are answered
    [UNCERTAIN] up to the ([CONSECUTIVE_FRAMES] - 1)-th of them and
    [EYES_CLOSED] from the [CONSECUTIVE_FRAMES]-th on, however many
    faceless frames lie in between; the faceless frames get no answer. *)
Theorem ear_absence_keeps_count {F : Type} {arith : Arith F}
    (frames : list (list Face)) (m : @SleepinessDetector.Detector F) :
  Forall (faceless_or_below (SleepinessDetector.EAR_THRESHOLD (self m))) frames ->
  SleepinessDetector.frame_counter (self m) = 0 ->
  exists outs m',
    SleepinessDetector.observe_all frames m = (inr outs, m')
    /\ List.concat outs
       = debounced (SleepinessDetector.CONSECUTIVE_FRAMES (self m)) (with_face frames)
    /\ SleepinessDetector.frame_counter (self m') = Z.of_nat (with_face frames).
Proof.
  intros Hall H0.
  destruct (ear_observe_with_gaps m Hall) as (outs & m' & E & Hc & Hn).
  rewrite H0, Z.sub_0_r in Hc. rewrite H0 in Hn.
  exists outs, m'. split; [exact E|]. split; [exact Hc|exact Hn].
Qed.

(** Nineteen low-ratio frames, five frames without a face, one more
    low-ratio frame: the twentieth frame with a face is answered
    [EYES_CLOSED]. *)
Lemma ear_absence_keeps_count_witness :
  let m := SleepinessDetector.fresh (F:=float) in
  let frames := repeat [sample_face 1] 19 ++ repeat [] 5 ++ [[sample_face 1]] in
  Forall (faceless_or_below (SleepinessDetector.EAR_THRESHOLD (self m))) frames
  /\ SleepinessDetector.frame_counter (self m) = 0
  /\ exists outs m',
      SleepinessDetector.observe_all frames m = (inr outs, m')
      /\ List.concat outs = debounced 20 20
      /\ SleepinessDetector.frame_counter (self m') = 20.
Proof.
  intros m frames.
  assert (H1 : Forall (faceless_or_below (SleepinessDetector.EAR_THRESHOLD (self m)))
                      frames).
  { unfold frames. apply Forall_app. split; [|apply Forall_app; split].
    - eapply Forall_impl; [|apply (sample_looks_below 19)].
      intros fr H. right. exact H.
    - apply Forall_forall. intros x Hx. apply repeat_spec in Hx. left. exact Hx.
    - constructor; [|constructor]. right.
      pose proof (sample_looks_below 1) as H. inversion H; assumption. }
  assert (H2 : SleepinessDetector.frame_counter (self m) = 0) by reflexivity.
  split; [exact H1|]. split; [exact H2|].
  exact (@ear_absence_keeps_count float float_arith frames m H1 H2).
Defined.

(** X9.  The loop of [SleepinessDetector.run] never ends with an exception,
    whatever faces the frames show; [sleepy_counter] grows by exactly the
    number of ['0'] commands sent, and at most one command is sent for each
    face seen. *)
Theorem ear_sleepy_counter_counts_alerts {F : Type} {arith : Arith F}
    (frames : list (list Face)) (m : @SleepinessDetector.Detector F) :
  exists m' evs,
    for_each frames (fun fr => SleepinessDetector.process_frame fr ;; ret tt) m
    = (inr tt, m')
    /\ trace m' = trace m ++ evs
    /\ SleepinessDetector.sleepy_counter (self m')
       = SleepinessDetector.sleepy_counter (self m)
         + Z.of_nat (count_occ string_dec (sends evs) "0")
    /\ (List.length (sends evs) <= List.length (List.concat frames))%nat.
Proof.
  destruct (ear_loop_spec frames m) as (m' & evs & E & T & C & N & _).
  exists m', evs. split; [exact E|]. split; [exact T|]. split; [exact C|exact N].
Qed.

(** ** More on the eye aspect ratio *)

(** X10.  [calculate_ear] raises [IndexError] exactly when it is given
    fewer than six landmarks; given six or more it returns the ratio of the
    first six and ignores the rest.  The eyes [extract_eye_points] takes
    from a face have six landmarks each. *)
Theorem calculate_ear_indexing {F : Type} {arith : Arith F}
    (pts : list Point) (face : Face) :
  let o : Point := (0, 0) in
  SleepinessDetector.calculate_ear (F:=F) pts
  = (if (List.length pts <? 6)%nat then inl IndexError
     else inr (fdiv (fadd (SleepinessDetector.euclidean (nth 1 pts o) (nth 5 pts o))
                          (SleepinessDetector.euclidean (nth 2 pts o) (nth 4 pts o)))
                    (fmul (of_int 2)
                          (SleepinessDetector.euclidean (nth 0 pts o) (nth 3 pts o)))))
  /\ List.length (SleepinessDetector.extract_eye_points
                    face SleepinessDetector.LEFT_EYE_POINTS) = 6%nat
  /\ List.length (SleepinessDetector.extract_eye_points
                    face SleepinessDetector.RIGHT_EYE_POINTS) = 6%nat.
Proof.
  intros o. split; [|split; reflexivity].
  destruct pts as [|p0 [|p1 [|p2 [|p3 [|p4 [|p5 rest]]]]]]; reflexivity.
Qed.

Section EarGeometry.

Context {F : Type} {arith : Arith F}.

Lemma euclidean_shift (t u v : Point) :
  SleepinessDetector.euclidean (F:=F) (shift t u) (shift t v)
  = SleepinessDetector.euclidean u v.
Proof.
  unfold SleepinessDetector.euclidean, shift. cbn [fst snd].
  replace (fst u + fst t - (fst v + fst t)) with (fst u - fst v) by lia.
  replace (snd u + snd t - (snd v + snd t)) with (snd u - snd v) by lia.
  reflexivity.
Qed.

Lemma calculate_ear_shift (t : Point) (pts : list Point) :
  SleepinessDetector.calculate_ear (F:=F) (map (shift t) pts)
  = SleepinessDetector.calculate_ear pts.
Proof.
  destruct pts as [|p0 [|p1 [|p2 [|p3 [|p4 [|p5 rest]]]]]]; try reflexivity.
  unfold SleepinessDetector.calculate_ear. cbn. rewrite !euclidean_shift.
  reflexivity.
Qed.

End EarGeometry.

(** X11.  The ratio does not depend on where the face is in the picture:
    moving every landmark by the same number of pixels leaves the result of
    [calculate_ear], and the averaged ratio [process_frame] computes for a
    face, unchanged, in binary64 as in any other arithmetic. *)
Theorem ear_translation_invariant {F : Type} {arith : Arith F}
    (t : Point) (pts : list Point) (face : Face) :
  SleepinessDetector.calculate_ear (F:=F) (map (shift t) pts)
  = SleepinessDetector.calculate_ear pts
  /\ SleepinessDetector.avg_ear (F:=F) (mkFace (fun i => shift t (part face i)))
     = SleepinessDetector.avg_ear face.
Proof.
  split; [apply calculate_ear_shift|].
  unfold SleepinessDetector.avg_ear, SleepinessDetector.extract_eye_points.
  cbn [part].
  rewrite <- !(map_map (part face) (shift t)), !calculate_ear_shift.
  reflexivity.
Qed.

(** X12.  In binary64 the result of [calculate_ear] on landmarks of one
    picture (up to 4096 by 4096 pixels) is determined by the three squared
    pixel distances it measures: two eyes with the same three squared
    distances, such as an eye and the same eye mirrored, turned by a
    quarter or moved, get the same float, bit for bit.  It is not
    determined by the shape of the eye alone: in a picture three times as
    large, [slanted_eye] gets a strictly smaller float. *)
Theorem ear_binary64_geometry
    (u1 u2 u3 u4 u5 u6 : Point) (v1 v2 v3 v4 v5 v6 : Point) :
  within PICTURE u2 u6 -> within PICTURE u3 u5 -> within PICTURE u1 u4 ->
  within PICTURE v2 v6 -> within PICTURE v3 v5 -> within PICTURE v1 v4 ->
  sqdist u2 u6 = sqdist v2 v6 ->
  sqdist u3 u5 = sqdist v3 v5 ->
  sqdist u1 u4 = sqdist v1 v4 ->
  SleepinessDetector.calculate_ear (F:=float) [u1; u2; u3; u4; u5; u6]
  = SleepinessDetector.calculate_ear (F:=float) [v1; v2; v3; v4; v5; v6]
  /\ match SleepinessDetector.calculate_ear (F:=float) slanted_eye,
           SleepinessDetector.calculate_ear (F:=float) (map (scale 3) slanted_eye)
     with
     | inr ear, inr ear3 => PrimFloat.ltb ear3 ear = true
     | _, _ => False
     end.
Proof.
  intros HuA HuB HuC HvA HvB HvC EA EB EC. split.
  - rewrite (calculate_ear_binary64 HuA HuB HuC).
    rewrite (calculate_ear_binary64 HvA HvB HvC).
    rewrite EA, EB, EC. reflexivity.
  - vm_compute. reflexivity.
Qed.

(** [slanted_eye] and its mirror image in a picture 7 pixels wide. *)
Lemma ear_binary64_geometry_witness :
  SleepinessDetector.calculate_ear (F:=float) slanted_eye
  = SleepinessDetector.calculate_ear (F:=float)
      [(6, 1); (5, 0); (4, 0); (0, 1); (2, 2); (3, 2)].
Proof.
  refine (proj1 (@ear_binary64_geometry
                   (0, 1) (1, 0) (2, 0) (6, 1) (4, 2) (3, 2)
                   (6, 1) (5, 0) (4, 0) (0, 1) (2, 2) (3, 2)
                   _ _ _ _ _ _ _ _ _));
    try (unfold within, sqdist, PICTURE; cbn; lia); reflexivity.
Defined.

(** ** The voice variant beside the plain car *)

(** What [send_to_arduino] does to the link and to the record of events
    does not depend on the class it is called in. *)
Lemma send_to_arduino_param {D} (signal : string) (m : Machine D) :
  send_to_arduino signal m
  = (inr tt,
     mkMachine (self m) (port_after_send signal (arduino m))
               (trace m ++ send_events signal (arduino m))).
Proof.
  destruct m as [d [[o w fs]|] tr];
    unfold port_after_send, send_events, send_to_arduino, Serial_write,
      Serial_flush, next_fault; run_monad;
    [destruct o; [destruct fs as [|[] [|[] fs]]|] |]; run_monad;
    rewrite <- ?app_assoc; reflexivity.
Qed.

Lemma sends_send_events (signal : string) (a : option Serial) :
  sends (send_events signal a) = [signal].
Proof.
  destruct (send_to_arduino_spec signal (mkMachine tt a [])) as (a' & evs & E & Hs & _).
  unfold send_events. rewrite E. cbn. rewrite Hs. reflexivity.
Qed.

Ltac both_cars :=
  cbn [EyeControlledCar.EYE_CLOSED_THRESHOLD EyeControlledCar.eye_closed_counter
       EyeControlledCar.no_face_counter EyeControlledCar.frame_count
       EyeControlledCar.car_running EyeControlledCar.set_eye_closed_counter
       EyeControlledCar.set_no_face_counter EyeControlledCar.set_frame_count
       EyeControlledCar.set_car_running EyeControlledCar.eyes_open
       EyeControlledCarWithVoice.EYE_CLOSED_THRESHOLD
       EyeControlledCarWithVoice.eye_closed_counter
       EyeControlledCarWithVoice.no_face_counter
       EyeControlledCarWithVoice.frame_count
       EyeControlledCarWithVoice.car_running
       EyeControlledCarWithVoice.voice_active
       EyeControlledCarWithVoice.set_eye_closed_counter
       EyeControlledCarWithVoice.set_no_face_counter
       EyeControlledCarWithVoice.set_frame_count
       EyeControlledCarWithVoice.set_car_running
       EyeControlledCarWithVoice.set_voice_active
       EyeControlledCarWithVoice.eyes_open
       fst snd self arduino trace negb] in *.

Section VoiceBesideCar.

Context {F : Type} {arith : Arith F}.

Lemma voice_step_simulates (tk : @EyeControlledCarWithVoice.Tick F) (last : F)
    (mv : EyeControlledCarWithVoice.Car) (mc : EyeControlledCar.Car) :
  same_car (self mv) (self mc) ->
  arduino mv = arduino mc ->
  exists last' mv' mc' ev ec,
    EyeControlledCarWithVoice.step tk last mv = (inr last', mv')
    /\ EyeControlledCar.step (EyeControlledCarWithVoice.frame tk) mc = (inr tt, mc')
    /\ trace mv' = trace mv ++ ev
    /\ trace mc' = trace mc ++ ec
    /\ sends ev = sends ec
    /\ same_car (self mv') (self mc')
    /\ arduino mv' = arduino mc'.
Proof.
  destruct mv as [[tv ev nv fv rv va] av trv], mc as [[tc ec nc fc rc] ac trc].
  unfold same_car. cbn. intros (-> & -> & -> & -> & ->) ->.
  unfold EyeControlledCarWithVoice.step, EyeControlledCar.step,
    EyeControlledCarWithVoice.detect_eye_state, EyeControlledCar.detect_eye_state,
    EyeControlledCarWithVoice.control_car, EyeControlledCar.control_car,
    EyeControlledCarWithVoice.say_voice.
  set (f := EyeControlledCarWithVoice.frame tk).
  destruct (len (faces f) =? 0);
    [|destruct (len (eyes f) <? 2)]; run_monad; both_cars;
    try destruct (ec + 1 >? tc); run_monad; both_cars;
    destruct rc; run_monad; both_cars;
    rewrite ?send_to_arduino_param; run_monad; both_cars;
    try destruct (negb va || _); run_monad; both_cars;
    (do 5 eexists; split; [reflexivity|]; split; [reflexivity|];
     split; [first [symmetry; apply app_nil_r
                   | rewrite <- ?app_assoc; reflexivity]|];
     split; [first [symmetry; apply app_nil_r
                   | rewrite <- ?app_assoc; reflexivity]|];
     split; [|split; [repeat split|reflexivity]]);
    cbn [app sends]; rewrite ?sends_app, ?sends_send_events; reflexivity.
Qed.

Lemma voice_loop_simulates (ticks : list (@EyeControlledCarWithVoice.Tick F)) :
  forall (last : F) (mv : EyeControlledCarWithVoice.Car) (mc : EyeControlledCar.Car),
    same_car (self mv) (self mc) ->
    arduino mv = arduino mc ->
    exists last' mv' mc' ev ec,
      EyeControlledCarWithVoice.loop ticks last mv = (inr last', mv')
      /\ for_each (map (@EyeControlledCarWithVoice.frame F) ticks)
                  EyeControlledCar.step mc = (inr tt, mc')
      /\ trace mv' = trace mv ++ ev
      /\ trace mc' = trace mc ++ ec
      /\ sends ev = sends ec
      /\ same_car (self mv') (self mc')
      /\ arduino mv' = arduino mc'.
Proof.
  induction ticks as [|tk ticks IH]; intros last mv mc Hs Ha.
  - exists last, mv, mc, [], []. rewrite !app_nil_r. repeat split; try apply Hs.
    exact Ha.
  - destruct (@voice_step_simulates tk last mv mc Hs Ha)
      as (l1 & mv1 & mc1 & ev1 & ec1 & E1 & E1' & T1 & T1' & S1 & H1 & A1).
    destruct (IH l1 mv1 mc1 H1 A1)
      as (l2 & mv2 & mc2 & ev2 & ec2 & E2 & E2' & T2 & T2' & S2 & H2 & A2).
    cbn [EyeControlledCarWithVoice.loop map for_each]. unfold bind.
    rewrite E1, E1', E2, E2'.
    exists l2, mv2, mc2, (ev1 ++ ev2), (ec1 ++ ec2).
    rewrite T2, T1, T2', T1', !app_assoc, !sends_app, S1, S2.
    repeat split; try apply H2. exact A2.
Qed.

End VoiceBesideCar.

(** X13.  The voice variant drives the car exactly as the plain one does:
    from the same threshold, counters, car state and link, the loop of
    [EyeControlledCarWithVoice.run] over some turns and the loop of
    [EyeControlledCar.run] over the frames of those turns both end without
    an exception, send the same commands in the same order, and leave the
    same counters, car state and link, whatever the clock and the alerts. *)
Theorem voice_drives_like_car {F : Type} {arith : Arith F}
    (ticks : list (@EyeControlledCarWithVoice.Tick F)) (last : F)
    (mv : EyeControlledCarWithVoice.Car) (mc : EyeControlledCar.Car) :
  same_car (self mv) (self mc) ->
  arduino mv = arduino mc ->
  exists last' mv' mc' ev ec,
    EyeControlledCarWithVoice.loop ticks last mv = (inr last', mv')
    /\ for_each (map (@EyeControlledCarWithVoice.frame F) ticks)
                EyeControlledCar.step mc = (inr tt, mc')
    /\ trace mv' = trace mv ++ ev
    /\ trace mc' = trace mc ++ ec
    /\ sends ev = sends ec
    /\ same_car (self mv') (self mc')
    /\ arduino mv' = arduino mc'.
Proof. intros Hs Ha. exact (@voice_loop_simulates F arith ticks last mv mc Hs Ha). Qed.

(** Two new cars, one of each class, on the same four turns. *)
Lemma voice_drives_like_car_witness :
  let ticks :=
    [ EyeControlledCarWithVoice.mkTick alert_frame 0%float 0;
      EyeControlledCarWithVoice.mkTick empty_frame 1%float 0;
      EyeControlledCarWithVoice.mkTick empty_frame 2%float 3;
      EyeControlledCarWithVoice.mkTick alert_frame 5%float 4 ] in
  let mv := EyeControlledCarWithVoice.fresh in
  let mc := EyeControlledCar.fresh in
  same_car (self mv) (self mc)
  /\ arduino mv = arduino mc
  /\ exists last' mv' mc' ev ec,
      EyeControlledCarWithVoice.loop ticks 0%float mv = (inr last', mv')
      /\ for_each (map (@EyeControlledCarWithVoice.frame float) ticks)
                  EyeControlledCar.step mc = (inr tt, mc')
      /\ trace mv' = trace mv ++ ev
      /\ trace mc' = trace mc ++ ec
      /\ sends ev = sends ec
      /\ same_car (self mv') (self mc')
      /\ arduino mv' = arduino mc'.
Proof.
  intros ticks mv mc.
  assert (Hs : same_car (self mv) (self mc)) by (repeat split).
  assert (Ha : arduino mv = arduino mc) by reflexivity.
  split; [exact Hs|]. split; [exact Ha|].
  exact (@voice_drives_like_car float float_arith ticks 0%float mv mc Hs Ha).
Defined.

(** ** The counters as streaks *)

Lemma streak_snoc (p : Frame -> bool) (frames : list Frame) (f : Frame) :
  streak p (frames ++ [f]) = if p f then S (streak p frames) else 0%nat.
Proof. unfold streak. rewrite fold_left_app. reflexivity. Qed.

Lemma streak_counter_snoc (p : Frame -> bool) (frames : list Frame) (f : Frame)
    (start : Z) :
  streak_counter p (frames ++ [f]) start
  = if p f then streak_counter p frames start + 1 else 0.
Proof.
  unfold streak_counter. rewrite forallb_app, streak_snoc, length_app. cbn.
  destruct (p f), (forallb p frames); cbn; lia.
Qed.

Lemma car_after_all_snoc (frames : list Frame) (f : Frame)
    (d : EyeControlledCar.Fields) :
  car_after_all (frames ++ [f]) d = car_after f (car_after_all frames d).
Proof. unfold car_after_all. rewrite fold_left_app. reflexivity. Qed.

Lemma car_after_all_streaks (frames : list Frame) (d : EyeControlledCar.Fields) :
  EyeControlledCar.eye_closed_counter (car_after_all frames d)
  = streak_counter is_closed frames (EyeControlledCar.eye_closed_counter d)
  /\ EyeControlledCar.no_face_counter (car_after_all frames d)
     = streak_counter is_no_face frames (EyeControlledCar.no_face_counter d)
  /\ EyeControlledCar.frame_count (car_after_all frames d)
     = EyeControlledCar.frame_count d + len frames
  /\ EyeControlledCar.EYE_CLOSED_THRESHOLD (car_after_all frames d)
     = EyeControlledCar.EYE_CLOSED_THRESHOLD d.
Proof.
  induction frames as [|f frames IH] using rev_ind.
  - unfold streak_counter, len. cbn. repeat split; lia.
  - destruct IH as (He & Hn & Hc & Ht).
    rewrite car_after_all_snoc, !streak_counter_snoc.
    unfold car_after, car_count, is_closed, is_no_face, len in *.
    rewrite length_app. cbn [List.length].
    destruct (Z.of_nat (List.length (faces f)) =? 0),
             (Z.of_nat (List.length (eyes f)) <? 2); cbn; repeat split; lia.
Qed.

(** X14.  In [EyeControlledCar] the two counters are streak lengths, not
    totals: after any number of turns of the loop, [no_face_counter] is the
    number of frames without a face at the end of the stream and
    [eye_closed_counter] the number of closed-eye frames at its end (added
    to the starting value if the whole stream was of that kind), while
    [frame_count] has grown by the number of frames and the threshold is
    untouched. *)
Theorem car_counters_are_streaks (frames : list Frame) (m : EyeControlledCar.Car) :
  exists m',
    for_each frames EyeControlledCar.step m = (inr tt, m')
    /\ EyeControlledCar.eye_closed_counter (self m')
       = streak_counter is_closed frames (EyeControlledCar.eye_closed_counter (self m))
    /\ EyeControlledCar.no_face_counter (self m')
       = streak_counter is_no_face frames (EyeControlledCar.no_face_counter (self m))
    /\ EyeControlledCar.frame_count (self m')
       = EyeControlledCar.frame_count (self m) + len frames
    /\ EyeControlledCar.EYE_CLOSED_THRESHOLD (self m')
       = EyeControlledCar.EYE_CLOSED_THRESHOLD (self m).
Proof.
  destruct (car_loop_spec frames m) as (a & evs & E & _).
  eexists. split; [exact E|]. cbn [self]. apply car_after_all_streaks.
Qed.

(** ** The largest face *)

Lemma max_by_first_largest {A} (key : A -> Z) (xs : list A) :
  forall best,
  exists before after,
    best :: xs = before ++ max_by key best xs :: after
    /\ Forall (fun x => key x < key (max_by key best xs)) before
    /\ Forall (fun x => key x <= key (max_by key best xs)) after.
Proof.
  induction xs as [|x xs IH]; intros best.
  - exists [], []. repeat split; constructor.
  - cbn [max_by]. destruct (Z.gtb_spec (key x) (key best)) as [Hgt|Hle].
    + destruct (IH x) as (b & a & E & Hb & Ha).
      exists (best :: b), a. rewrite E. split; [reflexivity|]. split; [|exact Ha].
      constructor; [|exact Hb].
      destruct b as [|y b].
      * cbn in E. injection E as Hx Hrest. rewrite <- Hx. lia.
      * cbn in E. injection E as Hy Hrest. subst y.
        inversion Hb as [|? ? Hxr Hb']; subst. lia.
    + destruct (IH best) as (b & a & E & Hb & Ha).
      destruct b as [|y b].
      * cbn in E. injection E as Hx Hrest.
        exists [], (x :: a). cbn. split; [congruence|]. split; [constructor|].
        constructor; [rewrite <- Hx; lia|exact Ha].
      * cbn in E. injection E as Hy Hrest. subst y.
        exists (best :: x :: b), a. cbn. split; [congruence|]. split; [|exact Ha].
        inversion Hb as [|? ? Hbr Hb']; subst. constructor; [assumption|].
        constructor; [lia|assumption].
Qed.

Lemma wrap_int32_fits (z : Z) :
  - 2147483648 <= z < 2147483648 -> wrap_int32 z = z.
Proof. intros H. unfold wrap_int32. rewrite Z.mod_small by lia. lia. Qed.

Lemma area_fits (r : Rect) : fits_int32 r -> area r = true_area r.
Proof.
  destruct r as [[[x y] w] h]. unfold fits_int32, area, true_area.
  apply wrap_int32_fits.
Qed.

(** X15.  [largest_face], the [max(faces, key=lambda x: x[2] * x[3])] of
    the detectors: it fails only on an empty sequence; otherwise it returns
    a face of the sequence with the largest key, and of several with that
    key the first.  The key is the [int32] product numpy computes; when the
    width times the height of every face is an [int32] (as of faces found
    in a picture of up to 46340 by 46340 pixels) it is the area, and the
    face returned is the first of the largest area. *)
Theorem largest_face_is_first_largest (faces : list Rect) :
  match largest_face faces with
  | None => faces = []
  | Some r =>
      exists before after,
        faces = before ++ r :: after
        /\ Forall (fun x => area x < area r) before
        /\ Forall (fun x => area x <= area r) after
        /\ (Forall fits_int32 faces ->
            Forall (fun x => true_area x < true_area r) before
            /\ Forall (fun x => true_area x <= true_area r) after)
  end.
Proof.
  destruct faces as [|f rest]; [reflexivity|].
  cbn [largest_face].
  destruct (max_by_first_largest area rest f) as (before & after & E & Hb & Ha).
  exists before, after. split; [exact E|]. split; [exact Hb|]. split; [exact Ha|].
  intros Hfit. rewrite E in Hfit. apply Forall_app in Hfit.
  destruct Hfit as [Fb Fr].
  pose proof (Forall_inv Fr) as Hr. pose proof (Forall_inv_tail Fr) as Fa.
  rewrite <- (area_fits Hr).
  split; apply Forall_forall; intros x Hx.
  - rewrite <- (area_fits (proj1 (Forall_forall _ _) Fb x Hx)).
    exact (proj1 (Forall_forall _ _) Hb x Hx).
  - rewrite <- (area_fits (proj1 (Forall_forall _ _) Fa x Hx)).
    exact (proj1 (Forall_forall _ _) Ha x Hx).
Qed.

(** Two faces in a picture of ordinary size, and a face so large that the
    key wraps around: the small face is kept. *)
Lemma largest_face_samples :
  largest_face [(10, 10, 80, 80); (200, 40, 120, 120); (5, 5, 120, 120)]
  = Some (200, 40, 120, 120)
  /\ largest_face [(0, 0, 46341, 46341); (0, 0, 10, 10)] = Some (0, 0, 10, 10).
Proof. split; reflexivity. Qed.

(** Three faces of ordinary size: the second is the first of the two
    largest. *)
Lemma largest_face_is_first_largest_witness :
  exists before after,
    [(10, 10, 80, 80); (200, 40, 120, 120); (5, 5, 120, 120)]
    = before ++ (200, 40, 120, 120) :: after
    /\ Forall (fun x => true_area x < true_area (200, 40, 120, 120)) before
    /\ Forall (fun x => true_area x <= true_area (200, 40, 120, 120)) after.
Proof.
  pose proof (largest_face_is_first_largest
                [(10, 10, 80, 80); (200, 40, 120, 120); (5, 5, 120, 120)]) as H.
  change (largest_face [(10, 10, 80, 80); (200, 40, 120, 120); (5, 5, 120, 120)])
    with (Some (200, 40, 120, 120)) in H.
  cbv beta iota in H.
  destruct H as (before & after & E & _ & _ & Hfit).
  exists before, after. split; [exact E|]. apply Hfit.
  repeat constructor; unfold fits_int32, true_area; lia.
Defined.

(** ** [SleepinessTestDetector] *)

Lemma test_detect_total (f : Frame) (d : SleepinessTestDetector.Fields) :
  exists v d',
    SleepinessTestDetector.detect_sleepiness f d = (inr v, d')
    /\ SleepinessTestDetector.EYE_CLOSED_THRESHOLD d'
       = SleepinessTestDetector.EYE_CLOSED_THRESHOLD d.
Proof.
  unfold SleepinessTestDetector.detect_sleepiness.
  destruct (len (faces f) =? 0); run_monad.
  - do 2 eexists. split; reflexivity.
  - destruct (len (eyes f) <? 2); run_monad.
    + cbn [SleepinessTestDetector.eye_closed_counter
           SleepinessTestDetector.EYE_CLOSED_THRESHOLD
           SleepinessTestDetector.set_eye_closed_counter
           SleepinessTestDetector.set_no_face_counter].
      destruct (_ >? _); run_monad; do 2 eexists; split; reflexivity.
    + do 2 eexists. split; reflexivity.
Qed.

Lemma test_detect_closed (f : Frame) (d : SleepinessTestDetector.Fields) :
  closed_frame f ->
  exists v,
    SleepinessTestDetector.detect_sleepiness f d
    = (inr v,
       SleepinessTestDetector.mkFields
         (SleepinessTestDetector.EYE_CLOSED_THRESHOLD d)
         (SleepinessTestDetector.eye_closed_counter d + 1)
         0
         (SleepinessTestDetector.total_frames d)
         (SleepinessTestDetector.alert_count d
          + (if SleepinessTestDetector.eye_closed_counter d + 1
                >? SleepinessTestDetector.EYE_CLOSED_THRESHOLD d
             then 1 else 0))).
Proof.
  intros [Hf He]. apply Z.eqb_neq in Hf. apply Z.ltb_lt in He.
  unfold SleepinessTestDetector.detect_sleepiness. rewrite Hf, He.
  destruct d as [t e n tf a]. run_monad.
  cbn [SleepinessTestDetector.eye_closed_counter
       SleepinessTestDetector.EYE_CLOSED_THRESHOLD
       SleepinessTestDetector.no_face_counter
       SleepinessTestDetector.total_frames
       SleepinessTestDetector.alert_count
       SleepinessTestDetector.set_eye_closed_counter
       SleepinessTestDetector.set_no_face_counter].
  destruct (e + 1 >? t); run_monad;
    cbn [SleepinessTestDetector.eye_closed_counter
         SleepinessTestDetector.EYE_CLOSED_THRESHOLD
         SleepinessTestDetector.no_face_counter
         SleepinessTestDetector.total_frames
         SleepinessTestDetector.alert_count
         SleepinessTestDetector.set_alert_count];
    eexists; rewrite ?Z.add_0_r; reflexivity.
Qed.

Lemma test_loop_closed (ticks : list SleepinessTestDetector.Tick) :
  forall d : SleepinessTestDetector.Fields,
    Forall closed_tick ticks ->
    exists d',
      SleepinessTestDetector.loop ticks d = (inr tt, d')
      /\ SleepinessTestDetector.EYE_CLOSED_THRESHOLD d'
         = SleepinessTestDetector.EYE_CLOSED_THRESHOLD d
      /\ SleepinessTestDetector.eye_closed_counter d'
         = SleepinessTestDetector.eye_closed_counter d + len ticks
      /\ SleepinessTestDetector.total_frames d'
         = SleepinessTestDetector.total_frames d + len ticks
      /\ SleepinessTestDetector.alert_count d'
         = SleepinessTestDetector.alert_count d
           + Z.max 0 (SleepinessTestDetector.eye_closed_counter d + len ticks
                      - Z.max (SleepinessTestDetector.eye_closed_counter d)
                              (SleepinessTestDetector.EYE_CLOSED_THRESHOLD d)).
Proof.
  induction ticks as [|[f k] ticks IH]; intros d Hall.
  - exists d. unfold len. cbn. repeat split; lia.
  - inversion Hall as [|? ? (Hf & Hq & Hr) Hrest]; subst. cbn [fst snd] in *.
    cbn [SleepinessTestDetector.loop]. unfold bind at 1, modify at 1.
    unfold bind at 1.
    match goal with |- context [SleepinessTestDetector.detect_sleepiness f ?d1] =>
      destruct (test_detect_closed d1 Hf) as (v & E); rewrite E end.
    apply Z.eqb_neq in Hq. apply Z.eqb_neq in Hr. rewrite Hq, Hr.
    unfold bind, ret.
    match goal with |- context [SleepinessTestDetector.loop ticks ?d2] =>
      destruct (IH d2 Hrest) as (d' & E' & Ht & He & Hn & Ha) end.
    rewrite E'. exists d'. split; [reflexivity|].
    cbn [SleepinessTestDetector.EYE_CLOSED_THRESHOLD
         SleepinessTestDetector.eye_closed_counter
         SleepinessTestDetector.total_frames
         SleepinessTestDetector.alert_count
         SleepinessTestDetector.set_total_frames] in *.
    unfold len in *. cbn [List.length].
    rewrite Ht, He, Hn, Ha.
    set (e := SleepinessTestDetector.eye_closed_counter d).
    set (t := SleepinessTestDetector.EYE_CLOSED_THRESHOLD d).
    repeat split; try lia.
    destruct (Z.gtb_spec (e + 1) t); lia.
Qed.

Lemma test_reset_tick (f0 : Frame) (rest : list SleepinessTestDetector.Tick)
    (d : SleepinessTestDetector.Fields) :
  exists n,
    SleepinessTestDetector.loop ((f0, SleepinessTestDetector.ord_r) :: rest) d
    = SleepinessTestDetector.loop rest
        (SleepinessTestDetector.mkFields
           (SleepinessTestDetector.EYE_CLOSED_THRESHOLD d) 0 n 0 0).
Proof.
  cbn [SleepinessTestDetector.loop]. unfold bind at 1. unfold modify at 1.
  cbv beta iota. unfold bind at 1.
  match goal with |- context [SleepinessTestDetector.detect_sleepiness f0 ?d0] =>
    destruct (test_detect_total f0 d0) as (v & d' & E & Ht); rewrite E end.
  cbv beta iota.
  change (SleepinessTestDetector.ord_r =? SleepinessTestDetector.ord_q) with false.
  change (SleepinessTestDetector.ord_r =? SleepinessTestDetector.ord_r) with true.
  cbv iota. unfold bind, modify.
  exists (SleepinessTestDetector.no_face_counter d').
  unfold SleepinessTestDetector.set_total_frames,
    SleepinessTestDetector.set_alert_count,
    SleepinessTestDetector.set_eye_closed_counter.
  cbn [SleepinessTestDetector.EYE_CLOSED_THRESHOLD
       SleepinessTestDetector.eye_closed_counter
       SleepinessTestDetector.no_face_counter
       SleepinessTestDetector.total_frames
       SleepinessTestDetector.alert_count] in *.
  rewrite Ht. reflexivity.
Qed.

(** X16.  [SleepinessTestDetector]: a turn on which ['r'] is pressed leaves
    [eye_closed_counter], [alert_count] and [total_frames] at 0 whatever
    the frame showed; over the closed-eye turns that follow, [alert_count]
    counts the frames beyond the threshold, one for each turn after the
    first [EYE_CLOSED_THRESHOLD], not the episodes of drowsiness. *)
Theorem test_detector_counts_alert_frames
    (f0 : Frame) (ticks : list SleepinessTestDetector.Tick)
    (d : SleepinessTestDetector.Fields) :
  Forall closed_tick ticks ->
  exists d1 d2,
    SleepinessTestDetector.loop [(f0, SleepinessTestDetector.ord_r)] d = (inr tt, d1)
    /\ SleepinessTestDetector.eye_closed_counter d1 = 0
    /\ SleepinessTestDetector.alert_count d1 = 0
    /\ SleepinessTestDetector.total_frames d1 = 0
    /\ SleepinessTestDetector.loop ((f0, SleepinessTestDetector.ord_r) :: ticks) d
       = (inr tt, d2)
    /\ SleepinessTestDetector.eye_closed_counter d2 = len ticks
    /\ SleepinessTestDetector.total_frames d2 = len ticks
    /\ SleepinessTestDetector.alert_count d2
       = Z.max 0 (len ticks
                  - Z.max 0 (SleepinessTestDetector.EYE_CLOSED_THRESHOLD d)).
Proof.
  intros Hall.
  destruct (test_reset_tick f0 [] d) as (n1 & E1).
  destruct (test_reset_tick f0 ticks d) as (n2 & E2).
  destruct (test_loop_closed
              (SleepinessTestDetector.mkFields
                 (SleepinessTestDetector.EYE_CLOSED_THRESHOLD d) 0 n2 0 0) Hall)
    as (d2 & E & Ht & He & Hn & Ha).
  cbn [SleepinessTestDetector.EYE_CLOSED_THRESHOLD
       SleepinessTestDetector.eye_closed_counter
       SleepinessTestDetector.total_frames
       SleepinessTestDetector.alert_count] in Ht, He, Hn, Ha.
  exists (SleepinessTestDetector.mkFields
            (SleepinessTestDetector.EYE_CLOSED_THRESHOLD d) 0 n1 0 0), d2.
  split; [exact E1|].
  split; [reflexivity|]. split; [reflexivity|]. split; [reflexivity|].
  split; [exact (eq_trans E2 E)|].
  rewrite He, Hn, Ha. repeat split; lia.
Qed.

(** Twenty-five closed-eye turns after a reset, threshold 20. *)
Lemma test_detector_counts_alert_frames_witness :
  let ticks := repeat (shut_frame, 255) 25 in
  let d := SleepinessTestDetector.mkFields 20 30 0 100 10 in
  Forall closed_tick ticks
  /\ exists d2,
      SleepinessTestDetector.loop
        ((alert_frame, SleepinessTestDetector.ord_r) :: ticks) d = (inr tt, d2)
      /\ SleepinessTestDetector.eye_closed_counter d2 = 25
      /\ SleepinessTestDetector.total_frames d2 = 25
      /\ SleepinessTestDetector.alert_count d2 = 5.
Proof.
  intros ticks d.
  assert (H : Forall closed_tick ticks).
  { apply Forall_forall. intros x Hx. apply repeat_spec in Hx. subst x.
    unfold closed_tick, closed_frame, shut_frame, len. cbn.
    repeat split; try lia; discriminate. }
  split; [exact H|].
  destruct (@test_detector_counts_alert_frames alert_frame ticks d H)
    as (d1 & d2 & _ & _ & _ & _ & E & He & Hn & Ha).
  exists d2. split; [exact E|]. split; [exact He|]. split; [exact Hn|exact Ha].
Defined.

(** X17.  [SleepinessTestDetector.run] looks at nothing after ['q']: the
    turns that follow a turn on which ['q'] is pressed change neither the
    result nor any counter. *)
Theorem test_detector_stops_at_quit
    (before after : list SleepinessTestDetector.Tick) (f : Frame)
    (d : SleepinessTestDetector.Fields) :
  SleepinessTestDetector.run (before ++ (f, SleepinessTestDetector.ord_q) :: after) d
  = SleepinessTestDetector.run (before ++ [(f, SleepinessTestDetector.ord_q)]) d.
Proof.
  unfold SleepinessTestDetector.run, try_finally.
  assert (H : SleepinessTestDetector.loop
                (before ++ (f, SleepinessTestDetector.ord_q) :: after) d
              = SleepinessTestDetector.loop
                  (before ++ [(f, SleepinessTestDetector.ord_q)]) d);
    [|rewrite H; reflexivity].
  revert d. induction before as [|[g k] before IH]; intros d.
  - cbn [app SleepinessTestDetector.loop]. unfold bind, modify.
    destruct (SleepinessTestDetector.detect_sleepiness f _) as [[e|v] d1];
      reflexivity.
  - cbn [app SleepinessTestDetector.loop]. unfold bind, modify.
    destruct (SleepinessTestDetector.detect_sleepiness g _) as [[e|v] d1];
      [reflexivity|].
    destruct (k =? SleepinessTestDetector.ord_q); [reflexivity|].
    destruct (k =? SleepinessTestDetector.ord_r); cbn; apply IH.
Qed.

(** ** [EyeDetectionAnalyzer] *)

Lemma for_collect_pure {S A B} (xs : list A) (body : A -> M S B) (g : A -> B) (s : S) :
  (forall x, In x xs -> body x s = (inr (g x), s)) ->
  for_collect xs body s = (inr (map g xs), s).
Proof.
  induction xs as [|x xs IH]; intros H; [reflexivity|].
  cbn [for_collect map]. unfold bind at 1. rewrite (H x (or_introl eq_refl)).
  unfold bind at 1. rewrite IH; [reflexivity|].
  intros y Hy. apply H. right. exact Hy.
Qed.

Lemma py_index_from_end {A} (xs : list A) (k : nat) (dflt : A) :
  (1 <= k <= List.length xs)%nat ->
  EyeDetectionAnalyzer.py_index xs (- Z.of_nat k)
  = inr (nth (List.length xs - k) xs dflt).
Proof.
  intros Hk. unfold EyeDetectionAnalyzer.py_index, len.
  destruct (Z.ltb_spec (- Z.of_nat k) 0) as [_|H]; [|lia].
  destruct (Z.ltb_spec (- Z.of_nat k + Z.of_nat (List.length xs)) 0) as [H|_]; [lia|].
  destruct (Z.leb_spec (Z.of_nat (List.length xs))
                       (- Z.of_nat k + Z.of_nat (List.length xs))) as [H|_]; [lia|].
  cbn [orb].
  replace (Z.to_nat (- Z.of_nat k + Z.of_nat (List.length xs)))
    with (List.length xs - k)%nat by lia.
  rewrite (nth_error_nth' xs dflt); [reflexivity|lia].
Qed.

Lemma py_index_before_start {A} (xs : list A) (k : nat) :
  (List.length xs < k)%nat ->
  EyeDetectionAnalyzer.py_index xs (- Z.of_nat k) = inl IndexError.
Proof.
  intros Hk. unfold EyeDetectionAnalyzer.py_index, len.
  destruct (Z.ltb_spec (- Z.of_nat k) 0) as [_|H]; [|lia].
  destruct (Z.ltb_spec (- Z.of_nat k + Z.of_nat (List.length xs)) 0) as [_|H]; [|lia].
  reflexivity.
Qed.

(** X18.  [draw_eye_graph] reads the history through
    [self.eye_history[-(30-i)]]: with a history of fewer than two counts it
    draws no line; with 2 to 29 counts its first look goes before the start
    of the list and it raises [IndexError]; only with 30 counts or more it
    draws its 29 lines, coloured by the 29 oldest of the last 30 counts.
    It changes no field. *)
Theorem analyzer_draw_eye_graph (d : EyeDetectionAnalyzer.Fields) :
  let h := EyeDetectionAnalyzer.eye_history d in
  let n := List.length h in
  EyeDetectionAnalyzer.draw_eye_graph d
  = (if (n <=? 1)%nat then inr []
     else if (n <? 30)%nat then inl IndexError
     else inr (map (fun i => nth (n - 30 + i) h 0 >=? 2) (seq 0 29)),
     d).
Proof.
  intros h n. unfold EyeDetectionAnalyzer.draw_eye_graph.
  unfold bind at 1, gets at 1. fold h. unfold len. fold n.
  destruct (Nat.leb_spec n 1) as [H1|H1].
  - destruct (Z.gtb_spec (Z.of_nat n) 1); [lia|reflexivity].
  - destruct (Z.gtb_spec (Z.of_nat n) 1); [|lia].
    assert (Hp : List.length (EyeDetectionAnalyzer.last_30 h) = Nat.min n 30).
    { unfold EyeDetectionAnalyzer.last_30. rewrite length_skipn. fold n. lia. }
    rewrite Hp.
    destruct (Nat.ltb_spec n 30) as [H30|H30].
    + replace (Nat.min n 30 - 1)%nat with (S (n - 2)) by lia.
      cbn [seq for_collect]. unfold bind at 1 2.
      change (30 - Z.of_nat 0) with (Z.of_nat 30).
      rewrite (py_index_before_start h) by (fold n; lia).
      reflexivity.
    + replace (Nat.min n 30 - 1)%nat with 29%nat by lia.
      apply for_collect_pure. intros i Hi. apply in_seq in Hi.
      unfold bind.
      replace (- (30 - Z.of_nat i)) with (- Z.of_nat (30 - i)) by lia.
      rewrite (py_index_from_end h 0) by (fold n; lia).
      unfold EyeDetectionAnalyzer.lift, ret. fold n.
      replace (n - (30 - i))%nat with (n - 30 + i)%nat by lia.
      reflexivity.
Qed.

(** X19.  [EyeDetectionAnalyzer.run] does not get past its second frame:
    starting with an empty history, the first turn ends normally, and if
    neither ['q'] nor ['c'] is pressed on it the second turn raises
    [IndexError] out of [draw_eye_graph], whatever the two frames show and
    whatever would follow; [run] ends with that exception, the two counts
    in the history and two frames counted. *)
Theorem analyzer_run_raises_on_second_frame
    (f1 f2 : EyeDetectionAnalyzer.Frame) (k1 k2 : Z)
    (rest : list EyeDetectionAnalyzer.Tick) (d : EyeDetectionAnalyzer.Fields) :
  EyeDetectionAnalyzer.eye_history d = [] ->
  k1 <> EyeDetectionAnalyzer.ord_q ->
  k1 <> EyeDetectionAnalyzer.ord_c ->
  fst (EyeDetectionAnalyzer.run [(f1, k1)] d) = inr tt
  /\ EyeDetectionAnalyzer.run ((f1, k1) :: (f2, k2) :: rest) d
     = (inl IndexError,
        EyeDetectionAnalyzer.mkFields
          (EyeDetectionAnalyzer.EYE_THRESHOLD d)
          [eye_count_of f1; eye_count_of f2]
          (EyeDetectionAnalyzer.frame_count d + 1 + 1)).
Proof.
  intros Hh Hq Hc. destruct d as [t h fc]. cbn in Hh. subst h.
  apply Z.eqb_neq in Hq. apply Z.eqb_neq in Hc.
  unfold eye_count_of, EyeDetectionAnalyzer.run, try_finally,
    EyeDetectionAnalyzer.cleanup.
  cbn [EyeDetectionAnalyzer.loop].
  destruct (EyeDetectionAnalyzer.analyze_eyes f1) as [[[c1 s1] a1] b1].
  destruct (EyeDetectionAnalyzer.analyze_eyes f2) as [[[c2 s2] a2] b2].
  run_monad. rewrite Hq, Hc.
  unfold EyeDetectionAnalyzer.set_eye_history, EyeDetectionAnalyzer.set_frame_count.
  cbn [EyeDetectionAnalyzer.eye_history EyeDetectionAnalyzer.frame_count
       EyeDetectionAnalyzer.EYE_THRESHOLD app].
  repeat first
    [ progress cbv beta iota
    | progress cbn [EyeDetectionAnalyzer.eye_history EyeDetectionAnalyzer.frame_count
                    EyeDetectionAnalyzer.EYE_THRESHOLD app]
    | progress change (len [c1] >? 30) with false
    | progress change (len [c1] >? 1) with false
    | progress change (len [c1; c2] >? 30) with false
    | progress change (len [c1; c2] >? 1) with true
    | rewrite analyzer_draw_eye_graph ].
  split; reflexivity.
Qed.

(** A new analyzer shown open eyes and then closed eyes, no key pressed. *)
Lemma analyzer_run_raises_on_second_frame_witness :
  let f1 := EyeDetectionAnalyzer.mkFrame
              [(100, 80, 200, 200)] [(30, 50, 40, 20); (120, 50, 40, 20)] [] [] in
  let f2 := EyeDetectionAnalyzer.mkFrame [(100, 80, 200, 200)] [] [] [] in
  let d := EyeDetectionAnalyzer.fresh in
  EyeDetectionAnalyzer.eye_history d = []
  /\ 255 <> EyeDetectionAnalyzer.ord_q
  /\ 255 <> EyeDetectionAnalyzer.ord_c
  /\ fst (EyeDetectionAnalyzer.run [(f1, 255)] d) = inr tt
  /\ EyeDetectionAnalyzer.run [(f1, 255); (f2, 255); (f1, 255)] d
     = (inl IndexError, EyeDetectionAnalyzer.mkFields 2 [2; 0] 2).
Proof.
  intros f1 f2 d.
  assert (H1 : EyeDetectionAnalyzer.eye_history d = []) by reflexivity.
  assert (H2 : 255 <> EyeDetectionAnalyzer.ord_q) by discriminate.
  assert (H3 : 255 <> EyeDetectionAnalyzer.ord_c) by discriminate.
  split; [exact H1|]. split; [exact H2|]. split; [exact H3|].
  exact (@analyzer_run_raises_on_second_frame f1 f2 255 255 [(f1, 255)] d H1 H2 H3).
Defined.
